(** * sctrace: the capture, queueing and formatting engine of Soarer's logic tracer

    A shallow embedding of [sctrace.c] and proofs about it:
    - the output queue ([oqnext], [oqpush], [oqempty], [oqpop]),
    - the capture interrupt routines ([_CAPTURE_ISR], [TIMER_ISR], [CAPTURE_ISR]),
    - the three stages of the body of [main]'s loop (dispatcher, formatter,
      transmitter) and the start-up code in front of it.

    Conventions.  A [uint8_t] is a [Z] in [0, 256) and every operation that can
    wrap is written with its [mod 256].  The arrays [oqueue] and [obuf] and the
    RAM page of the input queue are lists of such bytes; a pointer into
    [oqueue] is its byte offset from the start of the array.  A memory access
    outside the object it belongs to has no defined behaviour in C: the model
    makes it a fault, [None], and the theorems show that no fault happens. *)

From Stdlib Require Import ZArith Lia String Ascii.
From Stdlib Require Init.Byte.
From stdpp Require Import base option list.

Open Scope Z_scope.

(** ** Bytes and arrays *)

Definition is_byte (v : Z) : Prop := 0 <= v < 256.

(** [a[i]] for an array [a] held as a list: a fault outside the array. *)
Definition load (a : list Z) (i : Z) : option Z :=
  if 0 <=? i then a !! Z.to_nat i else None.

(** [a[i] = v]: a fault outside the array. *)
Definition store (a : list Z) (i : Z) (v : Z) : option (list Z) :=
  if (0 <=? i) && (i <? Z.of_nat (length a)) then Some (<[Z.to_nat i := v]> a)
  else None.

(** The value of a byte the hardware delivers. *)
Definition byte_val (b : Byte.byte) : Z := Z.of_N (Byte.to_N b).

(** ** Configuration *)

(** [CAPTURE_PORT] is ['D'] or ['B'], anything else is an [#error]. *)
Inductive capture_port := PortD | PortB.

(** What the build fixes and the sources under study do not: the RAM size of
    the device ([RAM_SIZE] is [RAMEND - RAMSTART + 1] from the device header)
    and the capture port chosen on the command line (['D'] when none is). *)
Class device := mkDevice {
  RAM_SIZE : Z;
  CAPTURE_PORT : capture_port
}.

(** The two registers the capture routine reads with [out]/[in], and the two
    halves of the timer it reads with [lds]. *)
Inductive ioreg := INTERRUPT_FLAG_REG | CAPTURE_PORT_IN.
Inductive sfr := TCNT1L | TCNT1H.

Definition IQPAGE : Z := 1.
Definition IQENTRYSZ : Z := 4.
Definition OQENTRYSZ : Z := 4.

(** ** hex *)

(** [inline char hex(uint8_t v)]: the sum is computed in [int] and converted
    to [char]; the result is the byte stored. '0' is 48 and 'A' is 65. *)
Definition hex (v : Z) : Z :=
  (v + (if v <? 10 then 48 else 65 - 10)) mod 256.

(** ** The output queue *)

Record oq := mkOq {
  oqueue : list Z;   (* uint8_t oqueue[OQSZ] *)
  oqhead : Z;        (* uint8_t* oqhead, as an offset into oqueue *)
  oqtail : Z         (* uint8_t* oqtail, as an offset into oqueue *)
}.

(** One entry of a queue: four bytes, in the order they lie in memory.  In
    the input queue they are the timer's low byte, its high byte, the port
    and the kind of the sample (zero for a timer tick); in the output queue
    the fourth is the flag [oqpush] was given. *)
Definition entry : Type := Z * Z * Z * Z.

Definition time_lo (x : entry) : Z := x.1.1.1.
Definition time_hi (x : entry) : Z := x.1.1.2.
Definition port_state (x : entry) : Z := x.1.2.
Definition kind (x : entry) : Z := x.2.

(** ** Rings of four-byte entries, read as lists

    Both queues are rings of [size] bytes in an array [m], with a head and a
    tail offset.  These functions give the entries a ring holds, oldest
    first; they are how the theorems speak about the contents of a queue. *)

Definition byte_at (m : list Z) (i : Z) : Z := default 0 (load m i).

Definition entry_at (m : list Z) (o : Z) : entry :=
  (byte_at m o, byte_at m (o + 1), byte_at m (o + 2), byte_at m (o + 3)).

(** Number of entries between the tail and the head. *)
Definition ring_count (size head tail : Z) : Z :=
  let d := head - tail in
  (if d <? 0 then d + size else d) / 4.

(** Offset of the [i]-th oldest entry. *)
Definition ring_slot (size tail i : Z) : Z :=
  let o := tail + 4 * i in
  if o <? size then o else o - size.

Definition ring_contents (size : Z) (m : list Z) (head tail : Z) : list entry :=
  map (fun i => entry_at m (ring_slot size tail (Z.of_nat i)))
      (seq 0 (Z.to_nat (ring_count size head tail))).

(** The cursor after [p]. *)
Definition ring_next (size p : Z) : Z := if p + 4 =? size then 0 else p + 4.

(** A cursor of a ring: inside it and on an entry boundary. *)
Definition cursor_ok (size p : Z) : Prop :=
  0 <= p < size /\ p mod 4 = 0.

Section OutputQueue.

Context {dev : device}.

Definition OQSZ : Z := Z.quot (RAM_SIZE - 512) OQENTRYSZ * OQENTRYSZ.

Definition oqnext (p : Z) : Z :=
  let pnext := p + OQENTRYSZ in
  if pnext =? OQSZ then 0 else pnext.

Definition oqpush (v1 v2 v3 v4 : Z) (q : oq) : option (Z * oq) :=
  let p := oqnext (oqhead q) in
  if p =? oqtail q then Some (0, q) (* full *)
  else
    m1 ← store (oqueue q) (oqhead q + 0) v1;
    m2 ← store m1 (oqhead q + 1) v2;
    m3 ← store m2 (oqhead q + 2) v3;
    m4 ← store m3 (oqhead q + 3) v4;
    Some (1, mkOq m4 p (oqtail q)).

Definition oqempty (q : oq) : Z :=
  if oqhead q =? oqtail q then 1 else 0.

(** [oqpop] returns its status, the four values it wrote through its pointer
    arguments ([None] when it wrote nothing) and the queue. *)
Definition oqpop (q : oq) : option (Z * option entry * oq) :=
  if negb (oqempty q =? 0) then Some (0, None, q) (* empty *)
  else
    v1 ← load (oqueue q) (oqtail q + 0);
    v2 ← load (oqueue q) (oqtail q + 1);
    v3 ← load (oqueue q) (oqtail q + 2);
    v4 ← load (oqueue q) (oqtail q + 3);
    Some (1, Some (v1, v2, v3, v4), mkOq (oqueue q) (oqhead q) (oqnext (oqtail q))).

(** The queue as the loader leaves it: [oqueue] zeroed, both cursors at its
    start. *)
Definition oq_init : oq := mkOq (replicate (Z.to_nat OQSZ) 0) 0 0.

(** *** The invariant of the cursors *)

Record oq_wf (q : oq) : Prop := mkOqWf {
  oq_wf_len : Z.of_nat (length (oqueue q)) = OQSZ;
  oq_wf_head : cursor_ok OQSZ (oqhead q);
  oq_wf_tail : cursor_ok OQSZ (oqtail q)
}.

(** *** The queue as the list of entries it holds, oldest first *)

Definition oq_count (q : oq) : Z := ring_count OQSZ (oqhead q) (oqtail q).

Definition oq_contents (q : oq) : list entry :=
  ring_contents OQSZ (oqueue q) (oqhead q) (oqtail q).

(** Usable capacity: one entry fewer than the array has slots. *)
Definition oq_capacity : Z := OQSZ / OQENTRYSZ - 1.

(** Pushing a list of entries one after the other, collecting the statuses. *)
Fixpoint oqpush_all (es : list entry) (q : oq) : option (list Z * oq) :=
  match es with
  | [] => Some ([], q)
  | (v1, v2, v3, v4) :: es' =>
      '(r, q1) ← oqpush v1 v2 v3 v4 q;
      '(rs, q2) ← oqpush_all es' q1;
      Some (r :: rs, q2)
  end.

End OutputQueue.

(** ** The capture interrupt routines *)

(** The registers the routines use ([register_vars.h] pins the variables
    [pinstate], [tcnt1l], [tcnt1h], [eifrclr], [iqhead] and [iqpage] to
    [r3]..[r6], [r26] and [r27]; [r1] is the compiler's [__zero_reg__]). *)
Inductive reg := r1 | r3 | r4 | r5 | r6 | r26 | r27.

Record cpu := mkCpu {
  zero_reg : Z;     (* r1 *)
  pinstate : Z;     (* r3 *)
  tcnt1l : Z;       (* r4 *)
  tcnt1h : Z;       (* r5 *)
  eifrclr : Z;      (* r6 *)
  iqhead : Z;       (* r26, low byte of X *)
  iqpage : Z;       (* r27, high byte of X *)
  iqueue : list Z;  (* the 256 bytes of RAM at IQPAGE << 8 *)
  iflags : Z        (* INTERRUPT_FLAG_REG, the pending capture interrupts *)
}.

Definition getr (r : reg) (c : cpu) : Z :=
  match r with
  | r1 => zero_reg c | r3 => pinstate c | r4 => tcnt1l c | r5 => tcnt1h c
  | r6 => eifrclr c | r26 => iqhead c | r27 => iqpage c
  end.

Definition setr (r : reg) (v : Z) (c : cpu) : cpu :=
  match r with
  | r1 => mkCpu v (pinstate c) (tcnt1l c) (tcnt1h c) (eifrclr c) (iqhead c) (iqpage c) (iqueue c) (iflags c)
  | r3 => mkCpu (zero_reg c) v (tcnt1l c) (tcnt1h c) (eifrclr c) (iqhead c) (iqpage c) (iqueue c) (iflags c)
  | r4 => mkCpu (zero_reg c) (pinstate c) v (tcnt1h c) (eifrclr c) (iqhead c) (iqpage c) (iqueue c) (iflags c)
  | r5 => mkCpu (zero_reg c) (pinstate c) (tcnt1l c) v (eifrclr c) (iqhead c) (iqpage c) (iqueue c) (iflags c)
  | r6 => mkCpu (zero_reg c) (pinstate c) (tcnt1l c) (tcnt1h c) v (iqhead c) (iqpage c) (iqueue c) (iflags c)
  | r26 => mkCpu (zero_reg c) (pinstate c) (tcnt1l c) (tcnt1h c) (eifrclr c) v (iqpage c) (iqueue c) (iflags c)
  | r27 => mkCpu (zero_reg c) (pinstate c) (tcnt1l c) (tcnt1h c) (eifrclr c) (iqhead c) v (iqueue c) (iflags c)
  end.

Definition set_iqueue (m : list Z) (c : cpu) : cpu :=
  mkCpu (zero_reg c) (pinstate c) (tcnt1l c) (tcnt1h c) (eifrclr c) (iqhead c) (iqpage c) m (iflags c).

Definition set_iflags (f : Z) (c : cpu) : cpu :=
  mkCpu (zero_reg c) (pinstate c) (tcnt1l c) (tcnt1h c) (eifrclr c) (iqhead c) (iqpage c) (iqueue c) f.

(** What the hardware delivers to one invocation: the port and the two
    halves of the timer, as read at that moment. *)
Record inputs := mkInputs {
  in_pin : Byte.byte;
  in_tcnt1l : Byte.byte;
  in_tcnt1h : Byte.byte
}.

(** What an instruction does outside the register file. *)
Inductive effect :=
| IoWrite (p : ioreg) (v : Z)
| IoRead (p : ioreg) (v : Z)
| SfrRead (a : sfr) (v : Z)
| RamWrite (addr : Z) (v : Z).

(** An instruction: a fault, or its effects and the next machine state. *)
Definition instr : Type := cpu -> option (list effect * cpu).

Definition seq_instr (i1 i2 : instr) : instr :=
  fun c =>
    '(e1, c1) ← i1 c;
    '(e2, c2) ← i2 c1;
    Some (e1 ++ e2, c2).

Declare Scope instr_scope.
Delimit Scope instr_scope with instr.
Bind Scope instr_scope with instr.
Notation "i1 ;; i2" := (seq_instr i1 i2)
  (at level 100, i2 at level 200, right associativity) : instr_scope.

(** [out %[eifr], r]: a pending flag is cleared by writing a one to it. *)
Definition out_eifr (r : reg) : instr :=
  fun c =>
    let v := getr r c in
    Some ([IoWrite INTERRUPT_FLAG_REG v],
          set_iflags (Z.land (iflags c) (Z.lxor 255 v)) c).

(** [in r, %[pin]] *)
Definition in_pin_ (r : reg) (e : inputs) : instr :=
  fun c =>
    let v := byte_val (in_pin e) in
    Some ([IoRead CAPTURE_PORT_IN v], setr r v c).

(** [lds r, %[tcnt1l]] and [lds r, %[tcnt1h]] *)
Definition lds (r : reg) (a : sfr) (e : inputs) : instr :=
  fun c =>
    let v := byte_val (match a with TCNT1L => in_tcnt1l e | TCNT1H => in_tcnt1h e end) in
    Some ([SfrRead a v], setr r v c).

(** The 16-bit pointer X. *)
Definition X (c : cpu) : Z := iqpage c * 256 + iqhead c.

(** [st X+, r]: store at X and increment the 16-bit X.  The model has the
    RAM of the input queue's page only: a store elsewhere is a fault. *)
Definition st_Xplus (r : reg) : instr :=
  fun c =>
    let a := X c in
    let v := getr r c in
    m ← store (iqueue c) (a - IQPAGE * 256) v;
    let x' := (a + 1) mod 65536 in
    Some ([RamWrite a v],
          setr r27 (x' / 256) (setr r26 (x' mod 256) (set_iqueue m c))).

(** [ldi r, k] *)
Definition ldi (r : reg) (k : Z) : instr :=
  fun c => Some ([], setr r k c).

(** [reti] hands control back; it touches nothing the model holds. *)
Definition reti : instr := fun c => Some ([], c).

Definition _CAPTURE_ISR (capflag : reg) (e : inputs) : instr :=
 (out_eifr r6 ;;           (* clear pending external interrupts *)
  in_pin_ r3 e ;;          (* read port *)
  lds r4 TCNT1L e ;;       (* read timer lo *)
  lds r5 TCNT1H e ;;       (* read timer hi *)
  st_Xplus r4 ;;           (* store timer lo *)
  st_Xplus r5 ;;           (* store timer hi *)
  st_Xplus r3 ;;           (* store port state *)
  st_Xplus capflag ;;      (* store non-zero byte to indicate capture *)
  ldi r27 IQPAGE ;;        (* reset high byte of X *)
  reti)%instr.

Definition TIMER_ISR : inputs -> instr := _CAPTURE_ISR r1.
Definition CAPTURE_ISR : inputs -> instr := _CAPTURE_ISR r6.

Inductive vector :=
| TIMER1_OVF_vect | INT0_vect | INT1_vect | INT2_vect | INT3_vect | PCINT0_vect.

Definition ISR (v : vector) : inputs -> instr :=
  match v with
  | TIMER1_OVF_vect => TIMER_ISR
  | _ => CAPTURE_ISR
  end.

(** ** The debug channel *)

(** Modelled from the spec: [usb_debug_putchar] is declared in
    [usb_debug_only.h] and defined outside the sources under study; the spec
    has it queue one character for transmission.  The channel is the list of
    the characters handed to it, oldest first. *)
Definition usb_debug_putchar (c : Z) (chan : list Z) : list Z := chan ++ [c].

(** Modelled from the spec: [print_P], behind the [print] macro of [print.h],
    is defined outside the sources under study; it sends the characters of a
    literal to the channel, in order. *)
Definition print_P (s : list Z) (chan : list Z) : list Z :=
  foldl (fun ch c => usb_debug_putchar c ch) chan s.

(** The character codes of a literal. *)
Definition chars (s : string) : list Z :=
  map (fun a => Z.of_nat (nat_of_ascii a)) (list_ascii_of_string s).

Definition LF : Z := 10.
Definition SPACE : Z := 32.

(** The text of the start-up banner, and the literal [main] prints. *)
Definition banner_text : list Z := chars "sctrace v1.01".
Definition banner : list Z := banner_text ++ [LF].

(** ** main *)

(** The variables of [main], the queue it owns, the machine state it shares
    with the interrupt routines and the debug channel. *)
Record state := mkState {
  hw : cpu;
  outq : oq;
  iqtail : Z;
  prev_pv : Z;
  allow_timer_events : Z;
  obuf : list Z;            (* static char obuf[16] *)
  obuf_idx : Z;
  remaining : Z;            (* static uint8_t remaining = items_per_line *)
  tx : list Z               (* what the debug channel was given *)
}.

Definition max_timer_events : Z := 2.
Definition items_per_line : Z := 10.

(** [!v] *)
Definition lnot (v : Z) : Z := if v =? 0 then 1 else 0.

Section Main.

Context {dev : device}.

Definition INTERRUPT_FLAG_CLEAR : Z :=
  match CAPTURE_PORT with PortD => 15 | PortB => 1 end.

(** Lines 141 to 201: from the machine as the reset and the C start-up code
    leave it ([c0], with whatever the RAM page of the input queue holds) to the
    entry of the loop.  [pin0] is the port as read for [prev_pv]. *)
Definition main_start (c0 : cpu) (pin0 : Byte.byte) : state :=
  let c1 := setr r27 IQPAGE c0 in                        (* iqpage = IQPAGE *)
  let c2 := setr r26 0 c1 in                             (* iqhead = 0 *)
  let c3 := setr r6 INTERRUPT_FLAG_CLEAR c2 in           (* eifrclr = ... *)
  let c4 := set_iflags (Z.land (iflags c3) (Z.lxor 255 (eifrclr c3))) c3 in
  mkState c4 oq_init
          0                                              (* iqtail = 0 *)
          (byte_val pin0)                                (* prev_pv *)
          max_timer_events
          (<[Z.to_nat 0 := 0]> (replicate 16 0))         (* obuf[obuf_idx] = 0 *)
          0
          items_per_line
          (print_P banner []).

(** Lines 204 to 221: move one entry from the input queue to the output
    queue, skipping excess timer events. *)
Definition dispatcher (s : state) : option state :=
  if negb (iqhead (hw s) =? iqtail s) then
    tlo ← load (iqueue (hw s)) (iqtail s);
    thi ← load (iqueue (hw s)) (iqtail s + 1);
    pv ← load (iqueue (hw s)) (iqtail s + 2);
    k ← load (iqueue (hw s)) (iqtail s + 3);
    let is_timer_event := lnot k in
    let iqtail' := (iqtail s + IQENTRYSZ) mod 256 in
    if negb (is_timer_event =? 0) then
      if negb (allow_timer_events s =? 0) then
        '(_, q) ← oqpush tlo thi pv is_timer_event (outq s);
        Some (mkState (hw s) q iqtail' pv ((allow_timer_events s - 1) mod 256)
                      (obuf s) (obuf_idx s) (remaining s) (tx s))
      else
        Some (mkState (hw s) (outq s) iqtail' pv (allow_timer_events s)
                      (obuf s) (obuf_idx s) (remaining s) (tx s))
    else
      '(_, q) ← oqpush tlo thi pv is_timer_event (outq s);
      Some (mkState (hw s) q iqtail' pv max_timer_events
                    (obuf s) (obuf_idx s) (remaining s) (tx s))
  else Some s.

(** [buf[i++] = c] *)
Definition put (c : Z) (bi : list Z * Z) : option (list Z * Z) :=
  b ← store bi.1 bi.2 c;
  Some (b, (bi.2 + 1) mod 256).

(** Lines 224 to 245: move one entry from the output queue to the formatted
    output buffer. *)
Definition formatter (s : state) : option state :=
  c ← load (obuf s) (obuf_idx s);
  if (c =? 0) && (oqempty (outq s) =? 0) then
    '(_, vs, q) ← oqpop (outq s);
    '(tlo, thi, pv, tf) ← vs;
    bi ← put (hex (Z.shiftr thi 4)) (obuf s, 0);
    bi ← put (hex (Z.land thi 15)) bi;
    bi ← put (hex (Z.shiftr tlo 4)) bi;
    bi ← put (hex (Z.land tlo 15)) bi;
    bi ← put (hex (Z.shiftr pv 4)) bi;
    bi ← put (hex (Z.land pv 15)) bi;
    bi ← put (hex (Z.land tf 1)) bi;
    let remaining1 := (remaining s - 1) mod 256 in
    '(bi, remaining2) ←
      (if negb (remaining1 =? 0) then
         bi ← put SPACE bi; Some (bi, remaining1)
       else
         bi ← put LF bi; Some (bi, items_per_line));
    bi ← put 0 bi;
    Some (mkState (hw s) q (iqtail s) (prev_pv s) (allow_timer_events s)
                  bi.1 0 remaining2 (tx s))
  else Some s.

(** Lines 248 to 250: send one character from the formatted output buffer.
    [ready] is what [usb_debug_ready] answers in this pass. *)
Definition transmitter (ready : bool) (s : state) : option state :=
  c ← load (obuf s) (obuf_idx s);
  if negb (c =? 0) && ready then
    Some (mkState (hw s) (outq s) (iqtail s) (prev_pv s) (allow_timer_events s)
                  (obuf s) ((obuf_idx s + 1) mod 256) (remaining s)
                  (usb_debug_putchar c (tx s)))
  else Some s.

(** One pass through the body of [while ( 1 )].  [usb_debug_task], the last
    call of the body, works on the channel only. *)
Definition main_pass (ready : bool) (s : state) : option state :=
  s1 ← dispatcher s;
  s2 ← formatter s1;
  transmitter ready s2.

(** ** Executions *)

(** What happens to the machine: an interrupt is taken, or the loop makes
    one pass.  An interrupt taken inside a pass only appends behind the entry
    the pass works on, so it is ordered after the pass here. *)
Inductive event :=
| Interrupt (v : vector) (e : inputs)
| Pass (ready : bool).

Definition step (ev : event) (s : state) : option state :=
  match ev with
  | Interrupt v e =>
      '(_, c) ← ISR v e (hw s);
      Some (mkState c (outq s) (iqtail s) (prev_pv s) (allow_timer_events s)
                    (obuf s) (obuf_idx s) (remaining s) (tx s))
  | Pass ready => main_pass ready s
  end.

Fixpoint run (evs : list event) (s : state) : option state :=
  match evs with
  | [] => Some s
  | ev :: evs' => s' ← step ev s; run evs' s'
  end.

(** What an observer [obs] sees along an execution. *)
Fixpoint observe {A} (obs : event -> state -> list A) (evs : list event)
    (s : state) : list A :=
  match evs with
  | [] => []
  | ev :: evs' =>
      obs ev s ++ match step ev s with
                  | Some s' => observe obs evs' s'
                  | None => []
                  end
  end.

End Main.

(** ** Views of a state and of an execution *)

Section Views.

Context {dev : device}.

(** The entries of the input queue the dispatcher has not read yet. *)
Definition iq_count (s : state) : Z := ring_count 256 (iqhead (hw s)) (iqtail s).

Definition iq_pending (s : state) : list entry :=
  ring_contents 256 (iqueue (hw s)) (iqhead (hw s)) (iqtail s).

(** The entry the dispatcher hands to [oqpush] for a sample of the input
    queue: the fourth byte is [is_timer_event]. *)
Definition to_oq (x : entry) : entry :=
  (time_lo x, time_hi x, port_state x, lnot (kind x)).

(** The value a routine stores as the kind of the sample: [__zero_reg__] for
    the timer's, [r6] for the others. *)
Definition capflag_of (v : vector) : Z :=
  match v with TIMER1_OVF_vect => 0 | _ => INTERRUPT_FLAG_CLEAR end.

(** A sample of a real capture: its kind is not zero. *)
Definition is_capture (x : entry) : bool := negb (kind x =? 0).

(** Whether the dispatcher hands a sample to [oqpush] under an allowance, and
    the allowance it leaves. *)
Definition forwards (allow : Z) (x : entry) : bool :=
  negb (kind x =? 0) || negb (allow =? 0).

Definition next_allow (allow : Z) (x : entry) : Z :=
  if kind x =? 0 then (if allow =? 0 then allow else allow - 1)
  else max_timer_events.

(** The nine bytes the formatter leaves at the start of the line buffer for
    an entry of the output queue, when the line counter stands at [rem]. *)
Definition line_of (e : entry) (rem : Z) : list Z :=
  let '(tlo, thi, pv, tf) := e in
  [hex (Z.shiftr thi 4); hex (Z.land thi 15);
   hex (Z.shiftr tlo 4); hex (Z.land tlo 15);
   hex (Z.shiftr pv 4); hex (Z.land pv 15);
   hex (Z.land tf 1);
   if rem =? 1 then LF else SPACE;
   0].

(** The line counter after a render that found it at [rem]. *)
Definition next_remaining (rem : Z) : Z :=
  if rem =? 1 then items_per_line else rem - 1.

(** The sample an interrupt appends to the input queue. *)
Definition produced_at (ev : event) (s : state) : list entry :=
  match ev with
  | Interrupt v e =>
      match ISR v e (hw s) with
      | Some (_, c) => [entry_at (iqueue c) (iqhead (hw s))]
      | None => []
      end
  | Pass _ => []
  end.

(** The sample a pass of the loop takes from the input queue. *)
Definition dequeued_at (ev : event) (s : state) : list entry :=
  match ev with
  | Pass _ =>
      if iqhead (hw s) =? iqtail s then []
      else [entry_at (iqueue (hw s)) (iqtail s)]
  | Interrupt _ _ => []
  end.

(** The entries the dispatcher adds to the output queue in a pass. *)
Definition forwarded_at (ev : event) (s : state) : list entry :=
  match ev with
  | Pass _ =>
      match dispatcher s with
      | Some s1 => drop (length (oq_contents (outq s))) (oq_contents (outq s1))
      | None => []
      end
  | Interrupt _ _ => []
  end.

(** The line buffer and the line counter as the formatter leaves them, for
    a pass in which it renders an entry. *)
Definition rendered_at (ev : event) (s : state) : list (list Z * Z) :=
  match ev with
  | Pass _ =>
      match dispatcher s with
      | Some s1 =>
          match formatter s1 with
          | Some s2 =>
              if oqtail (outq s2) =? oqtail (outq s1) then []
              else [(obuf s2, remaining s2)]
          | None => []
          end
      | None => []
      end
  | Interrupt _ _ => []
  end.

(** A condition that holds before every event of an execution. *)
Fixpoint guarded (ok : event -> state -> bool) (evs : list event) (s : state) : bool :=
  match evs with
  | [] => true
  | ev :: evs' =>
      ok ev s && match step ev s with
                 | Some s' => guarded ok evs' s'
                 | None => false
                 end
  end.

(** The input queue is a ring of 64 slots in which head = tail means empty:
    it holds 63 samples at most.  No interrupt finds it holding that many. *)
Definition IQ_CAPACITY : Z := 256 / IQENTRYSZ - 1.

Definition iq_room (ev : event) (s : state) : bool :=
  match ev with
  | Interrupt _ _ => iq_count s <? IQ_CAPACITY
  | Pass _ => true
  end.

(** No pass finds the output queue full. *)
Definition oq_room (ev : event) (s : state) : bool :=
  match ev with
  | Pass _ => oq_count (outq s) <? oq_capacity
  | Interrupt _ _ => true
  end.

(** Whether the dispatcher calls [oqpush] in the pass that starts in [s]:
    the input queue is not empty, and the sample at its read cursor is a
    real capture, or a tick with the allowance not used up. *)
Definition pushes (s : state) : bool :=
  negb (iqhead (hw s) =? iqtail s)
  && forwards (allow_timer_events s) (entry_at (iqueue (hw s)) (iqtail s)).

(** The output queue is not full in any pass in which the dispatcher calls
    [oqpush]; in the other passes it may be. *)
Definition oq_room_at_push (ev : event) (s : state) : bool :=
  match ev with
  | Pass _ => negb (pushes s) || (oq_count (outq s) <? oq_capacity)
  | Interrupt _ _ => true
  end.

(** *** The invariant of the machine *)

(** The characters the formatter writes: digits, A to F, space, line feed. *)
Definition text_char (c : Z) : bool :=
  ((48 <=? c) && (c <=? 57)) || ((65 <=? c) && (c <=? 70))
  || (c =? SPACE) || (c =? LF).

Record cpu_wf (c : cpu) : Prop := mkCpuWf {
  cpu_zero : zero_reg c = 0;
  cpu_eifrclr : eifrclr c = INTERRUPT_FLAG_CLEAR;
  cpu_iqpage : iqpage c = IQPAGE;
  cpu_iqhead : cursor_ok 256 (iqhead c);
  cpu_iqueue_len : length (iqueue c) = 256%nat;
  cpu_iqueue_bytes : Forall is_byte (iqueue c)
}.

Record wf (s : state) : Prop := mkWf {
  wf_hw : cpu_wf (hw s);
  wf_outq : oq_wf (outq s);
  wf_outq_bytes : Forall is_byte (oqueue (outq s));
  wf_iqtail : cursor_ok 256 (iqtail s);
  wf_allow : 0 <= allow_timer_events s <= max_timer_events;
  wf_obuf_len : length (obuf s) = 16%nat;
  wf_obuf_idx : 0 <= obuf_idx s <= 8;
  wf_obuf_end : obuf s !! 8%nat = Some 0;
  wf_obuf_text : Forall (fun c => c = 0 \/ text_char c = true) (take 8 (obuf s));
  wf_remaining : 1 <= remaining s <= items_per_line
}.

(** The machine [main] starts from: [r1] is zero, as the compiled code keeps
    it, and the page of the input queue is 256 bytes of RAM. *)
Record reset_ok (c0 : cpu) : Prop := mkResetOk {
  reset_zero : zero_reg c0 = 0;
  reset_iqueue_len : length (iqueue c0) = 256%nat;
  reset_iqueue_bytes : Forall is_byte (iqueue c0)
}.

(** *** The throttling policy, in the words of the specification *)

(** Forward every real capture and reset the allowance to
    [MAX_TIMER_EVENTS]; forward a tick only while the allowance is positive,
    taking one from it. *)
Fixpoint spec_throttle (allowance : Z) (xs : list entry) : list entry :=
  match xs with
  | [] => []
  | x :: xs' =>
      if kind x =? 0 then
        if 0 <? allowance then x :: spec_throttle (allowance - 1) xs'
        else spec_throttle allowance xs'
      else x :: spec_throttle max_timer_events xs'
  end.

(** *** Occurrences of a text in a character stream *)

Definition occurs_at (pat l : list Z) (i : nat) : Prop :=
  take (length pat) (drop i l) = pat.

(** *** More views, for the properties beyond the specification's *)

(** Popping [n] times, collecting the status and the values of each pop. *)
Fixpoint oqpop_all (n : nat) (q : oq) : option (list (Z * option entry) * oq) :=
  match n with
  | O => Some ([], q)
  | S n' =>
      '(r, vs, q1) ← oqpop q;
      '(rs, q2) ← oqpop_all n' q1;
      Some ((r, vs) :: rs, q2)
  end.

(** The C string at the start of a buffer: the bytes before the first 0. *)
Fixpoint cstr (l : list Z) : list Z :=
  match l with
  | [] => []
  | c :: l' => if c =? 0 then [] else c :: cstr l'
  end.

(** The characters of the line buffer the transmitter has still to send. *)
Definition unsent (s : state) : list Z :=
  cstr (drop (Z.to_nat (obuf_idx s)) (obuf s)).

(** The eight characters of a rendered group. *)
Definition group_text (bl : list Z * Z) : list Z := take 8 bl.1.

(** The characters of the groups rendered along an execution, in order. *)
Definition rendered_text (evs : list event) (s : state) : list Z :=
  concat (map group_text (observe rendered_at evs s)).

(** The characters still to send once the formatter has run in a pass: what
    was left of the line, or the group rendered in this pass. *)
Definition after_formatter (ready : bool) (s : state) : list Z :=
  unsent s ++ concat (map group_text (rendered_at (Pass ready) s)).

(** The text of a list of entries rendered one after the other, the line
    counter standing at [rem0] before the first. *)
Definition groups_of (rem0 : Z) (es : list entry) : list Z :=
  concat (imap (fun k e => take 8 (line_of e (Nat.iter k next_remaining rem0))) es).

Definition is_interrupt (ev : event) : bool :=
  match ev with Interrupt _ _ => true | Pass _ => false end.

(** An event in which the channel takes no character. *)
Definition channel_busy (ev : event) : bool :=
  match ev with Pass true => false | _ => true end.

(** A sample of a timer tick: its kind is zero. *)
Definition is_tick (x : entry) : bool := kind x =? 0.

(** An entry of the output queue that stands for a timer event: its flag is
    not zero. *)
Definition is_timer_entry (e : entry) : bool := negb (kind e =? 0).

Definition count_timer_entries (l : list entry) : Z :=
  Z.of_nat (length (List.filter is_timer_entry l)).

(** The samples of real captures. *)
Definition count_captures (l : list entry) : Z :=
  Z.of_nat (length (List.filter is_capture l)).

End Views.

(** ** Two builds and some executions of them *)

(** The ATmega32U4 has 2560 bytes of RAM: [oqueue] has 2048 bytes, 512
    slots.  The build with the default capture port, and the one with
    [CAPTURE_PORT] set to ['B']. *)
Definition atmega32u4 : device := mkDevice 2560 PortD.
Definition atmega32u4_portB : device := mkDevice 2560 PortB.

(** A machine after reset, the page of the input queue zeroed. *)
Definition cpu_zeroed : cpu := mkCpu 0 0 0 0 0 0 0 (replicate 256 0) 0.

Definition byte_of (n : nat) : Byte.byte :=
  default Byte.x00 (Byte.of_N (N.of_nat n mod 256)).

(** What the [k]-th capture of an execution reads: the port at 0xAA and the
    timer at [k]. *)
Definition capture_in (k : nat) : inputs :=
  mkInputs Byte.xaa (byte_of k) (byte_of (k / 256)).

(** The sample of the specification's formatter example: timer 0x013A, port
    0xF0. *)
Definition example_in : inputs := mkInputs Byte.xf0 Byte.x3a Byte.x01.

Section OnPortD.

#[local] Existing Instance atmega32u4.

Definition start : state := main_start cpu_zeroed Byte.xff.

(** The host does not listen: 512 edges, each followed by a pass in which
    the channel is not ready.  The first sample is rendered and stays in the
    line buffer, the other 511 fill the output queue. *)
Definition stall_evs : list event :=
  flat_map (fun k => [Interrupt INT0_vect (capture_in k); Pass false]) (seq 0 512).

Definition stalled : state := default start (run stall_evs start).


(** A timer overflow instead, and the pass that dequeues it. *)
Definition tick_evs : list event := [Interrupt TIMER1_OVF_vect example_in; Pass false].

(** Three timer overflows and an edge, then four passes. *)
Definition idle_evs : list event :=
  [Interrupt TIMER1_OVF_vect (capture_in 0); Interrupt TIMER1_OVF_vect (capture_in 1);
   Interrupt TIMER1_OVF_vect (capture_in 2); Interrupt INT2_vect (capture_in 3);
   Pass true; Pass true; Pass true; Pass true].

(** Ten edges, then eighty passes with the channel ready: ten samples are
    rendered and sent. *)
Definition ten_evs : list event :=
  map (fun k => Interrupt INT0_vect (capture_in k)) (seq 0 10)
  ++ replicate 80 (Pass true).

(** 64 edges with no pass between them. *)
Definition overrun_evs : list event :=
  map (fun k => Interrupt INT0_vect (capture_in k)) (seq 0 64).

(** The stalled machine after one more edge. *)
Definition stalled1 : state :=
  default stalled (run [Interrupt INT1_vect example_in] stalled).

(** After the ten edges and the first eight passes of [ten_evs]: the first
    group is sent and seven entries wait in the output queue. *)
Definition first_group_sent : state := default start (run (take 18 ten_evs) start).

(** The host listens again: 25 passes send three groups and make room for
    three entries, the output queue being full in the first nine of them;
    then three timer overflows and an edge, and the four passes that
    dequeue them. *)
Definition resume_evs : list event := replicate 25 (Pass true) ++ idle_evs.

(** 512 entries to push. *)
Definition many_entries : list entry :=
  map (fun k => (Z.of_nat k mod 256, Z.of_nat k / 256, 170, 0)) (seq 0 512).

End OnPortD.

Section OnPortB.

#[local] Existing Instance atmega32u4_portB.

Definition startB : state := main_start cpu_zeroed Byte.xff.

(** A pin change with the example's readings: the sample has kind 1. *)
Definition example_evs : list event := [Interrupt PCINT0_vect example_in].

Definition startB1 : state := default startB (run example_evs startB).

End OnPortB.

(** * Proofs *)

(** ** Arrays *)

Ltac zdiv := Z.div_mod_to_equations; lia.

Ltac case_ltb :=
  repeat match goal with
  | |- context [?a <? ?b] => destruct (Z.ltb_spec a b)
  | |- context [?a <=? ?b] => destruct (Z.leb_spec a b)
  | |- context [?a =? ?b] => destruct (Z.eqb_spec a b)
  | H : context [?a <? ?b] |- _ => destruct (Z.ltb_spec a b)
  | H : context [?a <=? ?b] |- _ => destruct (Z.leb_spec a b)
  | H : context [?a =? ?b] |- _ => destruct (Z.eqb_spec a b)
  end.

Lemma load_in (m : list Z) (i : Z) :
  0 <= i < Z.of_nat (length m) -> exists v, load m i = Some v.
Proof.
  intros Hi. unfold load. destruct (Z.leb_spec 0 i); [|lia].
  apply lookup_lt_is_Some_2. lia.
Qed.

Lemma store_in (m : list Z) (i v : Z) :
  0 <= i < Z.of_nat (length m) -> store m i v = Some (<[Z.to_nat i := v]> m).
Proof.
  intros Hi. unfold store.
  destruct (Z.leb_spec 0 i); [|lia]. destruct (Z.ltb_spec i (Z.of_nat (length m))); [|lia].
  reflexivity.
Qed.

Lemma store_inv (m m' : list Z) (i v : Z) :
  store m i v = Some m' ->
  0 <= i < Z.of_nat (length m) /\ m' = <[Z.to_nat i := v]> m.
Proof.
  unfold store. intros H.
  destruct (Z.leb_spec 0 i); destruct (Z.ltb_spec i (Z.of_nat (length m)));
    simpl in H; try discriminate.
  split; [lia | congruence].
Qed.

Lemma byte_at_insert_eq (m : list Z) (i v : Z) :
  0 <= i < Z.of_nat (length m) -> byte_at (<[Z.to_nat i := v]> m) i = v.
Proof.
  intros Hi. unfold byte_at, load. destruct (Z.leb_spec 0 i); [|lia].
  rewrite list_lookup_insert_eq by lia. reflexivity.
Qed.

Lemma byte_at_insert_ne (m : list Z) (i j v : Z) :
  0 <= i -> i <> j -> byte_at (<[Z.to_nat i := v]> m) j = byte_at m j.
Proof.
  intros Hi Hne. unfold byte_at, load. destruct (Z.leb_spec 0 j); [|reflexivity].
  rewrite list_lookup_insert_ne by lia. reflexivity.
Qed.

Lemma load_byte_at (m : list Z) (i v : Z) : load m i = Some v -> byte_at m i = v.
Proof. unfold byte_at. intros ->. reflexivity. Qed.

Lemma load_is_byte (m : list Z) (i v : Z) :
  Forall is_byte m -> load m i = Some v -> is_byte v.
Proof.
  unfold load. intros Hm H. destruct (0 <=? i); [|discriminate].
  rewrite Forall_lookup in Hm. eauto.
Qed.

Lemma byte_at_is_byte (m : list Z) (i : Z) : Forall is_byte m -> is_byte (byte_at m i).
Proof.
  intros Hm. unfold byte_at. destruct (load m i) eqn:E; simpl.
  - eapply load_is_byte; eauto.
  - unfold is_byte. lia.
Qed.

Lemma insert_is_byte (m : list Z) (i : nat) (v : Z) :
  Forall is_byte m -> is_byte v -> Forall is_byte (<[i := v]> m).
Proof. intros Hm Hv. apply Forall_insert; assumption. Qed.

(** Writing the four bytes of an entry at offset [o]. *)
Lemma store_entry (m : list Z) (o v1 v2 v3 v4 : Z) :
  0 <= o -> o + 3 < Z.of_nat (length m) ->
  exists m',
    (m1 ← store m (o + 0) v1; m2 ← store m1 (o + 1) v2;
     m3 ← store m2 (o + 2) v3; store m3 (o + 3) v4) = Some m'
    /\ length m' = length m
    /\ entry_at m' o = (v1, v2, v3, v4)
    /\ (forall o', o' + 3 < o \/ o + 3 < o' -> entry_at m' o' = entry_at m o')
    /\ (Forall is_byte m -> is_byte v1 -> is_byte v2 -> is_byte v3 -> is_byte v4 ->
        Forall is_byte m').
Proof.
  intros Ho Hlen.
  rewrite store_in by lia. simpl.
  rewrite store_in by (rewrite length_insert; lia). simpl.
  rewrite store_in by (rewrite !length_insert; lia). simpl.
  rewrite store_in by (rewrite !length_insert; lia).
  eexists. split; [reflexivity|].
  split; [rewrite !length_insert; reflexivity|].
  split; [|split].
  - unfold entry_at. f_equal; [f_equal; [f_equal|]|].
    + rewrite !byte_at_insert_ne by lia.
      replace o with (o + 0) at 2 by lia. apply byte_at_insert_eq. lia.
    + rewrite !byte_at_insert_ne by lia.
      apply byte_at_insert_eq. rewrite length_insert. lia.
    + rewrite !byte_at_insert_ne by lia.
      apply byte_at_insert_eq. rewrite !length_insert. lia.
    + apply byte_at_insert_eq. rewrite !length_insert. lia.
  - intros o' Ho'. unfold entry_at.
    rewrite !byte_at_insert_ne by lia. reflexivity.
  - intros Hm H1 H2 H3 H4. repeat apply insert_is_byte; assumption.
Qed.

(** ** Rings *)

Lemma ring_next_ok (size p : Z) :
  size mod 4 = 0 -> cursor_ok size p -> cursor_ok size (ring_next size p).
Proof.
  unfold cursor_ok, ring_next. intros Hs [Hp Hp4].
  destruct (Z.eqb_spec (p + 4) size); split; try lia; try zdiv.
Qed.

Lemma ring_count_range (size head tail : Z) :
  size mod 4 = 0 -> cursor_ok size head -> cursor_ok size tail ->
  0 <= ring_count size head tail <= size / 4 - 1
  /\ (ring_count size head tail = 0 <-> head = tail)
  /\ (ring_count size head tail = size / 4 - 1 <-> ring_next size head = tail).
Proof.
  unfold cursor_ok, ring_count, ring_next. intros Hs [Hh Hh4] [Ht Ht4]. cbv zeta.
  destruct (Z.ltb_spec (head - tail) 0); destruct (Z.eqb_spec (head + 4) size);
    repeat split; try zdiv.
Qed.

Lemma ring_slot_ok (size tail i : Z) :
  size mod 4 = 0 -> cursor_ok size tail -> 0 <= i < size / 4 ->
  cursor_ok size (ring_slot size tail i).
Proof.
  unfold cursor_ok, ring_slot. intros Hs [Ht Ht4] Hi. cbv zeta.
  destruct (Z.ltb_spec (tail + 4 * i) size); split; try zdiv.
Qed.

(** An entry written at the head goes to the end of the contents. *)
Lemma ring_contents_push (size : Z) (m m' : list Z) (head tail : Z) (e : entry) :
  size mod 4 = 0 -> cursor_ok size head -> cursor_ok size tail ->
  ring_next size head <> tail ->
  entry_at m' head = e ->
  (forall o, o + 3 < head \/ head + 3 < o -> entry_at m' o = entry_at m o) ->
  ring_contents size m' (ring_next size head) tail
  = ring_contents size m head tail ++ [e]
  /\ ring_count size (ring_next size head) tail = ring_count size head tail + 1.
Proof.
  intros Hs Hh Ht Hfull He Hother.
  assert (Hn : ring_count size (ring_next size head) tail
               = ring_count size head tail + 1).
  { revert Hfull. unfold cursor_ok, ring_count, ring_next in *. cbv zeta.
    destruct Hh as [Hh Hh4], Ht as [Ht Ht4].
    destruct (Z.eqb_spec (head + 4) size); intros Hfull;
      repeat match goal with |- context [?a <? ?b] => destruct (Z.ltb_spec a b) end;
      try zdiv. }
  split; [|exact Hn].
  pose proof (ring_count_range size head tail Hs Hh Ht) as [Hr _].
  unfold ring_contents. rewrite Hn.
  replace (Z.to_nat (ring_count size head tail + 1))
    with (Z.to_nat (ring_count size head tail) + 1)%nat by lia.
  rewrite seq_app, map_app. simpl. f_equal.
  - apply map_ext_in. intros i Hi. apply in_seq in Hi.
    apply Hother.
    unfold cursor_ok, ring_count, ring_slot in *. cbv zeta in *.
    destruct Hh as [Hh Hh4], Ht as [Ht Ht4].
    revert Hi Hr.
    repeat match goal with |- context [?a <? ?b] => destruct (Z.ltb_spec a b) end;
      intros; zdiv.
  - f_equal. rewrite <- He. f_equal.
    unfold cursor_ok, ring_count, ring_slot in *. cbv zeta in *.
    destruct Hh as [Hh Hh4], Ht as [Ht Ht4].
    revert Hr.
    repeat match goal with |- context [?a <? ?b] => destruct (Z.ltb_spec a b) end;
      intros; zdiv.
Qed.

(** The entry at the tail is the first of the contents. *)
Lemma ring_contents_pop (size : Z) (m : list Z) (head tail : Z) :
  size mod 4 = 0 -> cursor_ok size head -> cursor_ok size tail ->
  head <> tail ->
  ring_contents size m head tail
  = entry_at m tail :: ring_contents size m head (ring_next size tail)
  /\ ring_count size head (ring_next size tail) = ring_count size head tail - 1.
Proof.
  intros Hs Hh Ht Hne.
  assert (Hn : ring_count size head (ring_next size tail)
               = ring_count size head tail - 1).
  { unfold cursor_ok, ring_count, ring_next in *. cbv zeta.
    destruct Hh as [Hh Hh4], Ht as [Ht Ht4].
    destruct (Z.eqb_spec (tail + 4) size);
      repeat match goal with |- context [?a <? ?b] => destruct (Z.ltb_spec a b) end;
      try zdiv. }
  split; [|exact Hn].
  pose proof (ring_count_range size head tail Hs Hh Ht) as [Hr [Hz _]].
  assert (Hpos : 0 < ring_count size head tail).
  { destruct (Z.eq_dec (ring_count size head tail) 0) as [E|E]; [|lia].
    apply Hz in E. contradiction. }
  unfold ring_contents. rewrite Hn.
  replace (Z.to_nat (ring_count size head tail))
    with (S (Z.to_nat (ring_count size head tail - 1))) by lia.
  simpl. f_equal.
  - f_equal. unfold cursor_ok, ring_slot in *. cbv zeta.
    destruct Ht as [Ht Ht4].
    match goal with |- context [?a <? ?b] => destruct (Z.ltb_spec a b) end; lia.
  - rewrite <- seq_shift, map_map. apply map_ext_in. intros i Hi.
    apply in_seq in Hi. f_equal.
    unfold cursor_ok, ring_count, ring_slot, ring_next in *. cbv zeta in *.
    destruct Hh as [Hh Hh4], Ht as [Ht Ht4].
    revert Hi Hr Hn.
    destruct (Z.eqb_spec (tail + 4) size);
    repeat match goal with |- context [?a <? ?b] => destruct (Z.ltb_spec a b) end;
      intros; try zdiv.
Qed.

Lemma ring_contents_length (size : Z) (m : list Z) (head tail : Z) :
  length (ring_contents size m head tail) = Z.to_nat (ring_count size head tail).
Proof. unfold ring_contents. rewrite length_map, length_seq. reflexivity. Qed.


(** ** The output queue *)

Section OutputQueueProofs.

Context {dev : device}.

Lemma OQSZ_mod4 : OQSZ mod 4 = 0.
Proof. unfold OQSZ, OQENTRYSZ. Z.to_euclidean_division_equations. lia. Qed.

Lemma OQSZ_ge : 516 <= RAM_SIZE -> 4 <= OQSZ.
Proof. unfold OQSZ, OQENTRYSZ. intros H. Z.to_euclidean_division_equations. lia. Qed.

Lemma oqnext_ring (p : Z) : oqnext p = ring_next OQSZ p.
Proof. reflexivity. Qed.

Lemma oq_init_wf : 516 <= RAM_SIZE -> oq_wf oq_init.
Proof.
  intros H. pose proof (OQSZ_ge H). pose proof OQSZ_mod4.
  split; simpl.
  - rewrite length_replicate. lia.
  - split; [lia | reflexivity].
  - split; [lia | reflexivity].
Qed.

Lemma oq_count_range (q : oq) :
  oq_wf q ->
  0 <= oq_count q <= oq_capacity
  /\ (oq_count q = 0 <-> oqhead q = oqtail q)
  /\ (oq_count q = oq_capacity <-> oqnext (oqhead q) = oqtail q).
Proof.
  intros [_ Hh Ht].
  apply (ring_count_range OQSZ _ _ OQSZ_mod4 Hh Ht).
Qed.

Lemma oq_contents_length (q : oq) :
  length (oq_contents q) = Z.to_nat (oq_count q).
Proof. apply ring_contents_length. Qed.

Lemma oq_contents_nil (q : oq) : oq_count q = 0 -> oq_contents q = [].
Proof.
  unfold oq_contents, oq_count, ring_contents. intros ->. reflexivity.
Qed.

(** A push on a full queue. *)
Lemma oqpush_full (v1 v2 v3 v4 : Z) (q : oq) :
  oq_wf q -> oq_count q = oq_capacity -> oqpush v1 v2 v3 v4 q = Some (0, q).
Proof.
  intros Hq Hfull. apply (oq_count_range q Hq) in Hfull.
  unfold oqpush. cbv zeta. rewrite Hfull, Z.eqb_refl. reflexivity.
Qed.

(** A push on a queue that has room. *)
Lemma oqpush_room (v1 v2 v3 v4 : Z) (q : oq) :
  oq_wf q -> oq_count q <> oq_capacity ->
  exists q',
    oqpush v1 v2 v3 v4 q = Some (1, q')
    /\ oq_wf q'
    /\ oq_contents q' = oq_contents q ++ [(v1, v2, v3, v4)]
    /\ oq_count q' = oq_count q + 1
    /\ oqtail q' = oqtail q
    /\ (Forall is_byte (oqueue q) ->
        is_byte v1 -> is_byte v2 -> is_byte v3 -> is_byte v4 ->
        Forall is_byte (oqueue q')).
Proof.
  intros Hq Hroom.
  pose proof (oq_count_range q Hq) as (_ & _ & Hfull).
  assert (Hne : oqnext (oqhead q) <> oqtail q) by (intros E; apply Hroom, Hfull, E).
  destruct Hq as [Hlen Hh Ht].
  destruct (store_entry (oqueue q) (oqhead q) v1 v2 v3 v4)
    as (m' & Hst & Hlen' & Hat & Hother & Hbytes).
  { destruct Hh; lia. }
  { destruct Hh as [Hh Hh4]. pose proof OQSZ_mod4. zdiv. }
  unfold oqpush. cbv zeta.
  destruct (Z.eqb_spec (oqnext (oqhead q)) (oqtail q)); [contradiction|].
  exists (mkOq m' (oqnext (oqhead q)) (oqtail q)).
  split.
  { revert Hst. simpl.
    destruct (store (oqueue q) (oqhead q + 0) v1) as [m1|]; simpl; [|discriminate].
    destruct (store m1 (oqhead q + 1) v2) as [m2|]; simpl; [|discriminate].
    destruct (store m2 (oqhead q + 2) v3) as [m3|]; simpl; [|discriminate].
    intros ->. reflexivity. }
  destruct (ring_contents_push OQSZ (oqueue q) m' (oqhead q) (oqtail q) (v1, v2, v3, v4)
              OQSZ_mod4 Hh Ht Hne Hat Hother) as [Hc Hn].
  split; [|split; [exact Hc|split; [exact Hn|split; [reflexivity|exact Hbytes]]]].
  split; simpl.
  - rewrite Hlen'. exact Hlen.
  - apply ring_next_ok; [apply OQSZ_mod4 | exact Hh].
  - exact Ht.
Qed.

(** A pop on an empty queue. *)
Lemma oqpop_empty (q : oq) :
  oq_wf q -> oq_count q = 0 -> oqpop q = Some (0, None, q).
Proof.
  intros Hq He. apply (oq_count_range q Hq) in He.
  unfold oqpop, oqempty. rewrite He, Z.eqb_refl. reflexivity.
Qed.

(** A pop on a queue that holds something. *)
Lemma oqpop_some (q : oq) :
  oq_wf q -> oq_count q <> 0 ->
  exists e q',
    oqpop q = Some (1, Some e, q')
    /\ oq_wf q'
    /\ oq_contents q = e :: oq_contents q'
    /\ oq_count q' = oq_count q - 1
    /\ oqueue q' = oqueue q /\ oqhead q' = oqhead q
    /\ oqtail q' <> oqtail q
    /\ e = entry_at (oqueue q) (oqtail q).
Proof.
  intros Hq Hne.
  pose proof (oq_count_range q Hq) as (_ & Hz & _).
  assert (Hht : oqhead q <> oqtail q) by (intros E; apply Hne, Hz, E).
  destruct Hq as [Hlen Hh Ht].
  pose proof OQSZ_mod4 as Hs.
  assert (Hb : 0 <= oqtail q /\ oqtail q + 3 < Z.of_nat (length (oqueue q))).
  { destruct Ht as [Ht Ht4]. split; [lia | zdiv]. }
  destruct (load_in (oqueue q) (oqtail q + 0)) as [v1 E1]; [lia|].
  destruct (load_in (oqueue q) (oqtail q + 1)) as [v2 E2]; [lia|].
  destruct (load_in (oqueue q) (oqtail q + 2)) as [v3 E3]; [lia|].
  destruct (load_in (oqueue q) (oqtail q + 3)) as [v4 E4]; [lia|].
  exists (v1, v2, v3, v4), (mkOq (oqueue q) (oqhead q) (oqnext (oqtail q))).
  assert (Hat : (v1, v2, v3, v4) = entry_at (oqueue q) (oqtail q)).
  { unfold entry_at. rewrite Z.add_0_r in E1.
    rewrite (load_byte_at _ _ _ E1), (load_byte_at _ _ _ E2),
      (load_byte_at _ _ _ E3), (load_byte_at _ _ _ E4). reflexivity. }
  split.
  { unfold oqpop, oqempty.
    destruct (Z.eqb_spec (oqhead q) (oqtail q)); [contradiction|]. simpl.
    rewrite E1, E2, E3, E4. reflexivity. }
  destruct (ring_contents_pop OQSZ (oqueue q) (oqhead q) (oqtail q) Hs Hh Ht Hht)
    as [Hc Hn].
  split; [|split; [|split; [exact Hn|split; [reflexivity|split; [reflexivity|split]]]]].
  - split; simpl; [exact Hlen | exact Hh | apply ring_next_ok; assumption].
  - rewrite Hat. exact Hc.
  - simpl. unfold oqnext, OQENTRYSZ. cbv zeta.
    destruct Hh as [Hh Hh4], Ht as [Ht Ht4].
    destruct (Z.eqb_spec (oqtail q + 4) OQSZ); [|lia].
    intros E. assert (OQSZ = 4) by lia. zdiv.
  - exact Hat.
Qed.

Lemma entry_at_is_byte (m : list Z) (o : Z) :
  Forall is_byte m ->
  is_byte (time_lo (entry_at m o)) /\ is_byte (time_hi (entry_at m o))
  /\ is_byte (port_state (entry_at m o)) /\ is_byte (kind (entry_at m o)).
Proof.
  intros Hm. unfold entry_at, time_lo, time_hi, port_state, kind. simpl.
  repeat split; apply byte_at_is_byte; assumption.
Qed.

(** Pushing a list of entries: as many succeed as the queue has room for. *)
Lemma oqpush_all_spec (es : list entry) (q : oq) :
  oq_wf q ->
  exists q',
    oqpush_all es q
    = Some (replicate (Nat.min (length es) (Z.to_nat (oq_capacity - oq_count q))) 1
            ++ replicate (length es - Z.to_nat (oq_capacity - oq_count q)) 0, q')
    /\ oq_wf q'
    /\ oq_contents q'
       = oq_contents q ++ take (Z.to_nat (oq_capacity - oq_count q)) es.
Proof.
  revert q. induction es as [|[[[v1 v2] v3] v4] es IH]; intros q Hq.
  - exists q. simpl. rewrite take_nil, app_nil_r. auto.
  - pose proof (oq_count_range q Hq) as (Hr & _ & _).
    destruct (Z.eq_dec (oq_count q) oq_capacity) as [Hfull|Hroom].
    + destruct (IH q Hq) as (q' & Hall & Hq' & Hc).
      exists q'. simpl. rewrite (oqpush_full _ _ _ _ q Hq Hfull). simpl.
      rewrite Hall. simpl.
      replace (Z.to_nat (oq_capacity - oq_count q)) with 0%nat in * by lia.
      rewrite Nat.min_0_r, Nat.sub_0_r in *. simpl in *.
      auto.
    + destruct (oqpush_room v1 v2 v3 v4 q Hq Hroom)
        as (q1 & Hpush & Hq1 & Hc1 & Hn1 & _).
      destruct (IH q1 Hq1) as (q' & Hall & Hq' & Hc).
      exists q'. simpl. rewrite Hpush. simpl. rewrite Hall. simpl.
      rewrite Hn1 in *.
      replace (Z.to_nat (oq_capacity - oq_count q))
        with (S (Z.to_nat (oq_capacity - (oq_count q + 1)))) by lia.
      simpl. split; [reflexivity|]. split; [exact Hq'|].
      rewrite Hc, Hc1, <- app_assoc. reflexivity.
Qed.

End OutputQueueProofs.

(** ** The capture interrupt routines *)

Section IsrProofs.

Context {dev : device}.

Lemma INTERRUPT_FLAG_CLEAR_nonzero : INTERRUPT_FLAG_CLEAR <> 0.
Proof. unfold INTERRUPT_FLAG_CLEAR. destruct CAPTURE_PORT; lia. Qed.

Lemma INTERRUPT_FLAG_CLEAR_byte : is_byte INTERRUPT_FLAG_CLEAR.
Proof. unfold INTERRUPT_FLAG_CLEAR, is_byte. destruct CAPTURE_PORT; lia. Qed.

Lemma byte_val_is_byte (b : Byte.byte) : is_byte (byte_val b).
Proof.
  unfold is_byte, byte_val. pose proof (Byte.to_N_bounded b). lia.
Qed.

(** One [st X+, r] with X inside the page of the input queue. *)
Lemma st_Xplus_in_page (r : reg) (c : cpu) :
  iqpage c = IQPAGE -> 0 <= iqhead c < 256 -> length (iqueue c) = 256%nat ->
  st_Xplus r c
  = Some ([RamWrite (IQPAGE * 256 + iqhead c) (getr r c)],
          setr r27 (IQPAGE + (iqhead c + 1) / 256)
            (setr r26 ((iqhead c + 1) mod 256)
               (set_iqueue (<[Z.to_nat (iqhead c) := getr r c]> (iqueue c)) c))).
Proof.
  intros Hp Hh Hlen. unfold st_Xplus, X, IQPAGE in *. cbv zeta. rewrite Hp.
  replace (1 * 256 + iqhead c - 1 * 256) with (iqhead c) by lia.
  rewrite store_in by lia. simpl.
  do 3 f_equal; zdiv.
Qed.

Lemma ISR_spec (v : vector) (e : inputs) (c : cpu) :
  cpu_wf c ->
  let h := iqhead c in
  let pin := byte_val (in_pin e) in
  let tl := byte_val (in_tcnt1l e) in
  let th := byte_val (in_tcnt1h e) in
  let k := capflag_of v in
  exists c',
    ISR v e c
    = Some ([IoWrite INTERRUPT_FLAG_REG INTERRUPT_FLAG_CLEAR;
             IoRead CAPTURE_PORT_IN pin;
             SfrRead TCNT1L tl;
             SfrRead TCNT1H th;
             RamWrite (IQPAGE * 256 + h) tl;
             RamWrite (IQPAGE * 256 + h + 1) th;
             RamWrite (IQPAGE * 256 + h + 2) pin;
             RamWrite (IQPAGE * 256 + h + 3) k], c')
    /\ cpu_wf c'
    /\ iqhead c' = (h + 4) mod 256
    /\ entry_at (iqueue c') h = (tl, th, pin, k)
    /\ (forall o, o + 3 < h \/ h + 3 < o -> entry_at (iqueue c') o = entry_at (iqueue c) o)
    /\ iflags c' = Z.land (iflags c) (Z.lxor 255 INTERRUPT_FLAG_CLEAR).
Proof.
  intros [Hz H6 Hp [Hh Hh4] Hlen Hb]. cbv zeta.
  destruct c as [z p3 p4 p5 p6 h pg m fl]. simpl in *. subst z p6 pg.
  set (pin := byte_val (in_pin e)). set (tl := byte_val (in_tcnt1l e)).
  set (th := byte_val (in_tcnt1h e)).
  assert (Hk : forall c, zero_reg c = 0 -> eifrclr c = INTERRUPT_FLAG_CLEAR ->
                 getr (match v with TIMER1_OVF_vect => r1 | _ => r6 end) c = capflag_of v).
  { intros c Hc1 Hc6. destruct v; simpl; assumption. }
  assert (HISR : ISR v e = _CAPTURE_ISR (match v with TIMER1_OVF_vect => r1 | _ => r6 end) e).
  { destruct v; reflexivity. }
  rewrite HISR. unfold _CAPTURE_ISR, seq_instr, out_eifr, in_pin_, lds, ldi, reti.
  simpl.
  rewrite st_Xplus_in_page by (simpl; (reflexivity || lia || assumption)). simpl.
  rewrite st_Xplus_in_page
    by (simpl; (reflexivity || (rewrite ?length_insert; assumption) || zdiv)). simpl.
  rewrite st_Xplus_in_page
    by (simpl; ((unfold IQPAGE; zdiv) || (rewrite ?length_insert; assumption) || zdiv)). simpl.
  rewrite st_Xplus_in_page
    by (simpl; ((unfold IQPAGE; zdiv) || (rewrite ?length_insert; assumption) || zdiv)). simpl.
  rewrite Hk by reflexivity.
  assert (E1 : (h + 1) mod 256 = h + 1) by zdiv.
  assert (E2 : ((h + 1) mod 256 + 1) mod 256 = h + 2) by zdiv.
  assert (E3 : (((h + 1) mod 256 + 1) mod 256 + 1) mod 256 = h + 3) by zdiv.
  assert (E4 : ((((h + 1) mod 256 + 1) mod 256 + 1) mod 256 + 1) mod 256 = (h + 4) mod 256) by zdiv.
  rewrite E4, E3, E2, E1.
  eexists. split.
  { apply f_equal. apply f_equal2; [|reflexivity].
    rewrite !Z.add_assoc. reflexivity. }
  simpl.
  assert (B1 := byte_val_is_byte (in_pin e)).
  assert (B2 := byte_val_is_byte (in_tcnt1l e)).
  assert (B3 := byte_val_is_byte (in_tcnt1h e)).
  assert (B4 : is_byte (capflag_of v)).
  { destruct v; simpl; try apply INTERRUPT_FLAG_CLEAR_byte. unfold is_byte; lia. }
  split; [|split; [reflexivity|split; [|split; [|reflexivity]]]].
  - split; simpl; try reflexivity.
    + split; zdiv.
    + rewrite !length_insert. assumption.
    + repeat apply insert_is_byte; assumption.
  - unfold entry_at. f_equal; [f_equal; [f_equal|]|].
    + rewrite !byte_at_insert_ne by lia. apply byte_at_insert_eq. lia.
    + rewrite !byte_at_insert_ne by lia. apply byte_at_insert_eq.
      rewrite !length_insert. zdiv.
    + rewrite !byte_at_insert_ne by lia. apply byte_at_insert_eq.
      rewrite !length_insert. zdiv.
    + apply byte_at_insert_eq. rewrite !length_insert. zdiv.
  - intros o Ho. unfold entry_at. rewrite !byte_at_insert_ne by lia. reflexivity.
Qed.

End IsrProofs.

(** ** The loop of main *)

Section MainProofs.

Context {dev : device}.

Lemma lnot_byte (v : Z) : is_byte (lnot v).
Proof. unfold lnot, is_byte. destruct (v =? 0); lia. Qed.

Lemma iq_count_range (s : state) :
  wf s ->
  0 <= iq_count s <= IQ_CAPACITY
  /\ (iq_count s = 0 <-> iqhead (hw s) = iqtail s)
  /\ (iq_count s = IQ_CAPACITY <-> ring_next 256 (iqhead (hw s)) = iqtail s).
Proof.
  intros Hs. destruct (wf_hw s Hs) as [_ _ _ Hh _ _].
  apply (ring_count_range 256 _ _ eq_refl Hh (wf_iqtail s Hs)).
Qed.

Lemma ring_next_256 (p : Z) : cursor_ok 256 p -> ring_next 256 p = (p + 4) mod 256.
Proof.
  unfold cursor_ok, ring_next. intros [Hp Hp4].
  destruct (Z.eqb_spec (p + 4) 256); zdiv.
Qed.

(** What the dispatcher does to a state, in terms of the two queues. *)
Lemma dispatcher_spec (s : state) :
  wf s ->
  exists s1,
    dispatcher s = Some s1 /\ wf s1
    /\ hw s1 = hw s /\ obuf s1 = obuf s /\ obuf_idx s1 = obuf_idx s
    /\ remaining s1 = remaining s /\ tx s1 = tx s
    /\ oqtail (outq s1) = oqtail (outq s)
    /\ (iq_count s = 0 ->
        s1 = s)
    /\ (iq_count s <> 0 ->
        let x := entry_at (iqueue (hw s)) (iqtail s) in
        let pushed := forwards (allow_timer_events s) x
                      && (oq_count (outq s) <? oq_capacity) in
        iq_pending s = x :: iq_pending s1
        /\ iq_count s1 = iq_count s - 1
        /\ allow_timer_events s1 = next_allow (allow_timer_events s) x
        /\ oq_contents (outq s1)
           = oq_contents (outq s) ++ (if pushed then [to_oq x] else [])
        /\ oq_count (outq s1) = oq_count (outq s) + (if pushed then 1 else 0)).
Proof.
  intros Hs.
  pose proof (iq_count_range s Hs) as (Hr & Hz & _).
  destruct (Z.eq_dec (iq_count s) 0) as [He|Hne].
  { exists s. unfold dispatcher. pose proof He as He'. apply Hz in He'.
    rewrite He', Z.eqb_refl. simpl.
    split; [reflexivity|]. split; [exact Hs|].
    do 6 (split; [reflexivity|]).
    split; [reflexivity|]. intros; contradiction. }
  assert (Hht : iqhead (hw s) <> iqtail s) by (intros E; apply Hne, Hz, E).
  destruct Hs as [Hhw Hq Hqb Ht Ha Hol Hoi Hoe Hot Hrem].
  destruct Hhw as [Hz1 H6 Hp Hh Hlen Hb].
  assert (Hin : 0 <= iqtail s /\ iqtail s + 3 < Z.of_nat (length (iqueue (hw s)))).
  { destruct Ht as [Ht Ht4]. rewrite Hlen. split; [lia | zdiv]. }
  destruct (load_in (iqueue (hw s)) (iqtail s)) as [tlo E1]; [lia|].
  destruct (load_in (iqueue (hw s)) (iqtail s + 1)) as [thi E2]; [lia|].
  destruct (load_in (iqueue (hw s)) (iqtail s + 2)) as [pv E3]; [lia|].
  destruct (load_in (iqueue (hw s)) (iqtail s + 3)) as [k E4]; [lia|].
  assert (Hx : entry_at (iqueue (hw s)) (iqtail s) = (tlo, thi, pv, k)).
  { unfold entry_at.
    rewrite (load_byte_at _ _ _ E1), (load_byte_at _ _ _ E2),
      (load_byte_at _ _ _ E3), (load_byte_at _ _ _ E4). reflexivity. }
  assert (B1 := load_is_byte _ _ _ Hb E1). assert (B2 := load_is_byte _ _ _ Hb E2).
  assert (B3 := load_is_byte _ _ _ Hb E3). assert (B4 := lnot_byte k).
  destruct (ring_contents_pop 256 (iqueue (hw s)) (iqhead (hw s)) (iqtail s)
              eq_refl Hh Ht Hht) as [Hc Hn].
  rewrite (ring_next_256 _ Ht) in Hc, Hn.
  assert (Ht' : cursor_ok 256 ((iqtail s + IQENTRYSZ) mod 256)).
  { unfold cursor_ok, IQENTRYSZ in *. destruct Ht. split; zdiv. }
  assert (Hc' : iq_pending s
                = (tlo, thi, pv, k)
                  :: ring_contents 256 (iqueue (hw s)) (iqhead (hw s))
                       ((iqtail s + IQENTRYSZ) mod 256)).
  { rewrite <- Hx. exact Hc. }
  assert (Hn' : ring_count 256 (iqhead (hw s)) ((iqtail s + IQENTRYSZ) mod 256)
                = iq_count s - 1) by exact Hn.
  pose proof (oq_count_range _ Hq) as (Hr' & _).
  cbv zeta. rewrite Hx.
  unfold forwards, next_allow, to_oq, time_lo, time_hi, port_state, kind. simpl.
  unfold dispatcher.
  destruct (Z.eqb_spec (iqhead (hw s)) (iqtail s)); [contradiction|]. simpl.
  rewrite E1, E2, E3, E4. simpl.
  assert (Hwf : forall q a,
            oq_wf q -> Forall is_byte (oqueue q) -> 0 <= a <= max_timer_events ->
            wf (mkState (hw s) q ((iqtail s + IQENTRYSZ) mod 256) pv a
                        (obuf s) (obuf_idx s) (remaining s) (tx s))).
  { intros q a Hwq Hwb Hwa. split; simpl; try assumption. split; assumption. }
  destruct (Z.eq_dec k 0) as [Hk|Hk];
    [ assert (Hl : lnot k = 1) by (unfold lnot; rewrite Hk; reflexivity);
      assert (Hkb : (k =? 0) = true) by (apply Z.eqb_eq; exact Hk)
    | assert (Hl : lnot k = 0)
        by (unfold lnot; destruct (Z.eqb_spec k 0); [contradiction|reflexivity]);
      assert (Hkb : (k =? 0) = false) by (apply Z.eqb_neq; exact Hk) ];
    rewrite ?Hl, ?Hkb; simpl.
  - (* a timer event *)
    destruct (Z.eqb_spec (allow_timer_events s) 0) as [Ha0|Ha0]; simpl.
    + eexists. split; [reflexivity|]. simpl.
      split; [apply Hwf; assumption|].
      do 6 (split; [reflexivity|]).
      split; [intros; contradiction|]. intros _.
      split; [exact Hc'|]. split; [exact Hn'|].
      rewrite app_nil_r. repeat split; lia.
    + assert (Ha1 : (allow_timer_events s - 1) mod 256 = allow_timer_events s - 1).
      { unfold max_timer_events in Ha. zdiv. }
      rewrite Ha1.
      destruct (Z.ltb_spec (oq_count (outq s)) oq_capacity) as [Hroom|Hfull].
      * destruct (oqpush_room tlo thi pv (lnot k) _ Hq ltac:(lia))
          as (q' & Hpush & Hq' & Hcq & Hnq & Htl & Hb').
        rewrite Hl in Hpush, Hcq. rewrite Hpush. simpl.
        eexists. split; [reflexivity|]. simpl.
        split; [apply Hwf; [assumption | apply Hb'; assumption | lia]|].
        do 5 (split; [reflexivity|]).
        split; [exact Htl|].
        split; [intros; contradiction|]. intros _.
        split; [exact Hc'|]. split; [exact Hn'|].
        split; [reflexivity|]. split; [|exact Hnq].
        exact Hcq.
      * rewrite (oqpush_full _ _ _ _ _ Hq ltac:(lia)). simpl.
        eexists. split; [reflexivity|]. simpl.
        split; [apply Hwf; [assumption | assumption | lia]|].
        do 6 (split; [reflexivity|]).
        split; [intros; contradiction|]. intros _.
        split; [exact Hc'|]. split; [exact Hn'|].
        rewrite app_nil_r. repeat split; lia.
  - (* a real capture *)
    destruct (Z.ltb_spec (oq_count (outq s)) oq_capacity) as [Hroom|Hfull].
    + destruct (oqpush_room tlo thi pv (lnot k) _ Hq ltac:(lia))
        as (q' & Hpush & Hq' & Hcq & Hnq & Htl & Hb').
      rewrite Hl in Hpush, Hcq. rewrite Hpush. simpl.
      eexists. split; [reflexivity|]. simpl.
      split; [apply Hwf; [assumption | apply Hb'; assumption |
                          unfold max_timer_events; lia]|].
      do 5 (split; [reflexivity|]).
      split; [exact Htl|].
      split; [intros; contradiction|]. intros _.
      split; [exact Hc'|]. split; [exact Hn'|].
      split; [reflexivity|]. split; [|exact Hnq].
      exact Hcq.
    + rewrite (oqpush_full _ _ _ _ _ Hq ltac:(lia)). simpl.
      eexists. split; [reflexivity|]. simpl.
      split; [apply Hwf; [assumption | assumption | unfold max_timer_events; lia]|].
      do 6 (split; [reflexivity|]).
      split; [intros; contradiction|]. intros _.
      split; [exact Hc'|]. split; [exact Hn'|].
      rewrite app_nil_r. repeat split; lia.
Qed.

(** *** hex *)

Lemma hex_digit (v : Z) :
  0 <= v < 16 ->
  hex v = (if v <? 10 then 48 + v else 65 + (v - 10))
  /\ text_char (hex v) = true /\ hex v <> 0.
Proof.
  intros Hv. unfold hex, text_char, SPACE, LF.
  destruct (Z.ltb_spec v 10).
  - rewrite Z.mod_small by lia. split; [lia|split; [|lia]].
    destruct (Z.leb_spec 48 (v + 48)); [|lia].
    destruct (Z.leb_spec (v + 48) 57); [|lia]. reflexivity.
  - rewrite Z.mod_small by lia. split; [lia|split; [|lia]].
    destruct (Z.leb_spec 65 (v + (65 - 10))); [|lia].
    destruct (Z.leb_spec (v + (65 - 10)) 70); [|lia].
    rewrite orb_true_r. reflexivity.
Qed.

Lemma nibbles (v : Z) :
  is_byte v ->
  0 <= Z.shiftr v 4 < 16 /\ 0 <= Z.land v 15 < 16 /\ 0 <= Z.land v 1 < 16.
Proof.
  unfold is_byte. intros Hv.
  assert (E1 : Z.shiftr v 4 = v / 16) by (apply (Z.shiftr_div_pow2 v 4); lia).
  assert (E2 : Z.land v 15 = v mod 16) by (apply (Z.land_ones v 4); lia).
  assert (E3 : Z.land v 1 = v mod 2) by (apply (Z.land_ones v 1); lia).
  rewrite E1, E2, E3. zdiv.
Qed.

Lemma line_of_text (e : entry) (rem : Z) :
  is_byte (time_lo e) -> is_byte (time_hi e) -> is_byte (port_state e) ->
  is_byte (kind e) ->
  Forall (fun c => text_char c = true) (take 8 (line_of e rem))
  /\ line_of e rem !! 8%nat = Some 0.
Proof.
  destruct e as [[[tlo thi] pv] tf]. unfold time_lo, time_hi, port_state, kind. simpl.
  intros B1 B2 B3 B4.
  destruct (nibbles _ B1) as (? & ? & ?). destruct (nibbles _ B2) as (? & ? & ?).
  destruct (nibbles _ B3) as (? & ? & ?). destruct (nibbles _ B4) as (? & ? & ?).
  split; [|reflexivity].
  repeat (apply Forall_cons; split; [try (apply hex_digit; assumption)|]).
  - destruct (rem =? 1); reflexivity.
  - apply Forall_nil. trivial.
Qed.

Lemma list16 (l : list Z) :
  length l = 16%nat ->
  exists b0 b1 b2 b3 b4 b5 b6 b7 b8 b9 b10 b11 b12 b13 b14 b15,
    l = [b0; b1; b2; b3; b4; b5; b6; b7; b8; b9; b10; b11; b12; b13; b14; b15].
Proof.
  intros H.
  do 16 (destruct l as [|? l]; [discriminate H|]).
  destruct l; [|discriminate H].
  repeat eexists.
Qed.

(** What the formatter does to a state. *)
Lemma formatter_spec (s : state) :
  wf s ->
  exists s2,
    formatter s = Some s2 /\ wf s2
    /\ hw s2 = hw s /\ iqtail s2 = iqtail s
    /\ allow_timer_events s2 = allow_timer_events s /\ tx s2 = tx s
    /\ oqueue (outq s2) = oqueue (outq s) /\ oqhead (outq s2) = oqhead (outq s)
    /\ ((byte_at (obuf s) (obuf_idx s) <> 0 \/ oq_count (outq s) = 0) ->
        s2 = s)
    /\ (byte_at (obuf s) (obuf_idx s) = 0 -> oq_count (outq s) <> 0 ->
        let e := entry_at (oqueue (outq s)) (oqtail (outq s)) in
        oq_contents (outq s) = e :: oq_contents (outq s2)
        /\ oq_count (outq s2) = oq_count (outq s) - 1
        /\ oqtail (outq s2) <> oqtail (outq s)
        /\ obuf_idx s2 = 0
        /\ obuf s2 = line_of e (remaining s) ++ drop 9 (obuf s)
        /\ remaining s2 = next_remaining (remaining s)).
Proof.
  intros Hs.
  destruct Hs as [Hhw Hq Hqb Ht Ha Hol Hoi Hoe Hot Hrem].
  destruct (load_in (obuf s) (obuf_idx s)) as [c Ec]; [lia|].
  pose proof (load_byte_at _ _ _ Ec) as Hc. rewrite Hc.
  pose proof (oq_count_range _ Hq) as (Hr & Hz & _).
  unfold formatter. rewrite Ec. simpl.
  assert (Hidle : c <> 0 \/ oq_count (outq s) = 0 ->
            (c =? 0) && (oqempty (outq s) =? 0) = false).
  { intros [H|H].
    - destruct (Z.eqb_spec c 0); [contradiction|reflexivity].
    - apply Hz in H. unfold oqempty. rewrite H, Z.eqb_refl. apply andb_false_r. }
  destruct (Z.eq_dec c 0) as [Hc0|Hc0];
    [destruct (Z.eq_dec (oq_count (outq s)) 0) as [Hq0|Hq0]|].
  2: { (* the formatter renders an entry *)
    assert (Hfire : (c =? 0) && (oqempty (outq s) =? 0) = true).
    { rewrite Hc0. simpl. unfold oqempty.
      destruct (Z.eqb_spec (oqhead (outq s)) (oqtail (outq s))) as [E|E];
        [apply Hz in E; contradiction | reflexivity]. }
    rewrite Hfire.
    destruct (oqpop_some _ Hq Hq0)
      as (e & q' & Hpop & Hq' & Hcq & Hnq & Hqm & Hqh & Hqt & He).
    rewrite Hpop. simpl.
    assert (Hb := entry_at_is_byte (oqueue (outq s)) (oqtail (outq s)) Hqb).
    rewrite <- He in Hb. destruct Hb as (B1 & B2 & B3 & B4).
    pose proof (line_of_text e (remaining s) B1 B2 B3 B4) as [Htext Hend].
    cbv zeta. rewrite <- He.
    destruct e as [[[tlo thi] pv] tf].
    destruct (list16 _ Hol) as (b0 & b1 & b2 & b3 & b4 & b5 & b6 & b7 & b8 & b9
                                 & b10 & b11 & b12 & b13 & b14 & b15 & Hobuf).
    rewrite Hobuf. unfold put, store. simpl.
    assert (Hrem1 : ((remaining s - 1) mod 256 =? 0) = (remaining s =? 1)).
    { unfold items_per_line in Hrem.
      destruct (Z.eqb_spec (remaining s) 1), (Z.eqb_spec ((remaining s - 1) mod 256) 0);
        try reflexivity; zdiv. }
    assert (Hrem2 : (remaining s - 1) mod 256 = remaining s - 1).
    { unfold items_per_line in Hrem. zdiv. }
    rewrite Hrem1, Hrem2.
    assert (Hwf' : forall sep r,
              text_char sep = true -> 1 <= r <= items_per_line ->
              wf (mkState (hw s) q' (iqtail s) (prev_pv s) (allow_timer_events s)
                    [hex (Z.shiftr thi 4); hex (Z.land thi 15);
                     hex (Z.shiftr tlo 4); hex (Z.land tlo 15);
                     hex (Z.shiftr pv 4); hex (Z.land pv 15); hex (Z.land tf 1);
                     sep; 0; b9; b10; b11; b12; b13; b14; b15]
                    0 r (tx s))).
    { intros sep r Hsep Hr'. split; simpl; try assumption; try reflexivity; try lia.
      - rewrite Hqm. assumption.
      - simpl in Htext.
        repeat match goal with
               | H : Forall _ (_ :: _) |- _ => apply Forall_cons in H; destruct H
               end.
        repeat (apply Forall_cons; split; [right; assumption|]).
        apply Forall_nil. trivial. }
    unfold next_remaining, items_per_line in *.
    destruct (Z.eqb_spec (remaining s) 1) as [Hr1|Hr1]; simpl.
    - eexists. split; [reflexivity|].
      split; [apply Hwf'; [reflexivity|lia]|]. simpl.
      do 4 (split; [reflexivity|]). split; [exact Hqm|]. split; [exact Hqh|].
      split; [intros [H|H]; contradiction|]. intros _ _.
      unfold entry_at in He. injection He as <- <- <- <-.
      repeat split; try assumption.
    - eexists. split; [reflexivity|].
      split; [apply Hwf'; [reflexivity|lia]|]. simpl.
      do 4 (split; [reflexivity|]). split; [exact Hqm|]. split; [exact Hqh|].
      split; [intros [H|H]; contradiction|]. intros _ _.
      unfold entry_at in He. injection He as <- <- <- <-.
      repeat split; try assumption. }
  - rewrite Hidle by (right; assumption).
    exists s. split; [reflexivity|].
    split; [split; assumption|].
    do 6 (split; [reflexivity|]).
    split; [reflexivity|]. intros; contradiction.
  - rewrite Hidle by (left; assumption).
    exists s. split; [reflexivity|].
    split; [split; assumption|].
    do 6 (split; [reflexivity|]).
    split; [reflexivity|]. intros; contradiction.
Qed.

(** What the transmitter does to a state. *)
Lemma transmitter_spec (ready : bool) (s : state) :
  wf s ->
  exists s3,
    transmitter ready s = Some s3 /\ wf s3
    /\ hw s3 = hw s /\ outq s3 = outq s /\ iqtail s3 = iqtail s
    /\ allow_timer_events s3 = allow_timer_events s
    /\ obuf s3 = obuf s /\ remaining s3 = remaining s
    /\ exists l, tx s3 = tx s ++ l /\ Forall (fun c => text_char c = true) l.
Proof.
  intros Hs.
  destruct Hs as [Hhw Hq Hqb Ht Ha Hol Hoi Hoe Hot Hrem].
  destruct (load_in (obuf s) (obuf_idx s)) as [c Ec]; [lia|].
  unfold transmitter. rewrite Ec. simpl.
  destruct (Z.eqb_spec c 0) as [Hc|Hc]; simpl;
    [|destruct ready; simpl].
  - exists s. split; [reflexivity|]. split; [split; assumption|].
    do 6 (split; [reflexivity|]). exists []. rewrite app_nil_r. auto.
  - assert (Hidx : obuf_idx s < 8).
    { destruct (Z.eq_dec (obuf_idx s) 8) as [E|E]; [|lia].
      unfold load in Ec. rewrite E in Ec.
      change (0 <=? 8) with true in Ec. change (Z.to_nat 8) with 8%nat in Ec.
      cbv iota in Ec. rewrite Hoe in Ec. congruence. }
    assert (Htc : text_char c = true).
    { unfold load in Ec. destruct (Z.leb_spec 0 (obuf_idx s)); [|lia].
      rewrite Forall_lookup in Hot.
      destruct (Hot (Z.to_nat (obuf_idx s)) c) as [E|E]; [|contradiction|exact E].
      rewrite lookup_take_lt by lia. exact Ec. }
    eexists. split; [reflexivity|]. simpl.
    split; [split; simpl; try assumption; zdiv|].
    do 6 (split; [reflexivity|]). exists [c]. split; [reflexivity|].
    apply Forall_cons. split; [exact Htc|apply Forall_nil; trivial].
  - exists s. split; [reflexivity|]. split; [split; assumption|].
    do 6 (split; [reflexivity|]). exists []. rewrite app_nil_r. auto.
Qed.

(** What an interrupt does to a state. *)
Lemma interrupt_spec (v : vector) (e : inputs) (s : state) :
  wf s ->
  let x := (byte_val (in_tcnt1l e), byte_val (in_tcnt1h e),
            byte_val (in_pin e), capflag_of v) in
  exists s',
    step (Interrupt v e) s = Some s' /\ wf s'
    /\ outq s' = outq s /\ iqtail s' = iqtail s
    /\ allow_timer_events s' = allow_timer_events s
    /\ obuf s' = obuf s /\ obuf_idx s' = obuf_idx s
    /\ remaining s' = remaining s /\ tx s' = tx s
    /\ produced_at (Interrupt v e) s = [x]
    /\ (iq_count s <> IQ_CAPACITY ->
        iq_pending s' = iq_pending s ++ [x] /\ iq_count s' = iq_count s + 1).
Proof.
  intros Hs. cbv zeta.
  pose proof (iq_count_range s Hs) as (Hr & _ & Hfull).
  destruct Hs as [Hhw Hq Hqb Ht Ha Hol Hoi Hoe Hot Hrem].
  destruct (ISR_spec v e (hw s) Hhw) as (c' & HISR & Hc' & Hh' & Hat & Hother & _).
  pose proof (cpu_iqhead _ Hhw) as Hh.
  simpl. rewrite HISR. simpl.
  eexists. split; [reflexivity|]. simpl.
  split; [split; assumption|].
  do 7 (split; [reflexivity|]).
  split; [rewrite Hat; reflexivity|].
  intros Hroom.
  unfold iq_pending, iq_count. simpl. rewrite Hh', <- (ring_next_256 _ Hh).
  apply ring_contents_push; try assumption; try reflexivity.
  intros E. apply Hroom, Hfull, E.
Qed.

(** What one pass of the loop does: the three stages together. *)
Lemma pass_spec (ready : bool) (s : state) :
  wf s ->
  exists s',
    step (Pass ready) s = Some s' /\ wf s'
    /\ hw s' = hw s
    /\ (exists l, tx s' = tx s ++ l /\ Forall (fun c => text_char c = true) l)
    /\ (iq_count s = 0 ->
        iq_count s' = 0 /\ allow_timer_events s' = allow_timer_events s
        /\ dequeued_at (Pass ready) s = [] /\ forwarded_at (Pass ready) s = [])
    /\ (iq_count s <> 0 ->
        let x := entry_at (iqueue (hw s)) (iqtail s) in
        let pushed := forwards (allow_timer_events s) x
                      && (oq_count (outq s) <? oq_capacity) in
        iq_pending s = x :: iq_pending s'
        /\ iq_count s' = iq_count s - 1
        /\ allow_timer_events s' = next_allow (allow_timer_events s) x
        /\ dequeued_at (Pass ready) s = [x]
        /\ forwarded_at (Pass ready) s = (if pushed then [to_oq x] else []))
    /\ (let avail := oq_contents (outq s) ++ forwarded_at (Pass ready) s in
        (byte_at (obuf s) (obuf_idx s) <> 0 \/ avail = [] ->
         rendered_at (Pass ready) s = [] /\ remaining s' = remaining s
         /\ obuf s' = obuf s /\ oq_contents (outq s') = avail)
        /\ (byte_at (obuf s) (obuf_idx s) = 0 ->
            forall e rest, avail = e :: rest ->
            rendered_at (Pass ready) s
            = [(line_of e (remaining s) ++ drop 9 (obuf s),
                next_remaining (remaining s))]
            /\ remaining s' = next_remaining (remaining s)
            /\ obuf s' = line_of e (remaining s) ++ drop 9 (obuf s)
            /\ oq_contents (outq s') = rest
            /\ is_byte (time_lo e) /\ is_byte (time_hi e)
            /\ is_byte (port_state e) /\ is_byte (kind e))).
Proof.
  intros Hs.
  destruct (dispatcher_spec s Hs)
    as (s1 & Hd & Hs1 & Dhw & Dobuf & Didx & Drem & Dtx & Dtl & Didle & Dbusy).
  destruct (formatter_spec s1 Hs1)
    as (s2 & Hf & Hs2 & Fhw & Fiqt & Fallow & Ftx & Fqm & Fqh & Fidle & Ffire).
  destruct (transmitter_spec ready s2 Hs2)
    as (s3 & Ht & Hs3 & Thw & Tq & Tiqt & Tallow & Tobuf & Trem & l & Ttx & Tl).
  exists s3.
  split; [simpl; unfold main_pass; rewrite Hd; simpl; rewrite Hf; simpl; exact Ht|].
  split; [exact Hs3|].
  split; [congruence|].
  split; [exists l; split; [congruence|exact Tl]|].
  pose proof (iq_count_range s Hs) as (_ & Hz & _).
  assert (Hiq3 : iq_count s3 = iq_count s1 /\ iq_pending s3 = iq_pending s1).
  { unfold iq_count, iq_pending. rewrite Thw, Tiqt, Fhw, Fiqt. auto. }
  destruct Hiq3 as [Hn3 Hp3].
  assert (Hfwd : forwarded_at (Pass ready) s
                 = drop (length (oq_contents (outq s))) (oq_contents (outq s1))).
  { simpl. rewrite Hd. reflexivity. }
  assert (Havail : oq_contents (outq s) ++ forwarded_at (Pass ready) s
                   = oq_contents (outq s1)).
  { rewrite Hfwd.
    destruct (Z.eq_dec (iq_count s) 0) as [E|E].
    - rewrite (Didle E). rewrite drop_all. apply app_nil_r.
    - destruct (Dbusy E) as (_ & _ & _ & Hc & _). rewrite Hc.
      rewrite drop_app_length. reflexivity. }
  split; [|split].
  - intros E. pose proof (Didle E) as Es1.
    rewrite Hn3, Hfwd, Es1, drop_all.
    split; [exact E|]. split; [congruence|]. split; [|reflexivity].
    simpl. apply Hz in E. rewrite E, Z.eqb_refl. reflexivity.
  - intros E. cbv zeta.
    destruct (Dbusy E) as (Hp & Hn & Hal & Hc & _).
    rewrite Hn3, Hp3. split; [exact Hp|]. split; [exact Hn|].
    split; [congruence|]. split.
    + simpl. destruct (Z.eqb_spec (iqhead (hw s)) (iqtail s)) as [E'|E'];
        [apply Hz in E'; contradiction | reflexivity].
    + rewrite Hfwd, Hc, drop_app_length. reflexivity.
  - cbv zeta. rewrite Havail.
    assert (Hrend : rendered_at (Pass ready) s
                    = if oqtail (outq s2) =? oqtail (outq s1) then []
                      else [(obuf s2, remaining s2)]).
    { simpl. rewrite Hd, Hf. reflexivity. }
    rewrite Hrend, Tobuf, Trem, Tq, <- Dobuf, <- Didx, <- Drem.
    split.
    + intros Hidle.
      assert (Hs2s1 : s2 = s1).
      { apply Fidle. destruct Hidle as [H|H]; [left; exact H|right].
        pose proof (oq_contents_length (outq s1)) as HL.
        rewrite H in HL. simpl in HL.
        pose proof (oq_count_range _ (wf_outq _ Hs1)) as (Hr1 & _). lia. }
      rewrite Hs2s1, Z.eqb_refl. auto.
    + intros Hc0 e rest He.
      assert (Hq0 : oq_count (outq s1) <> 0).
      { intros E. pose proof (oq_contents_length (outq s1)) as HL.
        rewrite He, E in HL. discriminate HL. }
      destruct (Ffire Hc0 Hq0) as (Hc & Hn & Htl & Hidx & Hob & Hrm).
      rewrite He in Hc. injection Hc as He' Hrest.
      destruct (Z.eqb_spec (oqtail (outq s2)) (oqtail (outq s1))); [contradiction|].
      destruct (entry_at_is_byte (oqueue (outq s1)) (oqtail (outq s1))
                  (wf_outq_bytes _ Hs1)) as (B1 & B2 & B3 & B4).
      rewrite <- He' in B1, B2, B3, B4.
      rewrite Hob, Hrm, <- He', <- Hrest.
      repeat split; first [assumption | apply B1 | apply B2 | apply B3 | apply B4].
Qed.

(** *** Start-up *)

Lemma print_banner : print_P banner [] = banner.
Proof. reflexivity. Qed.

Lemma main_start_spec (c0 : cpu) (pin0 : Byte.byte) :
  516 <= RAM_SIZE -> reset_ok c0 ->
  let s := main_start c0 pin0 in
  wf s /\ tx s = banner /\ iq_count s = 0 /\ oq_count (outq s) = 0
  /\ allow_timer_events s = max_timer_events /\ remaining s = items_per_line
  /\ obuf s = replicate 16 0 /\ obuf_idx s = 0.
Proof.
  intros Hram [Hz Hlen Hb]. cbv zeta.
  destruct c0 as [z p3 p4 p5 p6 h pg m fl]. simpl in *. subst z.
  pose proof (oq_init_wf Hram) as Hq.
  split; [|repeat split].
  - split; simpl; try assumption; try reflexivity.
    + split; simpl; try assumption; try reflexivity.
      split; [lia | reflexivity].
    + apply Forall_replicate. unfold is_byte. lia.
    + split; [lia | reflexivity].
    + unfold max_timer_events. lia.
    + lia.
    + repeat (apply Forall_cons; split; [left; reflexivity|]). apply Forall_nil. trivial.
    + unfold items_per_line. lia.
Qed.

(** *** No execution faults *)

Lemma step_total (ev : event) (s : state) :
  wf s -> exists s', step ev s = Some s' /\ wf s'.
Proof.
  intros Hs. destruct ev as [v e|ready].
  - destruct (interrupt_spec v e s Hs) as (s' & H & Hs' & _). eauto.
  - destruct (pass_spec ready s Hs) as (s' & H & Hs' & _). eauto.
Qed.

Lemma run_total (evs : list event) (s : state) :
  wf s -> exists s', run evs s = Some s' /\ wf s'.
Proof.
  revert s. induction evs as [|ev evs IH]; intros s Hs.
  - exists s. auto.
  - destruct (step_total ev s Hs) as (s1 & H1 & Hs1).
    destruct (IH s1 Hs1) as (s' & H' & Hs').
    exists s'. simpl. rewrite H1. simpl. auto.
Qed.

Lemma run_app (evs1 evs2 : list event) (s : state) :
  run (evs1 ++ evs2) s = s1 ← run evs1 s; run evs2 s1.
Proof.
  revert s. induction evs1 as [|ev evs1 IH]; intros s; simpl; [reflexivity|].
  destruct (step ev s) as [s1|]; simpl; [apply IH | reflexivity].
Qed.

(** *** The debug channel along an execution *)

Lemma run_tx (evs : list event) (s : state) :
  wf s ->
  exists s' l,
    run evs s = Some s' /\ wf s' /\ tx s' = tx s ++ l
    /\ Forall (fun c => text_char c = true) l.
Proof.
  revert s. induction evs as [|ev evs IH]; intros s Hs.
  - exists s, []. rewrite app_nil_r. auto.
  - assert (H1 : exists s1 l1, step ev s = Some s1 /\ wf s1 /\ tx s1 = tx s ++ l1
                               /\ Forall (fun c => text_char c = true) l1).
    { destruct ev as [v e|ready].
      - destruct (interrupt_spec v e s Hs)
          as (s1 & H & Hs1 & _ & _ & _ & _ & _ & _ & Htx & _).
        exists s1, []. rewrite app_nil_r. auto.
      - destruct (pass_spec ready s Hs) as (s1 & H & Hs1 & _ & (l1 & Htx & Hl1) & _).
        exists s1, l1. auto. }
    destruct H1 as (s1 & l1 & H1 & Hs1 & Htx1 & Hl1).
    destruct (IH s1 Hs1) as (s' & l & H' & Hs' & Htx & Hl).
    exists s', (l1 ++ l). simpl. rewrite H1. simpl.
    split; [exact H'|]. split; [exact Hs'|].
    split; [rewrite Htx, Htx1, app_assoc; reflexivity|].
    apply Forall_app. auto.
Qed.

(** *** The two queues along an execution *)

Lemma spec_throttle_cons (a : Z) (x : entry) (xs : list entry) :
  0 <= a ->
  spec_throttle a (x :: xs)
  = (if forwards a x then [x] else []) ++ spec_throttle (next_allow a x) xs.
Proof.
  intros Ha. simpl. unfold forwards, next_allow.
  destruct (kind x =? 0); simpl; [|reflexivity].
  destruct (Z.ltb_spec 0 a), (Z.eqb_spec a 0); simpl; try reflexivity; lia.
Qed.

Lemma next_allow_range (a : Z) (x : entry) :
  0 <= a <= max_timer_events -> 0 <= next_allow a x <= max_timer_events.
Proof.
  unfold next_allow, max_timer_events. intros Ha.
  destruct (kind x =? 0); [|lia]. destruct (Z.eqb_spec a 0); lia.
Qed.

Lemma spec_throttle_sublist (a : Z) (xs : list entry) :
  sublist (spec_throttle a xs) xs.
Proof.
  revert a. induction xs as [|x xs IH]; intros a; simpl.
  - constructor.
  - destruct (kind x =? 0); [destruct (0 <? a)|]; constructor; apply IH.
Qed.

Lemma iq_pending_nil (s : state) : iq_count s = 0 -> iq_pending s = [].
Proof.
  unfold iq_pending, iq_count, ring_contents. intros ->. reflexivity.
Qed.

Lemma run_queues (evs : list event) (s : state) :
  wf s ->
  exists s',
    run evs s = Some s' /\ wf s'
    /\ (guarded iq_room evs s = true ->
        iq_pending s ++ observe produced_at evs s
        = observe dequeued_at evs s ++ iq_pending s')
    /\ allow_timer_events s'
       = foldl next_allow (allow_timer_events s) (observe dequeued_at evs s)
    /\ sublist (observe forwarded_at evs s)
               (map to_oq (spec_throttle (allow_timer_events s)
                                         (observe dequeued_at evs s)))
    /\ (guarded oq_room evs s = true ->
        observe forwarded_at evs s
        = map to_oq (spec_throttle (allow_timer_events s)
                                   (observe dequeued_at evs s))).
Proof.
  revert s. induction evs as [|ev evs IH]; intros s Hs.
  - exists s. simpl. rewrite app_nil_r.
    split; [reflexivity|]. split; [exact Hs|]. split; [reflexivity|].
    split; [reflexivity|]. split; [constructor|reflexivity].
  - destruct ev as [v e|ready].
    + (* an interrupt *)
      destruct (interrupt_spec v e s Hs)
        as (s1 & H1 & Hs1 & Hq & Hiqt & Hal & _ & _ & _ & _ & Hprod & Hpend).
      destruct (IH s1 Hs1) as (s' & H' & Hs' & Hfifo & Hallow & Hsub & Heq).
      exists s'.
      cbn [observe run guarded]. rewrite H1. cbn [mbind option_bind].
      rewrite Hprod. cbn [dequeued_at forwarded_at oq_room app andb].
      split; [exact H'|]. split; [exact Hs'|].
      rewrite <- Hal.
      split; [|split; [exact Hallow|split; [exact Hsub|exact Heq]]].
      intros Hroom. apply andb_prop in Hroom. destruct Hroom as [Hev Hroom].
      simpl in Hev. apply Z.ltb_lt in Hev.
      destruct Hpend as [Hpend Hcount]; [lia|].
      rewrite <- (Hfifo Hroom), Hpend, <- app_assoc. reflexivity.
    + (* a pass *)
      destruct (pass_spec ready s Hs)
        as (s1 & H1 & Hs1 & Hhw & _ & Hidle & Hbusy & _).
      destruct (IH s1 Hs1) as (s' & H' & Hs' & Hfifo & Hallow & Hsub & Heq).
      exists s'.
      cbn [observe run guarded]. rewrite H1. cbn [mbind option_bind].
      split; [exact H'|]. split; [exact Hs'|].
      pose proof (wf_allow _ Hs) as Ha.
      destruct (Z.eq_dec (iq_count s) 0) as [E|E].
      * destruct (Hidle E) as (E1 & Hal & Hd & Hf).
        rewrite Hd, Hf. cbn [produced_at app]. rewrite <- Hal.
        rewrite (iq_pending_nil _ E). rewrite (iq_pending_nil _ E1) in Hfifo.
        split; [intros Hroom; apply andb_prop in Hroom; apply Hfifo, Hroom|].
        split; [exact Hallow|]. split; [exact Hsub|].
        intros Hoq. apply andb_prop in Hoq. apply Heq, Hoq.
      * destruct (Hbusy E) as (Hpend & Hcount & Hal & Hd & Hf).
        rewrite Hd, Hf. cbn [produced_at app].
        rewrite Hpend.
        rewrite (spec_throttle_cons _ _ _ (proj1 Ha)).
        cbn [foldl]. rewrite <- Hal.
        split; [intros Hroom; apply andb_prop in Hroom; simpl;
                rewrite (Hfifo (proj2 Hroom)); reflexivity|].
        split; [exact Hallow|].
        rewrite map_app.
        split.
        -- apply sublist_app; [|exact Hsub].
           destruct (forwards _ _); simpl;
             [destruct (_ <? _); repeat constructor | constructor].
        -- intros Hoq. apply andb_prop in Hoq. destruct Hoq as [Hoq1 Hoq].
           simpl in Hoq1. rewrite Hoq1, andb_true_r.
           rewrite (Heq Hoq).
           destruct (forwards _ _); reflexivity.
Qed.

(** The policy on a run of ticks, and what it keeps of any sequence. *)
Lemma spec_throttle_ticks (a : Z) (ticks : list entry) :
  0 <= a -> Forall (fun x => kind x = 0) ticks ->
  spec_throttle a ticks = take (Z.to_nat a) ticks
  /\ foldl next_allow a ticks = Z.max 0 (a - Z.of_nat (length ticks)).
Proof.
  intros Ha Ht. revert a Ha. induction Ht as [|x ticks Hx Ht IH]; intros a Ha.
  - simpl. rewrite take_nil. split; [reflexivity | lia].
  - assert (Hn : next_allow a x = if a =? 0 then a else a - 1).
    { unfold next_allow. rewrite Hx. reflexivity. }
    cbn [spec_throttle foldl length]. rewrite Hn, Hx. simpl (0 =? 0). cbv iota.
    destruct (Z.ltb_spec 0 a), (Z.eqb_spec a 0); try lia.
    + destruct (IH (a - 1)) as [IH1 IH2]; [lia|].
      rewrite IH1, IH2.
      replace (Z.to_nat a) with (S (Z.to_nat (a - 1))) by lia.
      split; [reflexivity | lia].
    + destruct (IH a) as [IH1 IH2]; [lia|].
      rewrite IH1, IH2. subst a. simpl. rewrite take_0. split; [reflexivity | lia].
Qed.

Lemma spec_throttle_app (a : Z) (xs ys : list entry) :
  0 <= a ->
  spec_throttle a (xs ++ ys)
  = spec_throttle a xs ++ spec_throttle (foldl next_allow a xs) ys.
Proof.
  revert a. induction xs as [|x xs IH]; intros a Ha; [reflexivity|].
  rewrite <- app_comm_cons, !spec_throttle_cons by assumption.
  cbn [foldl]. rewrite IH, app_assoc; [reflexivity|].
  unfold next_allow, max_timer_events.
  destruct (kind x =? 0); [|lia]. destruct (Z.eqb_spec a 0); lia.
Qed.

Lemma foldl_next_allow_range (a : Z) (xs : list entry) :
  0 <= a <= max_timer_events -> 0 <= foldl next_allow a xs <= max_timer_events.
Proof.
  revert a. induction xs as [|x xs IH]; intros a Ha; [exact Ha|].
  simpl. apply IH, next_allow_range, Ha.
Qed.

(** The policy on a run of ticks that follows a real capture. *)
Lemma spec_throttle_run (a : Z) (pre : list entry) (c0 : entry)
    (ticks post : list entry) :
  0 <= a <= max_timer_events -> kind c0 <> 0 ->
  Forall (fun x => kind x = 0) ticks ->
  spec_throttle a (pre ++ [c0] ++ ticks ++ post)
  = spec_throttle a pre ++ [c0] ++ take 2 ticks
    ++ spec_throttle (Z.max 0 (max_timer_events - Z.of_nat (length ticks))) post.
Proof.
  intros Ha Hc0 Hticks.
  assert (Hk : (kind c0 =? 0) = false) by (apply Z.eqb_neq; exact Hc0).
  rewrite spec_throttle_app by lia. f_equal.
  cbn [app spec_throttle]. rewrite Hk. f_equal.
  rewrite spec_throttle_app by (unfold max_timer_events; lia).
  destruct (spec_throttle_ticks max_timer_events ticks) as [Ht Hf];
    [unfold max_timer_events; lia | exact Hticks |].
  rewrite Ht, Hf. reflexivity.
Qed.


(** *** The formatter along an execution *)

Lemma line_of_length (e : entry) (rem : Z) : length (line_of e rem) = 9%nat.
Proof. destruct e as [[[? ?] ?] ?]. reflexivity. Qed.

Lemma iter_next_remaining (k : nat) :
  Nat.iter k next_remaining items_per_line = 10 - Z.of_nat k mod 10.
Proof.
  induction k as [|k IH].
  - reflexivity.
  - rewrite Nat.iter_succ, IH. unfold next_remaining, items_per_line.
    destruct (Z.eqb_spec (10 - Z.of_nat k mod 10) 1); zdiv.
Qed.

Lemma run_rendered (evs : list event) (s : state) :
  wf s ->
  forall k b r,
    observe rendered_at evs s !! k = Some (b, r) ->
    exists e,
      (oq_contents (outq s) ++ observe forwarded_at evs s) !! k = Some e
      /\ is_byte (time_lo e) /\ is_byte (time_hi e) /\ is_byte (port_state e)
      /\ is_byte (kind e)
      /\ take 9 b = line_of e (Nat.iter k next_remaining (remaining s))
      /\ r = Nat.iter (S k) next_remaining (remaining s).
Proof.
  revert s. induction evs as [|ev evs IH]; intros s Hs k b r Hk.
  - simpl in Hk. rewrite lookup_nil in Hk. discriminate.
  - cbn [observe] in Hk |- *.
    destruct ev as [v e|ready].
    + destruct (interrupt_spec v e s Hs)
        as (s1 & H1 & Hs1 & Hq & _ & _ & _ & _ & Hrem & _).
      rewrite H1 in Hk |- *. cbn [rendered_at forwarded_at app] in Hk |- *.
      rewrite <- Hrem, <- Hq. apply (IH s1 Hs1 k b r Hk).
    + destruct (pass_spec ready s Hs)
        as (s1 & H1 & Hs1 & _ & _ & _ & _ & Hidle & Hfire).
      rewrite H1 in Hk |- *. rewrite app_assoc.
      destruct (Z.eq_dec (byte_at (obuf s) (obuf_idx s)) 0) as [Hc|Hc];
        [destruct (oq_contents (outq s) ++ forwarded_at (Pass ready) s)
           as [|e rest] eqn:Havail|].
      * destruct (Hidle (or_intror eq_refl)) as (Hr0 & Hrem & _ & Hq).
        rewrite Hr0 in Hk. cbn [app] in Hk.
        rewrite <- Hrem, <- Hq. apply (IH s1 Hs1 k b r Hk).
      * destruct (Hfire Hc e rest eq_refl)
          as (Hr0 & Hrem & _ & Hq & B1 & B2 & B3 & B4).
        rewrite Hr0 in Hk. cbn [app] in Hk.
        destruct k as [|k].
        -- simpl in Hk. injection Hk as <- <-.
           exists e. split; [reflexivity|].
           split; [exact B1|]. split; [exact B2|]. split; [exact B3|].
           split; [exact B4|]. split; [|reflexivity].
           rewrite take_app_length'; [reflexivity | symmetry; apply line_of_length].
        -- simpl in Hk.
           destruct (IH s1 Hs1 k b r Hk) as (e' & He' & C1 & C2 & C3 & C4 & Hb & Hr).
           exists e'. rewrite Hrem in Hb, Hr. rewrite Hq in He'.
           rewrite <- (Nat.iter_succ_r k) in Hb.
           rewrite <- (Nat.iter_succ_r (S k)) in Hr.
           exact (conj He' (conj C1 (conj C2 (conj C3 (conj C4 (conj Hb Hr)))))).
      * destruct (Hidle (or_introl Hc)) as (Hr0 & Hrem & _ & Hq).
        rewrite Hr0 in Hk. cbn [app] in Hk.
        rewrite <- Hrem, <- Hq. apply (IH s1 Hs1 k b r Hk).
Qed.

End MainProofs.

(** ** Lemmas for the properties beyond the specification's *)

Section MoreProofs.

Context {dev : device}.

(** *** Popping in a row *)

Lemma oqpop_all_spec (n : nat) (q : oq) :
  oq_wf q -> Z.of_nat n <= oq_count q ->
  exists q',
    oqpop_all n q = Some (map (fun e => (1, Some e)) (take n (oq_contents q)), q')
    /\ oq_wf q'
    /\ oq_contents q' = drop n (oq_contents q)
    /\ oq_count q' = oq_count q - Z.of_nat n
    /\ oqueue q' = oqueue q /\ oqhead q' = oqhead q.
Proof.
  revert q. induction n as [|n IH]; intros q Hq Hn.
  - exists q. simpl. rewrite Z.sub_0_r. auto 10.
  - destruct (oqpop_some q Hq) as (e & q1 & Hpop & Hq1 & Hc & Hn1 & Hm & Hh & _);
      [lia|].
    destruct (IH q1 Hq1) as (q' & Hall & Hq' & Hc' & Hn' & Hm' & Hh'); [lia|].
    exists q'. cbn [oqpop_all]. rewrite Hpop. simpl. rewrite Hall. simpl.
    rewrite Hc. simpl.
    split; [reflexivity|]. split; [exact Hq'|]. split; [exact Hc'|].
    split; [lia|]. split; congruence.
Qed.

(** *** The line buffer as a C string *)

Lemma cstr_app_zero (l r : list Z) :
  Forall (fun c => c <> 0) l -> cstr (l ++ 0 :: r) = l.
Proof.
  induction 1 as [|c l Hc Hl IH]; simpl; [reflexivity|].
  destruct (Z.eqb_spec c 0); [contradiction|]. rewrite IH. reflexivity.
Qed.

Lemma cstr_zero (l : list Z) (i : Z) :
  0 <= i -> byte_at l i = 0 -> cstr (drop (Z.to_nat i) l) = [].
Proof.
  intros Hi H0. unfold byte_at, load in H0.
  destruct (Z.leb_spec 0 i); [|lia].
  destruct (l !! Z.to_nat i) as [c|] eqn:E; simpl in H0.
  - rewrite (drop_S _ _ _ E). simpl. subst c. reflexivity.
  - rewrite drop_ge; [reflexivity|]. apply lookup_ge_None_1, E.
Qed.

Lemma cstr_next (l : list Z) (i c : Z) :
  0 <= i -> load l i = Some c -> c <> 0 ->
  cstr (drop (Z.to_nat i) l) = c :: cstr (drop (Z.to_nat (i + 1)) l).
Proof.
  intros Hi Hl Hc. unfold load in Hl. destruct (Z.leb_spec 0 i); [|lia].
  rewrite (drop_S _ _ _ Hl). simpl.
  destruct (Z.eqb_spec c 0); [contradiction|].
  replace (Z.to_nat (i + 1)) with (S (Z.to_nat i)) by lia. reflexivity.
Qed.

Lemma text_char_nonzero (c : Z) : text_char c = true -> c <> 0.
Proof. intros H ->. discriminate H. Qed.

Lemma line_of_split (e : entry) (rem : Z) (rest : list Z) :
  line_of e rem ++ rest = take 8 (line_of e rem) ++ 0 :: rest.
Proof. destruct e as [[[? ?] ?] ?]. reflexivity. Qed.

(** *** What a pass sends *)

Lemma transmitter_exact (ready : bool) (s s3 : state) :
  wf s -> transmitter ready s = Some s3 ->
  tx s3 = tx s ++ (if ready then take 1 (unsent s) else [])
  /\ unsent s3 = (if ready then drop 1 (unsent s) else unsent s).
Proof.
  intros Hs Ht.
  destruct Hs as [Hhw Hq Hqb Hiqt Ha Hol Hoi Hoe Hot Hrem].
  destruct (load_in (obuf s) (obuf_idx s)) as [c Ec]; [lia|].
  unfold transmitter in Ht. rewrite Ec in Ht. simpl in Ht.
  destruct (Z.eqb_spec c 0) as [Hc|Hc]; simpl in Ht.
  - injection Ht as <-.
    assert (Hu : unsent s = []).
    { apply cstr_zero; [lia|]. rewrite (load_byte_at _ _ _ Ec). exact Hc. }
    rewrite Hu. destruct ready; simpl; rewrite ?app_nil_r; auto.
  - assert (Hu : unsent s
                 = c :: cstr (drop (Z.to_nat (obuf_idx s + 1)) (obuf s))).
    { apply cstr_next; [lia | exact Ec | exact Hc]. }
    destruct ready; simpl in Ht; injection Ht as <-.
    + assert (Hidx : obuf_idx s < 8).
      { destruct (Z.eq_dec (obuf_idx s) 8) as [E|E]; [|lia].
        unfold load in Ec. rewrite E in Ec.
        change (0 <=? 8) with true in Ec. change (Z.to_nat 8) with 8%nat in Ec.
        cbv iota in Ec. rewrite Hoe in Ec. congruence. }
      unfold unsent at 2. simpl.
      rewrite (Z.mod_small (obuf_idx s + 1) 256) by lia.
      rewrite Hu. simpl. auto.
    + rewrite app_nil_r. auto.
Qed.

Lemma pass_stream (ready : bool) (s : state) :
  wf s ->
  exists s',
    step (Pass ready) s = Some s' /\ wf s'
    /\ tx s' = tx s ++ (if ready then take 1 (after_formatter ready s) else [])
    /\ unsent s' = (if ready then drop 1 (after_formatter ready s)
                    else after_formatter ready s)
    /\ (unsent s <> [] -> rendered_at (Pass ready) s = [])
    /\ Forall (fun bl => length (group_text bl) = 8%nat
                         /\ Forall (fun c => text_char c = true) (group_text bl))
              (rendered_at (Pass ready) s)
    /\ (length (rendered_at (Pass ready) s) <= 1)%nat.
Proof.
  intros Hs.
  destruct (dispatcher_spec s Hs)
    as (s1 & Hd & Hs1 & Dhw & Dobuf & Didx & Drem & Dtx & Dtl & _).
  destruct (formatter_spec s1 Hs1)
    as (s2 & Hf & Hs2 & Fhw & Fiqt & Fallow & Ftx & Fqm & Fqh & Fidle & Ffire).
  destruct (transmitter_spec ready s2 Hs2) as (s3 & Ht & Hs3 & _).
  destruct (transmitter_exact ready s2 s3 Hs2 Ht) as [Htx Hun].
  exists s3.
  split; [simpl; unfold main_pass; rewrite Hd; simpl; rewrite Hf; simpl; exact Ht|].
  split; [exact Hs3|].
  assert (Hrend : rendered_at (Pass ready) s
                  = if oqtail (outq s2) =? oqtail (outq s1) then []
                    else [(obuf s2, remaining s2)]).
  { simpl. rewrite Hd, Hf. reflexivity. }
  assert (Hu1 : unsent s1 = unsent s) by (unfold unsent; rewrite Dobuf, Didx; reflexivity).
  assert (Hcases :
            (unsent s2 = unsent s /\ rendered_at (Pass ready) s = [])
            \/ (unsent s = []
                /\ exists e,
                     is_byte (time_lo e) /\ is_byte (time_hi e)
                     /\ is_byte (port_state e) /\ is_byte (kind e)
                     /\ unsent s2 = take 8 (line_of e (remaining s1))
                     /\ rendered_at (Pass ready) s
                        = [(line_of e (remaining s1) ++ drop 9 (obuf s1),
                            remaining s2)])).
  { destruct (Z.eq_dec (byte_at (obuf s1) (obuf_idx s1)) 0) as [Hc|Hc];
      [destruct (Z.eq_dec (oq_count (outq s1)) 0) as [Hq0|Hq0]|].
    - left. rewrite Hrend, (Fidle (or_intror Hq0)), Z.eqb_refl, Hu1. auto.
    - right.
      destruct (Ffire Hc Hq0) as (_ & _ & Htl & Hidx & Hob & _).
      split.
      { rewrite <- Hu1. apply cstr_zero; [apply (wf_obuf_idx _ Hs1) | exact Hc]. }
      exists (entry_at (oqueue (outq s1)) (oqtail (outq s1))).
      destruct (entry_at_is_byte (oqueue (outq s1)) (oqtail (outq s1))
                  (wf_outq_bytes _ Hs1)) as (B1 & B2 & B3 & B4).
      split; [exact B1|]. split; [exact B2|]. split; [exact B3|]. split; [exact B4|].
      split.
      + unfold unsent. rewrite Hidx, Hob.
        change (Z.to_nat 0) with 0%nat. rewrite drop_0, line_of_split.
        apply cstr_app_zero.
        destruct (line_of_text _ (remaining s1) B1 B2 B3 B4) as [Htext _].
        eapply Forall_impl; [exact Htext|]. intros c. apply text_char_nonzero.
      + rewrite Hrend, Hob.
        destruct (Z.eqb_spec (oqtail (outq s2)) (oqtail (outq s1))); [contradiction|].
        reflexivity.
    - left. rewrite Hrend, (Fidle (or_introl Hc)), Z.eqb_refl, Hu1. auto. }
  unfold after_formatter.
  destruct Hcases as [[Hu2 Hr]|[Hu0 (e & B1 & B2 & B3 & B4 & Hu2 & Hr)]].
  - rewrite Hr. simpl. rewrite app_nil_r, <- Hu2.
    split; [rewrite Htx, Ftx, Dtx, Hu2; reflexivity|].
    split; [exact Hun|]. split; [reflexivity|]. split; [constructor|]. lia.
  - assert (Hg : group_text (line_of e (remaining s1) ++ drop 9 (obuf s1), remaining s2)
                 = take 8 (line_of e (remaining s1))).
    { unfold group_text. simpl. rewrite take_app_le; [reflexivity|].
      rewrite line_of_length. lia. }
    rewrite Hr, Hu0. simpl. rewrite app_nil_r, Hg, <- Hu2.
    split; [rewrite Htx, Ftx, Dtx; reflexivity|].
    split; [exact Hun|]. split; [intros H; contradiction|].
    split; [|lia].
    apply Forall_cons. split; [|constructor].
    rewrite Hg. split.
    + rewrite length_take, line_of_length. reflexivity.
    + apply (line_of_text _ (remaining s1) B1 B2 B3 B4).
Qed.

(** *** The stream along an execution *)

Lemma rendered_text_cons (ev : event) (evs : list event) (s s1 : state) :
  step ev s = Some s1 ->
  rendered_text (ev :: evs) s
  = concat (map group_text (rendered_at ev s)) ++ rendered_text evs s1.
Proof.
  intros H. unfold rendered_text. cbn [observe]. rewrite H.
  rewrite map_app, concat_app. reflexivity.
Qed.

Lemma run_stream (evs : list event) (s : state) :
  wf s ->
  exists s',
    run evs s = Some s' /\ wf s'
    /\ tx s' ++ unsent s' = tx s ++ unsent s ++ rendered_text evs s.
Proof.
  revert s. induction evs as [|ev evs IH]; intros s Hs.
  - exists s. unfold rendered_text. simpl. rewrite app_nil_r. auto.
  - destruct ev as [v e|ready].
    + destruct (interrupt_spec v e s Hs)
        as (s1 & H1 & Hs1 & _ & _ & _ & Hob & Hidx & _ & Htx & _).
      destruct (IH s1 Hs1) as (s' & H' & Hs' & Hst).
      exists s'. cbn [run]. rewrite H1. simpl.
      split; [exact H'|]. split; [exact Hs'|].
      rewrite (rendered_text_cons _ _ _ _ H1). cbn [rendered_at map concat app].
      rewrite Hst, Htx. unfold unsent. rewrite Hob, Hidx. reflexivity.
    + destruct (pass_stream ready s Hs) as (s1 & H1 & Hs1 & Htx & Hun & _).
      destruct (IH s1 Hs1) as (s' & H' & Hs' & Hst).
      exists s'. cbn [run]. rewrite H1. simpl.
      split; [exact H'|]. split; [exact Hs'|].
      rewrite (rendered_text_cons _ _ _ _ H1).
      rewrite Hst, Htx, Hun. fold (after_formatter ready s).
      rewrite !app_assoc. f_equal. rewrite <- !app_assoc. f_equal.
      destruct ready; [apply take_drop | apply app_nil_l].
Qed.

(** The groups rendered are those of the entries the output queue held and
    was given, in order. *)
Lemma rendered_text_groups (evs : list event) (s : state) :
  wf s ->
  rendered_text evs s
  = groups_of (remaining s)
      (take (length (observe rendered_at evs s))
            (oq_contents (outq s) ++ observe forwarded_at evs s)).
Proof.
  intros Hs. unfold rendered_text, groups_of. f_equal.
  apply list_eq. intros i.
  change (map group_text (observe rendered_at evs s))
    with (group_text <$> observe rendered_at evs s).
  rewrite list_lookup_fmap, list_lookup_imap.
  destruct (observe rendered_at evs s !! i) as [[b r]|] eqn:E.
  - destruct (run_rendered evs s Hs i b r E) as (e & He & _ & _ & _ & _ & Hb & _).
    rewrite lookup_take_lt by (apply lookup_lt_Some in E; exact E).
    rewrite He. simpl. f_equal. unfold group_text. simpl.
    rewrite <- Hb, take_take. reflexivity.
  - rewrite lookup_take_ge by (apply lookup_ge_None_1 in E; exact E).
    reflexivity.
Qed.

(** *** A channel that takes nothing *)

Lemma busy_keeps_line (evs : list event) (s : state) :
  wf s -> forallb channel_busy evs = true -> unsent s <> [] ->
  exists s',
    run evs s = Some s' /\ tx s' = tx s /\ observe rendered_at evs s = [].
Proof.
  revert s. induction evs as [|ev evs IH]; intros s Hs Hbusy Hun.
  - exists s. auto.
  - simpl in Hbusy. apply andb_prop in Hbusy. destruct Hbusy as [Hev Hbusy].
    destruct ev as [v e|[|]]; [| discriminate Hev |].
    + destruct (interrupt_spec v e s Hs)
        as (s1 & H1 & Hs1 & _ & _ & _ & Hob & Hidx & _ & Htx & _).
      destruct (IH s1 Hs1 Hbusy) as (s' & H' & Htx' & Hr).
      { unfold unsent. rewrite Hob, Hidx. exact Hun. }
      exists s'. cbn [run observe]. rewrite H1. cbn [mbind option_bind].
      split; [exact H'|]. split; [congruence | exact Hr].
    + destruct (pass_stream false s Hs) as (s1 & H1 & Hs1 & Htx & Hun1 & Hkeep & _).
      pose proof (Hkeep Hun) as Hr0.
      unfold after_formatter in Hun1. rewrite Hr0 in Hun1. simpl in Hun1.
      rewrite app_nil_r in Hun1, Htx.
      destruct (IH s1 Hs1 Hbusy) as (s' & H' & Htx' & Hr); [rewrite Hun1; exact Hun|].
      exists s'. cbn [run observe]. rewrite H1. cbn [mbind option_bind].
      split; [exact H'|]. split; [congruence|]. rewrite Hr0, Hr. reflexivity.
Qed.

Lemma busy_run (evs : list event) (s : state) :
  wf s -> forallb channel_busy evs = true ->
  exists s',
    run evs s = Some s' /\ tx s' = tx s
    /\ (length (observe rendered_at evs s) <= 1)%nat.
Proof.
  revert s. induction evs as [|ev evs IH]; intros s Hs Hbusy.
  - exists s. simpl. auto.
  - pose proof Hbusy as Hall.
    simpl in Hbusy. apply andb_prop in Hbusy. destruct Hbusy as [Hev Hbusy].
    destruct ev as [v e|[|]]; [| discriminate Hev |].
    + destruct (interrupt_spec v e s Hs)
        as (s1 & H1 & Hs1 & _ & _ & _ & _ & _ & _ & Htx & _).
      destruct (IH s1 Hs1 Hbusy) as (s' & H' & Htx' & Hr).
      exists s'. cbn [run observe]. rewrite H1. cbn [mbind option_bind].
      split; [exact H'|]. split; [congruence | exact Hr].
    + destruct (pass_stream false s Hs)
        as (s1 & H1 & Hs1 & Htx & Hun1 & _ & Hg & Hlen).
      rewrite app_nil_r in Htx.
      destruct (rendered_at (Pass false) s) as [|bl l] eqn:Hr0.
      * destruct (IH s1 Hs1 Hbusy) as (s' & H' & Htx' & Hr).
        exists s'. cbn [run observe]. rewrite H1, Hr0. cbn [mbind option_bind app length].
        split; [exact H'|]. split; [congruence | exact Hr].
      * destruct l; [|simpl in Hlen; lia].
        apply Forall_cons in Hg. destruct Hg as [[Hg8 _] _].
        unfold after_formatter in Hun1. rewrite Hr0 in Hun1. simpl in Hun1.
        destruct (busy_keeps_line evs s1 Hs1 Hbusy) as (s' & H' & Htx' & Hr).
        { rewrite Hun1, app_nil_r. intros E.
          apply (f_equal length) in E. rewrite length_app, Hg8 in E.
          simpl in E. lia. }
        exists s'. cbn [run observe]. rewrite H1, Hr0, Hr. cbn [mbind option_bind app length].
        split; [exact H'|]. split; [congruence | lia].
Qed.

(** *** Interrupts in a row *)

Lemma interrupts_run (evs : list event) (s : state) :
  wf s -> forallb is_interrupt evs = true ->
  exists s',
    run evs s = Some s' /\ wf s'
    /\ iqhead (hw s') = (iqhead (hw s) + 4 * Z.of_nat (length evs)) mod 256
    /\ iqtail s' = iqtail s /\ outq s' = outq s /\ tx s' = tx s
    /\ allow_timer_events s' = allow_timer_events s
    /\ length (observe produced_at evs s) = length evs.
Proof.
  revert s. induction evs as [|ev evs IH]; intros s Hs Hall.
  - exists s. simpl. rewrite Z.add_0_r.
    destruct (cpu_iqhead _ (wf_hw _ Hs)) as [Hh _].
    rewrite Z.mod_small by lia. auto 10.
  - simpl in Hall. apply andb_prop in Hall. destruct Hall as [Hev Hall].
    destruct ev as [v e|ready]; [|discriminate Hev].
    destruct (ISR_spec v e (hw s) (wf_hw _ Hs)) as (c' & HISR & _ & Hh' & _).
    destruct (interrupt_spec v e s Hs)
      as (s1 & H1 & Hs1 & Hq & Hiqt & Hal & _ & _ & _ & Htx & Hprod & _).
    assert (Hh1 : iqhead (hw s1) = (iqhead (hw s) + 4) mod 256).
    { simpl in H1. rewrite HISR in H1. simpl in H1. injection H1 as <-. exact Hh'. }
    destruct (IH s1 Hs1 Hall) as (s' & H' & Hs' & Hh & Ht & Hq' & Htx' & Hal' & Hlen).
    exists s'. cbn [run observe]. rewrite H1. cbn [mbind option_bind].
    split; [exact H'|]. split; [exact Hs'|].
    split.
    { rewrite Hh, Hh1. cbn [length].
      replace (Z.of_nat (S (length evs))) with (Z.of_nat (length evs) + 1) by lia.
      zdiv. }
    split; [congruence|]. split; [congruence|]. split; [congruence|].
    split; [congruence|].
    rewrite Hprod. simpl. rewrite Hlen. reflexivity.
Qed.

(** *** Counting timer entries *)

Lemma sublist_filter_length {A} (p : A -> bool) (l1 l2 : list A) :
  sublist l1 l2 ->
  (length (List.filter p l1) <= length (List.filter p l2))%nat.
Proof.
  induction 1 as [|x l1 l2 _ IH|x l1 l2 _ IH]; simpl.
  - lia.
  - destruct (p x); simpl; lia.
  - destruct (p x); simpl; lia.
Qed.

Lemma count_timer_to_oq (xs : list entry) :
  count_timer_entries (map to_oq xs)
  = Z.of_nat (length (List.filter is_tick xs)).
Proof.
  unfold count_timer_entries. f_equal.
  induction xs as [|x xs IH]; [reflexivity|].
  assert (Hhead : is_timer_entry (to_oq x) = is_tick x).
  { unfold is_timer_entry, is_tick, to_oq, lnot. cbn [kind snd].
    destruct (kind x =? 0); reflexivity. }
  cbn [map List.filter]. rewrite Hhead.
  destruct (is_tick x); cbn [length]; rewrite IH; reflexivity.
Qed.

Lemma spec_throttle_ticks_bounded (a : Z) (xs : list entry) :
  0 <= a <= max_timer_events ->
  Z.of_nat (length (List.filter is_tick (spec_throttle a xs)))
  <= a + max_timer_events * count_captures xs.
Proof.
  unfold count_captures, max_timer_events.
  revert a. induction xs as [|x xs IH]; intros a Ha.
  - simpl. lia.
  - cbn [spec_throttle List.filter].
    assert (Hc : is_capture x = negb (kind x =? 0)) by reflexivity.
    assert (Ht : is_tick x = (kind x =? 0)) by reflexivity.
    rewrite Hc.
    destruct (kind x =? 0) eqn:Hk; cbn [negb].
    + destruct (Z.ltb_spec 0 a).
      * cbn [List.filter]. rewrite Ht. cbn [length].
        specialize (IH (a - 1) ltac:(lia)). lia.
      * specialize (IH a ltac:(lia)). exact IH.
    + cbn [List.filter]. rewrite Ht. cbn [length].
      specialize (IH 2 ltac:(lia)). unfold max_timer_events. lia.
Qed.

(** *** Hex digits read back *)

Lemma hex_inj (a b : Z) : 0 <= a < 16 -> 0 <= b < 16 -> hex a = hex b -> a = b.
Proof.
  intros Ha Hb. rewrite (proj1 (hex_digit a Ha)), (proj1 (hex_digit b Hb)).
  destruct (Z.ltb_spec a 10), (Z.ltb_spec b 10); lia.
Qed.

Lemma byte_of_nibbles (v w : Z) :
  is_byte v -> is_byte w ->
  Z.shiftr v 4 = Z.shiftr w 4 -> Z.land v 15 = Z.land w 15 -> v = w.
Proof.
  unfold is_byte. intros Hv Hw H1 H2.
  assert (E1 : Z.shiftr v 4 = v / 16) by (apply (Z.shiftr_div_pow2 v 4); lia).
  assert (E2 : Z.land v 15 = v mod 16) by (apply (Z.land_ones v 4); lia).
  assert (E3 : Z.shiftr w 4 = w / 16) by (apply (Z.shiftr_div_pow2 w 4); lia).
  assert (E4 : Z.land w 15 = w mod 16) by (apply (Z.land_ones w 4); lia).
  rewrite E1, E3 in H1. rewrite E2, E4 in H2. zdiv.
Qed.

(** *** The stream from start-up *)

Lemma stream_from_start (c0 : cpu) (pin0 : Byte.byte) (evs : list event) :
  516 <= RAM_SIZE ->
  reset_ok c0 ->
  let s0 := main_start c0 pin0 in
  exists s' n,
    run evs s0 = Some s'
    /\ n = length (observe rendered_at evs s0)
    /\ (n <= length (observe forwarded_at evs s0))%nat
    /\ tx s' ++ unsent s'
       = banner ++ groups_of items_per_line (take n (observe forwarded_at evs s0)).
Proof.
  intros Hram Hc0. cbv zeta.
  destruct (main_start_spec c0 pin0 Hram Hc0)
    as (Hs0 & Htx0 & _ & Hq0 & _ & Hrem0 & Hob0 & Hidx0).
  destruct (run_stream evs _ Hs0) as (s' & Hrun & _ & Hst).
  exists s', (length (observe rendered_at evs (main_start c0 pin0))).
  split; [exact Hrun|]. split; [reflexivity|].
  assert (Hun0 : unsent (main_start c0 pin0) = []).
  { unfold unsent. rewrite Hob0, Hidx0. reflexivity. }
  assert (Hoq : oq_contents (outq (main_start c0 pin0)) = [])
    by (apply oq_contents_nil; exact Hq0).
  split.
  - destruct (observe rendered_at evs (main_start c0 pin0)) as [|bl R] eqn:ER using rev_ind;
      [simpl; lia|].
    rewrite length_app. simpl.
    assert (Hk : (R ++ [bl]) !! length R = Some bl).
    { rewrite lookup_app_r by lia. rewrite Nat.sub_diag. reflexivity. }
    rewrite <- ER in Hk. destruct bl as [b r].
    destruct (run_rendered evs _ Hs0 _ b r Hk) as (e & He & _).
    rewrite Hoq in He. simpl in He. apply lookup_lt_Some in He. lia.
  - rewrite Hst, Htx0, Hun0, (rendered_text_groups evs _ Hs0), Hoq, Hrem0.
    reflexivity.
Qed.

(** *** Ready passes *)

Lemma unsent_nil_byte (s : state) : wf s -> unsent s = [] -> byte_at (obuf s) (obuf_idx s) = 0.
Proof.
  intros Hs Hu.
  destruct (load_in (obuf s) (obuf_idx s)) as [c Ec].
  { pose proof (wf_obuf_idx _ Hs). pose proof (wf_obuf_len _ Hs). lia. }
  rewrite (load_byte_at _ _ _ Ec).
  destruct (Z.eq_dec c 0) as [E|E]; [exact E|].
  unfold unsent in Hu.
  rewrite (cstr_next _ _ c (proj1 (wf_obuf_idx _ Hs)) Ec E) in Hu. discriminate Hu.
Qed.

Lemma ready_passes_send (n : nat) (s : state) :
  wf s -> length (unsent s) = n ->
  exists s',
    run (replicate n (Pass true)) s = Some s' /\ wf s'
    /\ tx s' = tx s ++ unsent s /\ unsent s' = []
    /\ observe rendered_at (replicate n (Pass true)) s = [].
Proof.
  revert s. induction n as [|n IH]; intros s Hs Hlen.
  - exists s. simpl. apply nil_length_inv in Hlen. rewrite Hlen, app_nil_r. auto.
  - destruct (pass_stream true s Hs) as (s1 & H1 & Hs1 & Htx & Hun & Hkeep & _).
    assert (Hne : unsent s <> []) by (intros E; rewrite E in Hlen; discriminate Hlen).
    pose proof (Hkeep Hne) as Hr0.
    unfold after_formatter in Htx, Hun. rewrite Hr0 in Htx, Hun.
    simpl in Htx, Hun. rewrite app_nil_r in Htx, Hun.
    destruct (IH s1 Hs1) as (s' & H' & Hs' & Htx' & Hun' & Hr').
    { rewrite Hun, length_drop, Hlen. lia. }
    exists s'. cbn [replicate run observe]. rewrite H1. cbn [mbind option_bind].
    split; [exact H'|]. split; [exact Hs'|].
    split; [rewrite Htx', Htx, Hun, <- app_assoc, take_drop; reflexivity|].
    split; [exact Hun'|]. rewrite Hr0, Hr'. reflexivity.
Qed.

Lemma no_render_keeps_counter (n : nat) (s : state) :
  wf s ->
  observe rendered_at (replicate n (Pass true)) s = [] ->
  forall s', run (replicate n (Pass true)) s = Some s' ->
  remaining s' = remaining s.
Proof.
  revert s. induction n as [|n IH]; intros s Hs Hr s' Hrun.
  - simpl in Hrun. injection Hrun as <-. reflexivity.
  - cbn [replicate run observe] in Hrun, Hr.
    destruct (pass_spec true s Hs) as (s2 & H2 & Hs2 & _ & _ & _ & _ & Hidle & Hfire).
    rewrite H2 in Hrun, Hr. cbn [mbind option_bind] in Hrun.
    apply app_eq_nil in Hr. destruct Hr as [Hr0 Hr].
    rewrite (IH s2 Hs2 Hr s' Hrun).
    destruct (Z.eq_dec (byte_at (obuf s) (obuf_idx s)) 0) as [Hc|Hc];
      [destruct (oq_contents (outq s) ++ forwarded_at (Pass true) s)
         as [|e rest] eqn:Havail|].
    + apply (Hidle (or_intror eq_refl)).
    + destruct (Hfire Hc e rest eq_refl) as (Hr1 & _).
      rewrite Hr1 in Hr0. discriminate Hr0.
    + apply (Hidle (or_introl Hc)).
Qed.

(** What the dispatcher adds is what the policy forwards, when the output
    queue has room in the passes in which it calls [oqpush]. *)
Lemma run_forwarded (evs : list event) (s : state) :
  wf s ->
  guarded oq_room_at_push evs s = true ->
  observe forwarded_at evs s
  = map to_oq (spec_throttle (allow_timer_events s) (observe dequeued_at evs s)).
Proof.
  revert s. induction evs as [|ev evs IH]; intros s Hs Hroom; [reflexivity|].
  cbn [guarded] in Hroom. apply andb_prop in Hroom. destruct Hroom as [Hev Hroom].
  destruct ev as [v e|ready].
  - destruct (interrupt_spec v e s Hs) as (s1 & H1 & Hs1 & _ & _ & Hal & _).
    rewrite H1 in Hroom. cbn [observe]. rewrite H1.
    cbn [dequeued_at forwarded_at app]. rewrite <- Hal. apply (IH s1 Hs1 Hroom).
  - destruct (pass_spec ready s Hs) as (s1 & H1 & Hs1 & _ & _ & Hidle & Hbusy & _).
    rewrite H1 in Hroom. cbn [observe]. rewrite H1.
    pose proof (wf_allow _ Hs) as Ha.
    rewrite (IH s1 Hs1 Hroom).
    destruct (Z.eq_dec (iq_count s) 0) as [E|E].
    + destruct (Hidle E) as (_ & Hal & Hd & Hf).
      rewrite Hd, Hf, Hal. reflexivity.
    + destruct (Hbusy E) as (_ & _ & Hal & Hd & Hf).
      rewrite Hd, Hf, Hal. cbn [app].
      rewrite (spec_throttle_cons _ _ _ (proj1 Ha)), map_app.
      f_equal.
      cbn [oq_room_at_push] in Hev. unfold pushes in Hev.
      assert (Hne : (iqhead (hw s) =? iqtail s) = false).
      { apply Z.eqb_neq. intros Heq. apply E, (iq_count_range s Hs), Heq. }
      rewrite Hne in Hev. cbn [negb andb] in Hev.
      destruct (forwards _ _); [|reflexivity].
      cbn [negb orb] in Hev. rewrite Hev. reflexivity.
Qed.

(** The output queue holds what it held and what the dispatcher added, less
    the entries rendered, which leave it from the front. *)
Lemma run_outq (evs : list event) (s : state) :
  wf s ->
  exists s',
    run evs s = Some s'
    /\ oq_contents (outq s')
       = drop (length (observe rendered_at evs s))
              (oq_contents (outq s) ++ observe forwarded_at evs s).
Proof.
  revert s. induction evs as [|ev evs IH]; intros s Hs.
  - exists s. split; [reflexivity|]. cbn [observe length drop].
    rewrite app_nil_r. reflexivity.
  - destruct ev as [v e|ready].
    + destruct (interrupt_spec v e s Hs) as (s1 & H1 & Hs1 & Hq & _).
      destruct (IH s1 Hs1) as (s' & H' & Hc).
      exists s'. cbn [run observe]. rewrite H1. cbn [mbind option_bind].
      split; [exact H'|].
      cbn [rendered_at forwarded_at app]. rewrite <- Hq. exact Hc.
    + destruct (pass_spec ready s Hs)
        as (s1 & H1 & Hs1 & _ & _ & _ & _ & Hidle & Hfire).
      destruct (IH s1 Hs1) as (s' & H' & Hc).
      exists s'. cbn [run observe]. rewrite H1. cbn [mbind option_bind].
      split; [exact H'|].
      rewrite Hc, app_assoc.
      destruct (Z.eq_dec (byte_at (obuf s) (obuf_idx s)) 0) as [Hb|Hb];
        [destruct (oq_contents (outq s) ++ forwarded_at (Pass ready) s)
           as [|e rest] eqn:Havail|].
      * destruct (Hidle (or_intror eq_refl)) as (Hr & _ & _ & Hq).
        rewrite Hr, Hq. reflexivity.
      * destruct (Hfire Hb e rest eq_refl) as (Hr & _ & _ & Hq & _).
        rewrite Hr, Hq. reflexivity.
      * destruct (Hidle (or_introl Hb)) as (Hr & _ & _ & Hq).
        rewrite Hr, Hq. reflexivity.
Qed.

(** The text of a group is the first eight bytes of the line the formatter
    wrote. *)
Lemma group_text_line (e : entry) (rem r : Z) (rest : list Z) :
  group_text (line_of e rem ++ rest, r) = take 8 (line_of e rem).
Proof.
  unfold group_text. cbn [fst]. rewrite take_app_le; [reflexivity|].
  rewrite line_of_length. lia.
Qed.

End MoreProofs.

(** * The properties of the specification *)

Section Claims.

Context {dev : device}.

(** ** The output queue *)

(** C4.  Pushing capacity + 1 entries into an empty output queue, wherever in
    the array its cursors stand: the first [oq_capacity] pushes report
    success, the last one reports failure, and the queue then holds the
    first [oq_capacity] entries in the order they were pushed. *)
Theorem oqpush_overflow (es : list entry) (q : oq) :
  oq_wf q ->
  oqhead q = oqtail q ->
  length es = S (Z.to_nat oq_capacity) ->
  exists rs q',
    oqpush_all es q = Some (rs, q')
    /\ rs = replicate (Z.to_nat oq_capacity) 1 ++ [0]
    /\ oq_contents q' = take (Z.to_nat oq_capacity) es.
Proof.
  intros Hq Hempty Hlen.
  pose proof (oq_count_range q Hq) as (Hr & Hz & _).
  apply Hz in Hempty.
  destruct (oqpush_all_spec es q Hq) as (q' & Hall & _ & Hc).
  rewrite Hempty, Z.sub_0_r in Hall, Hc.
  exists (replicate (Z.to_nat oq_capacity) 1 ++ [0]), q'.
  split; [|split; [reflexivity|]].
  - rewrite Hall, Hlen. repeat f_equal.
    + f_equal. lia.
    + replace (S (Z.to_nat oq_capacity) - Z.to_nat oq_capacity)%nat with 1%nat by lia.
      reflexivity.
  - rewrite Hc, (oq_contents_nil q Hempty). reflexivity.
Qed.

(** C5.  A push on a full output queue returns 0 and leaves the array and
    both cursors as they were; a pop on an empty one returns 0, writes
    nothing through its arguments and leaves the array and both cursors as
    they were, while a pop on a queue that holds something returns 1. *)
Theorem oq_full_and_empty (q : oq) :
  oq_wf q ->
  (oqnext (oqhead q) = oqtail q ->
   oq_count q = oq_capacity
   /\ forall v1 v2 v3 v4, oqpush v1 v2 v3 v4 q = Some (0, q))
  /\ (oqhead q = oqtail q ->
      oq_contents q = [] /\ oqpop q = Some (0, None, q))
  /\ (oqhead q <> oqtail q ->
      exists e q', oqpop q = Some (1, Some e, q')).
Proof.
  intros Hq.
  pose proof (oq_count_range q Hq) as (Hr & Hz & Hf).
  split; [|split].
  - intros Hfull. apply Hf in Hfull. split; [exact Hfull|].
    intros. apply oqpush_full; assumption.
  - intros He. apply Hz in He. split.
    + apply oq_contents_nil. exact He.
    + apply oqpop_empty; assumption.
  - intros Hne.
    destruct (oqpop_some q Hq) as (e & q' & Hpop & _).
    + intros E. apply Hne, Hz, E.
    + eauto.
Qed.

(** C9.  The cursors of the output queue stay on entry boundaries inside
    [oqueue]: the invariant holds when [main] starts, every [oqpush] and
    every [oqpop] keeps it, and under it neither of them touches a byte
    outside the array (a fault of the model is such an access). *)
Theorem oq_cursors_in_bounds (q : oq) :
  516 <= RAM_SIZE ->
  oq_wf q ->
  oq_wf oq_init
  /\ (oqhead q mod OQENTRYSZ = 0 /\ 0 <= oqhead q /\ oqhead q + 3 < OQSZ)
  /\ (oqtail q mod OQENTRYSZ = 0 /\ 0 <= oqtail q /\ oqtail q + 3 < OQSZ)
  /\ Z.of_nat (length (oqueue q)) = OQSZ
  /\ (forall v1 v2 v3 v4,
        exists r q', oqpush v1 v2 v3 v4 q = Some (r, q') /\ oq_wf q')
  /\ (exists r vs q', oqpop q = Some (r, vs, q') /\ oq_wf q').
Proof.
  intros Hram Hq.
  split; [apply oq_init_wf; exact Hram|].
  pose proof OQSZ_mod4 as Hs.
  pose proof (oq_count_range q Hq) as (Hr & Hz & Hf).
  destruct Hq as [Hlen [Hh Hh4] [Ht Ht4]].
  assert (Hq : oq_wf q) by (split; [assumption | split; assumption | split; assumption]).
  split; [unfold OQENTRYSZ; repeat split; try lia; zdiv|].
  split; [unfold OQENTRYSZ; repeat split; try lia; zdiv|].
  split; [exact Hlen|].
  split.
  - intros v1 v2 v3 v4.
    destruct (Z.eq_dec (oq_count q) oq_capacity) as [E|E].
    + exists 0, q. split; [apply oqpush_full; assumption | exact Hq].
    + destruct (oqpush_room v1 v2 v3 v4 q Hq E) as (q' & Hp & Hq' & _).
      exists 1, q'. auto.
  - destruct (Z.eq_dec (oq_count q) 0) as [E|E].
    + exists 0, None, q. split; [apply oqpop_empty; assumption | exact Hq].
    + destruct (oqpop_some q Hq E) as (e & q' & Hp & Hq' & _).
      exists 1, (Some e), q'. auto.
Qed.

(** C10.  [oqpush] returns 0 exactly when the queue holds
    [OQSZ / OQENTRYSZ - 1] entries, and 1 otherwise, adding one entry; so of
    any number of pushes in a row on an empty queue the first
    [OQSZ / OQENTRYSZ - 1] succeed and every later one fails. *)
Theorem oqpush_capacity (q : oq) :
  oq_wf q ->
  Z.of_nat (length (oq_contents q)) = oq_count q
  /\ (forall v1 v2 v3 v4,
        exists r q',
          oqpush v1 v2 v3 v4 q = Some (r, q')
          /\ (r = 0 <-> oq_count q = OQSZ / OQENTRYSZ - 1)
          /\ (r = 1 <-> oq_count q < OQSZ / OQENTRYSZ - 1)
          /\ oq_count q' = oq_count q + r)
  /\ (oqhead q = oqtail q ->
      forall es,
        exists q',
          oqpush_all es q
          = Some (replicate (Nat.min (length es) (Z.to_nat (OQSZ / OQENTRYSZ - 1))) 1
                  ++ replicate (length es - Z.to_nat (OQSZ / OQENTRYSZ - 1)) 0, q')).
Proof.
  intros Hq.
  pose proof (oq_count_range q Hq) as (Hr & Hz & Hf).
  fold oq_capacity.
  split; [rewrite oq_contents_length; lia|].
  split.
  - intros v1 v2 v3 v4.
    destruct (Z.eq_dec (oq_count q) oq_capacity) as [E|E].
    + exists 0, q. rewrite (oqpush_full _ _ _ _ q Hq E).
      repeat split; try lia; intros; lia.
    + destruct (oqpush_room v1 v2 v3 v4 q Hq E) as (q' & Hp & _ & _ & Hn & _).
      exists 1, q'. rewrite Hp. repeat split; try lia; intros; lia.
  - intros Hempty es. apply Hz in Hempty.
    destruct (oqpush_all_spec es q Hq) as (q' & Hall & _).
    rewrite Hempty, Z.sub_0_r in Hall. exists q'. exact Hall.
Qed.

(** ** The capture routine *)

(** C7.  One invocation of a capture routine, on a machine in which [r6]
    holds the clear mask and [r1] zero as [main] and the compiler leave
    them: it writes the mask to the interrupt flag register once, before
    anything is read; then reads the port, the timer's low byte and its high
    byte; then stores low byte, high byte, port and kind at the write cursor
    (the kind is zero exactly for the timer's vector); and leaves the cursor
    one entry further, wrapped inside the page.  The list of effects is all
    the routine does outside the register file. *)
Theorem capture_isr_order (v : vector) (e : inputs) (c : cpu) :
  cpu_wf c ->
  let h := iqhead c in
  let pin := byte_val (in_pin e) in
  let tl := byte_val (in_tcnt1l e) in
  let th := byte_val (in_tcnt1h e) in
  let k := capflag_of v in
  exists c',
    ISR v e c
    = Some ([IoWrite INTERRUPT_FLAG_REG INTERRUPT_FLAG_CLEAR;
             IoRead CAPTURE_PORT_IN pin;
             SfrRead TCNT1L tl;
             SfrRead TCNT1H th;
             RamWrite (IQPAGE * 256 + h) tl;
             RamWrite (IQPAGE * 256 + h + 1) th;
             RamWrite (IQPAGE * 256 + h + 2) pin;
             RamWrite (IQPAGE * 256 + h + 3) k], c')
    /\ (k = 0 <-> v = TIMER1_OVF_vect)
    /\ entry_at (iqueue c') h = (tl, th, pin, k)
    /\ iqhead c' = (h + IQENTRYSZ) mod 256
    /\ iqpage c' = IQPAGE
    /\ iflags c' = Z.land (iflags c) (Z.lxor 255 INTERRUPT_FLAG_CLEAR)
    /\ cpu_wf c'.
Proof.
  intros Hc. cbv zeta.
  destruct (ISR_spec v e c Hc) as (c' & HISR & Hc' & Hh & Hat & _ & Hfl).
  exists c'. split; [exact HISR|].
  split.
  { pose proof INTERRUPT_FLAG_CLEAR_nonzero.
    destruct v; simpl; split; intros; try reflexivity; try discriminate; contradiction. }
  split; [exact Hat|]. split; [exact Hh|].
  split; [apply (cpu_iqpage _ Hc')|]. split; [exact Hfl|exact Hc'].
Qed.

End Claims.

Section LoopClaims.

Context {dev : device}.

(** ** The formatter and the transmitter *)

Lemma hex_table (d : Z) :
  0 <= d < 16 -> hex d = nth (Z.to_nat d) (chars "0123456789ABCDEF") 0.
Proof.
  intros Hd.
  assert (H : d = 0 \/ d = 1 \/ d = 2 \/ d = 3 \/ d = 4 \/ d = 5 \/ d = 6 \/ d = 7
              \/ d = 8 \/ d = 9 \/ d = 10 \/ d = 11 \/ d = 12 \/ d = 13 \/ d = 14
              \/ d = 15) by lia.
  repeat (destruct H as [->|H]; [reflexivity|]). subst d. reflexivity.
Qed.

Lemma occurs_at_head (c : Z) (pat l : list Z) (i : nat) :
  occurs_at (c :: pat) l i -> l !! i = Some c.
Proof.
  unfold occurs_at. intros H.
  rewrite <- (Nat.add_0_r i), <- lookup_drop.
  destruct (drop i l) as [|c' l']; simpl in H; [discriminate|].
  injection H as -> _. reflexivity.
Qed.

(** C8.  Whatever interrupts arrive and however the channel answers, the
    stream handed to the debug channel is the banner line followed by
    characters of rendered samples only, and the text [sctrace v1.01] occurs
    in it at position 0 and nowhere else. *)
Theorem banner_once (c0 : cpu) (pin0 : Byte.byte) (evs : list event) :
  516 <= RAM_SIZE ->
  reset_ok c0 ->
  exists s rest,
    run evs (main_start c0 pin0) = Some s
    /\ tx s = banner_text ++ [LF] ++ rest
    /\ Forall (fun c => text_char c = true) rest
    /\ (forall i, occurs_at banner_text (tx s) i <-> i = 0%nat).
Proof.
  intros Hram Hc0.
  destruct (main_start_spec c0 pin0 Hram Hc0) as (Hs0 & Htx0 & _).
  destruct (run_tx evs _ Hs0) as (s & rest & Hrun & _ & Htx & Hrest).
  exists s, rest. split; [exact Hrun|].
  rewrite Htx0 in Htx.
  assert (Hb : banner = [115; 99; 116; 114; 97; 99; 101; 32; 118; 49; 46; 48; 49; 10])
    by reflexivity.
  split; [rewrite Htx; unfold banner; rewrite <- app_assoc; reflexivity|].
  split; [exact Hrest|].
  intros i. split.
  - intros Hocc. apply occurs_at_head in Hocc.
    rewrite Htx, Hb in Hocc.
    destruct i as [|i]; [reflexivity|exfalso].
    do 13 (destruct i as [|i]; [discriminate Hocc|]).
    simpl in Hocc.
    rewrite Forall_lookup in Hrest. specialize (Hrest i 115 Hocc).
    discriminate Hrest.
  - intros ->. unfold occurs_at. rewrite Htx, Hb. reflexivity.
Qed.

(** C6.  In any execution that starts with the line counter at 10, the
    [k]-th rendered sample (counting from 0) is the [k]-th entry of the
    output queue (those it held, then those added); it leaves in the line
    buffer the seven hex digits of that entry: the high and the low nibble
    of its timer high byte, of its timer low byte and of its port state,
    and the low bit of its flag, each as the character of that value in
    0123456789ABCDEF; then a space, or a line feed when it is the tenth of
    its group; then the 0 sentinel.  The line counter is back at 10 after
    each tenth sample.  [hex] gives the character of 0123456789ABCDEF at
    every value below 16: 0 to 9 for the values 0 to 9, the upper-case
    letters A to F for 10 to 15. *)
Theorem line_break_cadence (evs : list event) (s : state) (k : nat)
    (b : list Z) (r : Z) :
  wf s ->
  remaining s = items_per_line ->
  observe rendered_at evs s !! k = Some (b, r) ->
  let tenth := (Z.of_nat k + 1) mod 10 =? 0 in
  (exists e,
      (oq_contents (outq s) ++ observe forwarded_at evs s) !! k = Some e
      /\ let ds := [Z.shiftr (time_hi e) 4; Z.land (time_hi e) 15;
                    Z.shiftr (time_lo e) 4; Z.land (time_lo e) 15;
                    Z.shiftr (port_state e) 4; Z.land (port_state e) 15;
                    Z.land (kind e) 1] in
         Forall (fun d => 0 <= d < 16) ds
         /\ take 7 b = map hex ds
         /\ take 7 b
            = map (fun d => nth (Z.to_nat d) (chars "0123456789ABCDEF") 0) ds)
  /\ (forall d, 0 <= d < 16 ->
        hex d = nth (Z.to_nat d) (chars "0123456789ABCDEF") 0
        /\ (d < 10 -> hex d = 48 + d)
        /\ (10 <= d -> hex d = 65 + (d - 10)))
  /\ b !! 7%nat = Some (if tenth then LF else SPACE)
  /\ b !! 8%nat = Some 0
  /\ r = (if tenth then items_per_line else 10 - (Z.of_nat k + 1) mod 10).
Proof.
  intros Hs Hrem Hk. cbv zeta.
  destruct (run_rendered evs s Hs k b r Hk) as (e & He & B1 & B2 & B3 & B4 & Hb & Hr).
  rewrite Hrem in Hb, Hr. rewrite iter_next_remaining in Hb, Hr.
  destruct e as [[[tlo thi] pv] tf].
  unfold time_lo, time_hi, port_state, kind in *. simpl in B1, B2, B3, B4.
  destruct (nibbles _ B1) as (N1 & N2 & _). destruct (nibbles _ B2) as (N3 & N4 & _).
  destruct (nibbles _ B3) as (N5 & N6 & _). destruct (nibbles _ B4) as (_ & _ & N7).
  assert (H7 : take 7 b = take 7 (take 9 b)) by (rewrite take_take; reflexivity).
  assert (L7 : b !! 7%nat = take 9 b !! 7%nat) by (rewrite lookup_take_lt by lia; reflexivity).
  assert (L8 : b !! 8%nat = take 9 b !! 8%nat) by (rewrite lookup_take_lt by lia; reflexivity).
  rewrite H7, L7, L8, Hb. unfold line_of. cbn [take lookup list_lookup].
  split; [|split; [|split; [|split]]].
  - exists (tlo, thi, pv, tf). split; [exact He|]. cbn [fst snd].
    split; [|split; [reflexivity|]].
    + repeat (apply Forall_cons; split; [assumption|]). apply Forall_nil. trivial.
    + cbn [map]. rewrite <- !hex_table by assumption. reflexivity.
  - intros d Hd. split; [apply hex_table, Hd|].
    destruct (hex_digit d Hd) as (Hh & _).
    destruct (Z.ltb_spec d 10); split; intros; try lia; exact Hh.
  - f_equal.
    destruct (Z.eqb_spec (10 - Z.of_nat k mod 10) 1),
      (Z.eqb_spec ((Z.of_nat k + 1) mod 10) 0); try reflexivity; zdiv.
  - reflexivity.
  - rewrite Hr. unfold items_per_line.
    replace (Z.of_nat (S k)) with (Z.of_nat k + 1) by lia.
    destruct (Z.eqb_spec ((Z.of_nat k + 1) mod 10) 0) as [E|E]; [rewrite E|]; reflexivity.
Qed.

(** ** The dispatcher *)

(** A sample at the head of the input queue that the dispatcher forwards,
    with the output queue empty and the line buffer sent, is rendered in the
    same pass. *)
Lemma render_same_pass (ready : bool) (s : state) (x : entry) (rest : list entry) :
  520 <= RAM_SIZE ->
  wf s ->
  iq_pending s = x :: rest ->
  oq_contents (outq s) = [] ->
  byte_at (obuf s) (obuf_idx s) = 0 ->
  forwards (allow_timer_events s) x = true ->
  exists s',
    step (Pass ready) s = Some s'
    /\ iq_pending s' = rest
    /\ take 9 (obuf s')
       = [hex (Z.shiftr (time_hi x) 4); hex (Z.land (time_hi x) 15);
          hex (Z.shiftr (time_lo x) 4); hex (Z.land (time_lo x) 15);
          hex (Z.shiftr (port_state x) 4); hex (Z.land (port_state x) 15);
          (if kind x =? 0 then 49 else 48);
          (if remaining s =? 1 then LF else SPACE);
          0]
    /\ (x = (58, 1, 240, 1) -> take 7 (obuf s') = chars "013AF00").
Proof.
  intros Hram Hs Hpend Hoq Hc Hfw.
  assert (Hcap : 0 < oq_capacity).
  { unfold oq_capacity, OQSZ, OQENTRYSZ. Z.to_euclidean_division_equations. lia. }
  assert (Hn : iq_count s <> 0).
  { intros E. rewrite (iq_pending_nil _ E) in Hpend. discriminate. }
  assert (Hq0 : oq_count (outq s) = 0).
  { pose proof (oq_contents_length (outq s)) as HL. rewrite Hoq in HL. simpl in HL.
    pose proof (oq_count_range _ (wf_outq _ Hs)) as (Hr & _). lia. }
  destruct (pass_spec ready s Hs) as (s' & H1 & Hs' & _ & _ & _ & Hbusy & _ & Hfire).
  destruct (Hbusy Hn) as (Hp & _ & _ & _ & Hf).
  rewrite Hpend in Hp. injection Hp as Hx Hrest.
  rewrite <- Hx, Hfw, Hq0 in Hf.
  destruct (Z.ltb_spec 0 oq_capacity); [|lia]. cbn [andb] in Hf.
  cbv zeta in Hfire. rewrite Hoq, Hf in Hfire.
  destruct (Hfire Hc (to_oq x) [] eq_refl) as (_ & _ & Hob & _).
  exists s'. split; [exact H1|]. split; [symmetry; exact Hrest|].
  assert (H9 : take 9 (obuf s') = line_of (to_oq x) (remaining s)).
  { rewrite Hob. apply take_app_length'. symmetry. apply line_of_length. }
  split.
  - rewrite H9. unfold line_of, to_oq. do 6 f_equal.
    unfold lnot. destruct (kind x =? 0); reflexivity.
  - intros ->.
    assert (H7 : take 7 (obuf s') = take 7 (take 9 (obuf s')))
      by (rewrite take_take; reflexivity).
    rewrite H7, H9. reflexivity.
Qed.

(** C1, as the code has it.  In an execution that starts with the output
    queue empty, every rendered group is that of a sample the dispatcher
    dequeued and added to the output queue, in the order they were added:
    two hex digits of its timer high byte, two of its low byte, two of its
    port state, then the digit 1 when its kind is zero (a tick) and the
    digit 0 when its kind is not zero (a real capture), then a space or a
    line feed.  The sample with low byte 0x3A, high byte 0x01, port 0xF0 and
    kind 1 is rendered as 013AF00. *)
Theorem pipeline_render (evs : list event) (s : state) (k : nat)
    (b : list Z) (r : Z) :
  wf s ->
  oq_contents (outq s) = [] ->
  observe rendered_at evs s !! k = Some (b, r) ->
  exists x,
    x ∈ observe dequeued_at evs s
    /\ observe forwarded_at evs s !! k = Some (to_oq x)
    /\ take 7 b
       = [hex (Z.shiftr (time_hi x) 4); hex (Z.land (time_hi x) 15);
          hex (Z.shiftr (time_lo x) 4); hex (Z.land (time_lo x) 15);
          hex (Z.shiftr (port_state x) 4); hex (Z.land (port_state x) 15);
          (if kind x =? 0 then 49 else 48)]
    /\ (b !! 7%nat = Some SPACE \/ b !! 7%nat = Some LF)
    /\ (x = (58, 1, 240, 1) -> take 7 b = chars "013AF00").
Proof.
  intros Hs Hoq Hk.
  destruct (run_rendered evs s Hs k b r Hk) as (e & He & _ & _ & _ & _ & Hb & _).
  rewrite Hoq in He. simpl in He.
  destruct (run_queues evs s Hs) as (_ & _ & _ & _ & _ & Hsub & _).
  assert (Hin : e ∈ to_oq <$> observe dequeued_at evs s).
  { eapply elem_of_sublist; [eapply list_elem_of_lookup_2; exact He|].
    etrans; [exact Hsub|].
    exact (fmap_sublist to_oq _ _ (spec_throttle_sublist _ _)). }
  apply list_elem_of_fmap in Hin. destruct Hin as (x & -> & Hx).
  exists x. split; [exact Hx|]. split; [exact He|].
  assert (H7 : take 7 b = take 7 (take 9 b)) by (rewrite take_take; reflexivity).
  assert (L7 : b !! 7%nat = take 9 b !! 7%nat)
    by (rewrite lookup_take_lt by lia; reflexivity).
  rewrite H7, L7, Hb. unfold line_of, to_oq. cbn [take lookup list_lookup].
  assert (Hd : hex (Z.land (lnot (kind x)) 1) = if kind x =? 0 then 49 else 48).
  { unfold lnot. destruct (kind x =? 0); reflexivity. }
  rewrite Hd.
  split; [reflexivity|]. split.
  - destruct (_ =? 1); [right | left]; reflexivity.
  - intros ->. reflexivity.
Qed.

(** C2, as the code has it.  Provided the output queue is not full in the
    passes in which the dispatcher calls [oqpush] (it may be full in the
    others, those that find the input queue empty or hold a tick back): of
    a run of ticks that the dispatcher dequeues from start-up on, the
    allowance being at [max_timer_events], or dequeues after a real capture,
    the first two, or the only one, are added to the output queue and the
    others are not; a real capture dequeued after the run is added to the
    output queue as well and leaves the allowance at [max_timer_events]. *)
Theorem throttle_run (evs : list event) (s : state) (ticks : list entry) :
  wf s ->
  guarded oq_room_at_push evs s = true ->
  Forall (fun x => kind x = 0) ticks ->
  let dequeued := observe dequeued_at evs s in
  let forwarded := observe forwarded_at evs s in
  (allow_timer_events s = max_timer_events ->
   (dequeued = ticks ->
    forwarded = map to_oq (take 2 ticks)
    /\ length forwarded = Nat.min (length ticks) 2)
   /\ (forall c, kind c <> 0 ->
       dequeued = ticks ++ [c] ->
       forwarded = map to_oq (take 2 ticks ++ [c])
       /\ exists s', run evs s = Some s'
                     /\ allow_timer_events s' = max_timer_events))
  /\ (forall pre c0, kind c0 <> 0 ->
      (dequeued = pre ++ [c0] ++ ticks ->
       exists fpre,
         sublist fpre (map to_oq pre)
         /\ forwarded = fpre ++ map to_oq ([c0] ++ take 2 ticks))
      /\ (forall c, kind c <> 0 ->
          dequeued = pre ++ [c0] ++ ticks ++ [c] ->
          exists fpre,
            sublist fpre (map to_oq pre)
            /\ forwarded = fpre ++ map to_oq ([c0] ++ take 2 ticks ++ [c])
            /\ exists s', run evs s = Some s'
                          /\ allow_timer_events s' = max_timer_events)).
Proof.
  intros Hs Hroom Hticks. cbv zeta.
  destruct (run_queues evs s Hs) as (s' & Hrun & _ & _ & Hallow & _ & _).
  pose proof (run_forwarded evs s Hs Hroom) as Heq.
  pose proof (wf_allow _ Hs) as Ha.
  destruct (spec_throttle_ticks max_timer_events ticks) as [Ht Hf];
    [unfold max_timer_events; lia | exact Hticks |].
  assert (Hlast : forall a c, kind c <> 0 -> next_allow a c = max_timer_events).
  { intros a c Hc. unfold next_allow.
    destruct (Z.eqb_spec (kind c) 0); [contradiction|reflexivity]. }
  split.
  - intros Hfull. rewrite Hfull in Heq, Hallow. split.
    + intros Hd. rewrite Hd, Ht in Heq. rewrite Heq. split; [reflexivity|].
      rewrite length_map, length_take. unfold max_timer_events. lia.
    + intros c Hc Hd. rewrite Hd in Heq, Hallow.
      rewrite spec_throttle_app, Ht in Heq by (unfold max_timer_events; lia).
      assert (Hk : (kind c =? 0) = false) by (apply Z.eqb_neq; exact Hc).
      simpl in Heq. rewrite Hk in Heq.
      split; [exact Heq|].
      exists s'. split; [exact Hrun|].
      rewrite Hallow, foldl_app. simpl. apply Hlast, Hc.
  - intros pre c0 Hc0. split.
    + intros Hd. rewrite Hd in Heq.
      rewrite <- (app_nil_r ticks) in Heq at 1.
      rewrite (spec_throttle_run _ pre c0 ticks [] Ha Hc0 Hticks) in Heq.
      simpl in Heq. rewrite app_nil_r in Heq.
      exists (map to_oq (spec_throttle (allow_timer_events s) pre)).
      split; [exact (fmap_sublist to_oq _ _ (spec_throttle_sublist _ _))|].
      rewrite Heq, map_app. reflexivity.
    + intros c Hc Hd. rewrite Hd in Heq, Hallow.
      rewrite (spec_throttle_run _ pre c0 ticks [c] Ha Hc0 Hticks) in Heq.
      assert (Hk : (kind c =? 0) = false) by (apply Z.eqb_neq; exact Hc).
      cbn [spec_throttle] in Heq. rewrite Hk in Heq.
      exists (map to_oq (spec_throttle (allow_timer_events s) pre)).
      split; [exact (fmap_sublist to_oq _ _ (spec_throttle_sublist _ _))|].
      split; [rewrite Heq, map_app; reflexivity|].
      exists s'. split; [exact Hrun|].
      rewrite Hallow, !foldl_app. simpl. apply Hlast, Hc.
Qed.


End LoopClaims.

(** * Properties beyond the specification's *)

Section MoreProperties.

Context {dev : device}.

(** ** The output queue *)

(** X1.  The output queue is first in, first out: entries pushed while
    there is room all succeed, and popping the queue empty then returns what
    it held before followed by the entries pushed, in order; one more pop
    returns 0 and nothing. *)
Theorem oq_fifo_round_trip (es : list entry) (q : oq) :
  oq_wf q ->
  Z.of_nat (length es) <= oq_capacity - oq_count q ->
  exists q1 q2,
    oqpush_all es q = Some (replicate (length es) 1, q1)
    /\ oqpop_all (length (oq_contents q ++ es)) q1
       = Some (map (fun e => (1, Some e)) (oq_contents q ++ es), q2)
    /\ oq_contents q2 = []
    /\ oqpop q2 = Some (0, None, q2).
Proof.
  intros Hq Hroom.
  pose proof (oq_count_range q Hq) as (Hr & _).
  destruct (oqpush_all_spec es q Hq) as (q1 & Hpush & Hq1 & Hc1).
  rewrite take_ge in Hc1 by lia.
  replace (Nat.min (length es) (Z.to_nat (oq_capacity - oq_count q)))
    with (length es) in Hpush by lia.
  replace (length es - Z.to_nat (oq_capacity - oq_count q))%nat
    with 0%nat in Hpush by lia.
  simpl in Hpush. rewrite app_nil_r in Hpush.
  pose proof (oq_contents_length q1) as Hlen1.
  pose proof (oq_count_range q1 Hq1) as (Hr1 & _).
  destruct (oqpop_all_spec (length (oq_contents q ++ es)) q1 Hq1)
    as (q2 & Hpop & Hq2 & Hc2 & Hn2 & _).
  { rewrite <- Hc1, Hlen1. lia. }
  exists q1, q2. split; [exact Hpush|].
  rewrite <- Hc1 in Hpop, Hc2, Hn2 |- *.
  rewrite take_ge in Hpop by lia. rewrite drop_ge in Hc2 by lia.
  split; [exact Hpop|]. split; [exact Hc2|].
  apply oqpop_empty; [exact Hq2|]. rewrite Hn2, Hlen1. lia.
Qed.

(** ** The capture routine and the input queue *)

(** X4.  A capture routine writes the four bytes of the entry at the write
    cursor and no other byte of the input queue's page, and leaves [r1] and
    [r6] as they were. *)
Theorem capture_isr_frame (v : vector) (e : inputs) (c : cpu) :
  cpu_wf c ->
  exists effs c',
    ISR v e c = Some (effs, c')
    /\ zero_reg c' = zero_reg c /\ eifrclr c' = eifrclr c
    /\ length (iqueue c') = length (iqueue c)
    /\ forall i, i < iqhead c \/ iqhead c + 3 < i ->
                 byte_at (iqueue c') i = byte_at (iqueue c) i.
Proof.
  intros Hc.
  destruct (ISR_spec v e c Hc) as (c' & HISR & Hc' & _ & _ & Hother & _).
  eexists. exists c'. split; [exact HISR|].
  split; [rewrite (cpu_zero _ Hc), (cpu_zero _ Hc'); reflexivity|].
  split; [rewrite (cpu_eifrclr _ Hc), (cpu_eifrclr _ Hc'); reflexivity|].
  split; [rewrite (cpu_iqueue_len _ Hc), (cpu_iqueue_len _ Hc'); reflexivity|].
  intros i [Hi|Hi].
  - assert (Ho : i - 3 + 3 < iqhead c \/ iqhead c + 3 < i - 3) by (left; lia).
    assert (H := Hother (i - 3) Ho).
    unfold entry_at in H. injection H as _ _ _ H.
    replace (i - 3 + 3) with i in H by lia. exact H.
  - assert (H := Hother i (or_intror Hi)).
    unfold entry_at in H. injection H as H _ _ _. exact H.
Qed.

(** X3.  The capture routines do not check for a full input queue: 64
    interrupts with no pass of the loop between them bring the write cursor
    back to where it was, so the queue holds as many unread samples as
    before; if it was empty, the 64 samples are lost: the next pass dequeues
    nothing and adds nothing to the output queue. *)
Theorem input_overrun_wraps (evs : list event) (s : state) :
  wf s ->
  forallb is_interrupt evs = true ->
  length evs = 64%nat ->
  exists s',
    run evs s = Some s'
    /\ length (observe produced_at evs s) = 64%nat
    /\ iqhead (hw s') = iqhead (hw s)
    /\ iq_count s' = iq_count s
    /\ (iq_count s = 0 ->
        forall ready,
          observe dequeued_at [Pass ready] s' = []
          /\ observe forwarded_at [Pass ready] s' = []).
Proof.
  intros Hs Hints Hlen.
  destruct (interrupts_run evs s Hs Hints)
    as (s' & Hrun & Hs' & Hh & Ht & _ & _ & _ & Hprod).
  exists s'. split; [exact Hrun|]. split; [congruence|].
  assert (Hh' : iqhead (hw s') = iqhead (hw s)).
  { rewrite Hh, Hlen. destruct (cpu_iqhead _ (wf_hw _ Hs)) as [Hr _].
    change (4 * Z.of_nat 64) with 256. zdiv. }
  assert (Hn : iq_count s' = iq_count s).
  { unfold iq_count. rewrite Hh', Ht. reflexivity. }
  split; [exact Hh'|]. split; [exact Hn|].
  intros Hempty ready.
  destruct (pass_spec ready s' Hs') as (s2 & H2 & _ & _ & _ & Hidle & _).
  destruct Hidle as (_ & _ & Hd & Hf); [congruence|].
  cbn [observe]. rewrite Hd, Hf, H2. split; reflexivity.
Qed.

(** ** The loop *)

(** X7.  From start-up no execution of interrupts and passes touches a
    byte outside [oqueue], [obuf] or the page of the input queue, and the
    machine stays within its bounds: [obuf_idx] is at most 8 and [obuf[8]]
    is 0, the line counter is between 1 and 10, the allowance between 0 and
    2, and neither queue holds more than its capacity. *)
Theorem no_fault_from_start (c0 : cpu) (pin0 : Byte.byte) (evs : list event) :
  516 <= RAM_SIZE ->
  reset_ok c0 ->
  exists s,
    run evs (main_start c0 pin0) = Some s
    /\ wf s
    /\ 0 <= obuf_idx s <= 8 /\ obuf s !! 8%nat = Some 0
    /\ 1 <= remaining s <= 10
    /\ 0 <= allow_timer_events s <= 2
    /\ 0 <= oq_count (outq s) <= oq_capacity
    /\ 0 <= iq_count s <= IQ_CAPACITY.
Proof.
  intros Hram Hc0.
  destruct (main_start_spec c0 pin0 Hram Hc0) as (Hs0 & _).
  destruct (run_total evs _ Hs0) as (s & Hrun & Hs).
  exists s. split; [exact Hrun|]. split; [exact Hs|].
  split; [apply (wf_obuf_idx _ Hs)|]. split; [apply (wf_obuf_end _ Hs)|].
  split; [apply (wf_remaining _ Hs)|]. split; [apply (wf_allow _ Hs)|].
  split; [apply (oq_count_range _ (wf_outq _ Hs)) | apply (iq_count_range _ Hs)].
Qed.

(** X8.  One pass of the loop moves at most one sample out of the input
    queue: the queue holds afterwards what it held, less the sample taken
    from its front, if any.  It adds at most one entry to the output queue,
    the one of the sample taken, and removes at most one, from the front:
    the queue holds afterwards what it held and what was added, less what
    the formatter popped, so its count moves by one at most.  The formatter
    pops nothing while characters of the line buffer are unsent.  The
    channel gets the next character still to send (of the line buffer, or
    else of the group of the entry popped) when it is ready and there is
    one, and nothing otherwise. *)
Theorem pass_bounded_work (ready : bool) (s : state) :
  wf s ->
  exists s' taken added popped,
    step (Pass ready) s = Some s'
    /\ (length taken <= 1)%nat /\ (length popped <= 1)%nat
    /\ iq_pending s = taken ++ iq_pending s'
    /\ iq_count s' = iq_count s - Z.of_nat (length taken)
    /\ sublist added (map to_oq taken)
    /\ oq_contents (outq s) ++ added = popped ++ oq_contents (outq s')
    /\ oq_count (outq s')
       = oq_count (outq s) + Z.of_nat (length added) - Z.of_nat (length popped)
    /\ (unsent s <> [] -> popped = [])
    /\ let text :=
         unsent s
         ++ concat (map (fun e => take 8 (line_of e (remaining s))) popped) in
       tx s' = tx s ++ (if ready then take 1 text else [])
       /\ unsent s' = (if ready then drop 1 text else text).
Proof.
  intros Hs. cbv zeta.
  destruct (pass_stream ready s Hs) as (s' & H1 & Hs' & Htx & Hun & Hkeep & _ & _).
  destruct (pass_spec ready s Hs)
    as (s2 & H2 & _ & _ & _ & Hidle & Hbusy & Hnone & Hfire).
  rewrite H1 in H2. injection H2 as <-.
  unfold after_formatter in Htx, Hun.
  pose proof (oq_count_range _ (wf_outq _ Hs)) as (Hr & _).
  pose proof (oq_count_range _ (wf_outq _ Hs')) as (Hr' & _).
  pose proof (oq_contents_length (outq s)) as Hl.
  pose proof (oq_contents_length (outq s')) as Hl'.
  assert (Hin : exists taken,
             (length taken <= 1)%nat
             /\ iq_pending s = taken ++ iq_pending s'
             /\ iq_count s' = iq_count s - Z.of_nat (length taken)
             /\ sublist (forwarded_at (Pass ready) s) (map to_oq taken)).
  { destruct (Z.eq_dec (iq_count s) 0) as [E|E].
    - destruct (Hidle E) as (E' & _ & _ & Hf). exists [].
      rewrite Hf, (iq_pending_nil _ E), (iq_pending_nil _ E'), E, E'.
      split; [simpl; lia|]. split; [reflexivity|]. split; [reflexivity|constructor].
    - destruct (Hbusy E) as (Hp & Hc & _ & _ & Hf).
      exists [entry_at (iqueue (hw s)) (iqtail s)].
      rewrite Hf, Hp, Hc.
      split; [simpl; lia|]. split; [reflexivity|]. split; [simpl; lia|].
      destruct (_ && _); repeat constructor. }
  destruct Hin as (taken & Ht1 & Ht2 & Ht3 & Ht4).
  exists s', taken, (forwarded_at (Pass ready) s).
  assert (Hcase : byte_at (obuf s) (obuf_idx s) <> 0
                  \/ oq_contents (outq s) ++ forwarded_at (Pass ready) s = []
                  \/ byte_at (obuf s) (obuf_idx s) = 0
                     /\ exists e rest,
                          oq_contents (outq s) ++ forwarded_at (Pass ready) s
                          = e :: rest).
  { destruct (Z.eq_dec (byte_at (obuf s) (obuf_idx s)) 0) as [Hb|Hb]; [|auto].
    destruct (oq_contents (outq s) ++ forwarded_at (Pass ready) s) as [|e rest];
      [auto|]. right. right. split; [exact Hb|]. exists e, rest. reflexivity. }
  assert (Hnone' : byte_at (obuf s) (obuf_idx s) <> 0
                   \/ oq_contents (outq s) ++ forwarded_at (Pass ready) s = [] ->
                   rendered_at (Pass ready) s = []
                   /\ oq_contents (outq s')
                      = oq_contents (outq s) ++ forwarded_at (Pass ready) s).
  { intros Hc. destruct (Hnone Hc) as (Hr0 & _ & _ & Hq). auto. }
  destruct Hcase as [Hc|[Hc|(Hb & e & rest & Havail)]].
  - destruct (Hnone' (or_introl Hc)) as (Hr0 & Hq). exists [].
    rewrite Hr0 in Htx, Hun. cbn [map concat] in Htx, Hun |- *.
    split; [exact H1|]. split; [exact Ht1|]. split; [simpl; lia|].
    split; [exact Ht2|]. split; [exact Ht3|]. split; [exact Ht4|].
    split; [rewrite Hq; reflexivity|].
    split; [rewrite Hq, length_app in Hl'; cbn [length]; lia|].
    split; [reflexivity|]. split; [exact Htx | exact Hun].
  - destruct (Hnone' (or_intror Hc)) as (Hr0 & Hq). exists [].
    rewrite Hr0 in Htx, Hun. cbn [map concat] in Htx, Hun |- *.
    split; [exact H1|]. split; [exact Ht1|]. split; [simpl; lia|].
    split; [exact Ht2|]. split; [exact Ht3|]. split; [exact Ht4|].
    split; [rewrite Hq; reflexivity|].
    split; [rewrite Hq, length_app in Hl'; cbn [length]; lia|].
    split; [reflexivity|]. split; [exact Htx | exact Hun].
  - destruct (Hfire Hb e rest Havail) as (Hr0 & _ & _ & Hq & _). exists [e].
    rewrite Hr0 in Htx, Hun, Hkeep.
    cbn [map concat] in Htx, Hun |- *. rewrite group_text_line in Htx, Hun.
    split; [exact H1|]. split; [exact Ht1|]. split; [simpl; lia|].
    split; [exact Ht2|]. split; [exact Ht3|]. split; [exact Ht4|].
    split; [rewrite Hq, Havail; reflexivity|].
    split.
    { assert (HL : length (oq_contents (outq s) ++ forwarded_at (Pass ready) s)
                   = S (length (oq_contents (outq s'))))
        by (rewrite Havail, Hq; reflexivity).
      rewrite length_app in HL. cbn [length]. lia. }
    split; [intros Hne; specialize (Hkeep Hne); discriminate Hkeep|].
    split; [exact Htx | exact Hun].
Qed.

(** X9.  A sample dequeued while the output queue is full is lost: it
    leaves the input queue, the output queue holds what it held, and the
    allowance changes as if the sample had been forwarded (reset by a real
    capture, one less for a tick while it is positive). *)
Theorem dispatcher_full_queue (s : state) (x : entry) (rest : list entry) :
  wf s ->
  iq_pending s = x :: rest ->
  oq_count (outq s) = oq_capacity ->
  exists s1,
    dispatcher s = Some s1
    /\ iq_pending s1 = rest
    /\ oq_contents (outq s1) = oq_contents (outq s)
    /\ allow_timer_events s1
       = (if kind x =? 0
          then (if allow_timer_events s =? 0 then 0 else allow_timer_events s - 1)
          else max_timer_events).
Proof.
  intros Hs Hpend Hfull.
  assert (Hn : iq_count s <> 0).
  { intros E. rewrite (iq_pending_nil _ E) in Hpend. discriminate. }
  destruct (dispatcher_spec s Hs)
    as (s1 & Hd & _ & _ & _ & _ & _ & _ & _ & _ & Hbusy).
  destruct (Hbusy Hn) as (Hp & _ & Ha & Hc & _).
  rewrite Hpend in Hp. injection Hp as Hx Hrest.
  exists s1. split; [exact Hd|]. split; [symmetry; exact Hrest|].
  rewrite <- Hx in Ha, Hc.
  split.
  - rewrite Hc, Hfull, Z.ltb_irrefl, andb_false_r. apply app_nil_r.
  - rewrite Ha. unfold next_allow.
    destruct (kind x =? 0); [|reflexivity].
    destruct (Z.eqb_spec (allow_timer_events s) 0) as [E|E];
      [exact E | reflexivity].
Qed.

(** X10.  Whether or not the output queue has room, the timer entries added
    to it are bounded by the real captures dequeued: at most the allowance
    at the start plus two for each real capture. *)
Theorem timer_entries_bounded (evs : list event) (s : state) :
  wf s ->
  count_timer_entries (observe forwarded_at evs s)
  <= allow_timer_events s
     + max_timer_events * count_captures (observe dequeued_at evs s).
Proof.
  intros Hs.
  destruct (run_queues evs s Hs) as (_ & _ & _ & _ & _ & Hsub & _).
  pose proof (sublist_filter_length is_timer_entry _ _ Hsub) as Hle.
  pose proof (count_timer_to_oq
                (spec_throttle (allow_timer_events s) (observe dequeued_at evs s)))
    as Hcount.
  pose proof (spec_throttle_ticks_bounded (allow_timer_events s)
                (observe dequeued_at evs s) (wf_allow _ Hs)) as Hb.
  unfold count_timer_entries in *. lia.
Qed.

(** ** The stream *)

(** X5.  Nothing rendered is lost or sent twice: after any execution the
    characters sent, followed by those of the line buffer still to send, are
    the characters sent before, those that were still to send, and the
    groups rendered since, in order. *)
Theorem stream_no_loss (evs : list event) (s : state) :
  wf s ->
  exists s',
    run evs s = Some s'
    /\ tx s' ++ unsent s' = tx s ++ unsent s ++ rendered_text evs s
    /\ (length (unsent s') <= 8)%nat.
Proof.
  intros Hs.
  destruct (run_stream evs s Hs) as (s' & Hrun & Hs' & Hst).
  exists s'. split; [exact Hrun|]. split; [exact Hst|].
  destruct Hs' as [_ _ _ _ _ Hol Hoi Hoe _ _].
  destruct (list16 _ Hol) as (b0 & b1 & b2 & b3 & b4 & b5 & b6 & b7 & b8 & b9
                               & b10 & b11 & b12 & b13 & b14 & b15 & Hobuf).
  rewrite Hobuf in Hoe. simpl in Hoe. injection Hoe as ->.
  unfold unsent. rewrite Hobuf.
  assert (Hi : obuf_idx s' = 0 \/ obuf_idx s' = 1 \/ obuf_idx s' = 2
               \/ obuf_idx s' = 3 \/ obuf_idx s' = 4 \/ obuf_idx s' = 5
               \/ obuf_idx s' = 6 \/ obuf_idx s' = 7 \/ obuf_idx s' = 8) by lia.
  repeat (destruct Hi as [->|Hi]; [simpl;
    repeat match goal with |- context [?c =? 0] => destruct (c =? 0) end;
    simpl; lia|]).
  rewrite Hi. simpl. lia.
Qed.

(** X6.  End to end: from start-up, what the channel was given, followed
    by what is left to send of the line buffer, is the banner line followed
    by the groups of the first entries the dispatcher added to the output
    queue, one group for each entry rendered, in the order they were added,
    the tenth of each ten ending in a line feed. *)
Theorem stream_end_to_end (c0 : cpu) (pin0 : Byte.byte) (evs : list event) :
  516 <= RAM_SIZE ->
  reset_ok c0 ->
  let s0 := main_start c0 pin0 in
  exists s' n,
    run evs s0 = Some s'
    /\ n = length (observe rendered_at evs s0)
    /\ (n <= length (observe forwarded_at evs s0))%nat
    /\ tx s' ++ unsent s'
       = banner ++ groups_of items_per_line (take n (observe forwarded_at evs s0)).
Proof. exact (stream_from_start c0 pin0 evs). Qed.

(** X11.  While the channel takes nothing, nothing is sent and at most one
    entry is rendered, and none if characters of the line buffer were
    unsent; the characters of the rendered group stay in the line buffer,
    after those that were unsent; and every other entry waits in the output
    queue: it holds what it held and what the dispatcher added, less the
    entry rendered. *)
Theorem stalled_channel (evs : list event) (s : state) :
  wf s ->
  forallb channel_busy evs = true ->
  exists s',
    run evs s = Some s'
    /\ tx s' = tx s
    /\ (length (observe rendered_at evs s) <= 1)%nat
    /\ (unsent s <> [] -> observe rendered_at evs s = [])
    /\ unsent s' = unsent s ++ rendered_text evs s
    /\ oq_contents (outq s')
       = drop (length (observe rendered_at evs s))
              (oq_contents (outq s) ++ observe forwarded_at evs s).
Proof.
  intros Hs Hbusy.
  destruct (busy_run evs s Hs Hbusy) as (s' & Hrun & Htx & Hle).
  destruct (run_stream evs s Hs) as (s1 & H1 & _ & Hst).
  destruct (run_outq evs s Hs) as (s2 & H2 & Hq).
  rewrite Hrun in H1, H2. injection H1 as <-. injection H2 as <-.
  exists s'. split; [exact Hrun|]. split; [exact Htx|]. split; [exact Hle|].
  split.
  - intros Hne.
    destruct (busy_keeps_line evs s Hs Hbusy Hne) as (_ & _ & _ & Hr). exact Hr.
  - split; [|exact Hq].
    rewrite Htx in Hst. apply app_inv_head in Hst. exact Hst.
Qed.

(** ** The text of a group *)

(** X2.  The seven digits of a group determine the sample: two samples
    rendered to the same digits have the same timer bytes and port state,
    and both are ticks or both are real captures. *)
Theorem group_text_determines_sample (x y : entry) (r r' : Z) :
  is_byte (time_lo x) -> is_byte (time_hi x) -> is_byte (port_state x) ->
  is_byte (time_lo y) -> is_byte (time_hi y) -> is_byte (port_state y) ->
  take 7 (line_of (to_oq x) r) = take 7 (line_of (to_oq y) r') ->
  time_lo x = time_lo y /\ time_hi x = time_hi y
  /\ port_state x = port_state y /\ (kind x = 0 <-> kind y = 0).
Proof.
  intros A1 A2 A3 B1 B2 B3 H.
  unfold line_of, to_oq in H. cbn [take] in H.
  injection H as H1 H2 H3 H4 H5 H6 H7.
  destruct (nibbles _ A1) as (? & ? & _). destruct (nibbles _ A2) as (? & ? & _).
  destruct (nibbles _ A3) as (? & ? & _). destruct (nibbles _ B1) as (? & ? & _).
  destruct (nibbles _ B2) as (? & ? & _). destruct (nibbles _ B3) as (? & ? & _).
  apply hex_inj in H1, H2, H3, H4, H5, H6; try assumption.
  split; [apply byte_of_nibbles; assumption|].
  split; [apply byte_of_nibbles; assumption|].
  split; [apply byte_of_nibbles; assumption|].
  unfold lnot in H7.
  destruct (Z.eqb_spec (kind x) 0), (Z.eqb_spec (kind y) 0);
    try (split; intros; assumption || contradiction);
    vm_compute in H7; discriminate H7.
Qed.

(** ** From the samples to the stream *)

(** X13.  End to end, while no interrupt finds the input queue holding 63
    samples and no push of the dispatcher finds the output queue full: from
    start-up, with [m] the number of samples dequeued and [n] the number of
    entries rendered, the samples produced are the [m] dequeued followed by
    those still in the input queue; the entries are those of the [m]
    samples less the ticks the allowance of two holds back; the output
    queue holds the entries after the first [n]; and what the channel was
    given, followed by what is left to send, is the banner line followed by
    the groups of the first [n] entries. *)
Theorem stream_of_samples (c0 : cpu) (pin0 : Byte.byte) (evs : list event) :
  516 <= RAM_SIZE ->
  reset_ok c0 ->
  let s0 := main_start c0 pin0 in
  guarded iq_room evs s0 = true ->
  guarded oq_room_at_push evs s0 = true ->
  let produced := observe produced_at evs s0 in
  let m := length (observe dequeued_at evs s0) in
  let n := length (observe rendered_at evs s0) in
  let entries := map to_oq (spec_throttle max_timer_events (take m produced)) in
  exists s',
    run evs s0 = Some s'
    /\ (m <= length produced)%nat
    /\ (n <= length entries)%nat
    /\ produced = take m produced ++ iq_pending s'
    /\ entries = observe forwarded_at evs s0
    /\ oq_contents (outq s') = drop n entries
    /\ tx s' ++ unsent s' = banner ++ groups_of items_per_line (take n entries).
Proof.
  intros Hram Hc0. cbv zeta. intros Hiq Hoq.
  destruct (main_start_spec c0 pin0 Hram Hc0)
    as (Hs0 & _ & Hi0 & Ho0 & Ha0 & _).
  destruct (stream_from_start c0 pin0 evs Hram Hc0) as (s' & n & Hrun & Hn & Hle & Hst).
  destruct (run_queues evs _ Hs0) as (s2 & Hrun2 & _ & Hfifo & _).
  destruct (run_outq evs _ Hs0) as (s3 & Hrun3 & Hq).
  rewrite Hrun in Hrun2, Hrun3. injection Hrun2 as <-. injection Hrun3 as <-.
  pose proof (run_forwarded evs _ Hs0 Hoq) as Heq. rewrite Ha0 in Heq.
  specialize (Hfifo Hiq). rewrite (iq_pending_nil _ Hi0) in Hfifo. simpl in Hfifo.
  rewrite (oq_contents_nil _ Ho0) in Hq. simpl in Hq.
  subst n.
  assert (Htake : take (length (observe dequeued_at evs (main_start c0 pin0)))
                       (observe produced_at evs (main_start c0 pin0))
                  = observe dequeued_at evs (main_start c0 pin0)).
  { rewrite Hfifo, take_app_length. reflexivity. }
  exists s'. split; [exact Hrun|].
  rewrite Htake, <- Heq.
  split; [rewrite Hfifo, length_app; lia|].
  split; [exact Hle|]. split; [exact Hfifo|]. split; [reflexivity|].
  split; [exact Hq | exact Hst].
Qed.

(** ** Throughput *)

(** X14.  With the line buffer sent and an entry in the output queue, eight
    passes in which the channel is ready render the oldest entry and send
    the eight characters of its group, leaving the line buffer sent
    again. *)
Theorem ready_passes_send_group (s : state) (e : entry) (rest : list entry) :
  wf s ->
  unsent s = [] ->
  oq_contents (outq s) = e :: rest ->
  exists s',
    run (replicate 8 (Pass true)) s = Some s'
    /\ tx s' = tx s ++ take 8 (line_of e (remaining s))
    /\ unsent s' = []
    /\ remaining s' = next_remaining (remaining s)
    /\ observe rendered_at (replicate 8 (Pass true)) s
       = [(line_of e (remaining s) ++ drop 9 (obuf s), next_remaining (remaining s))].
Proof.
  intros Hs Hu Hq.
  pose proof (unsent_nil_byte s Hs Hu) as Hc.
  destruct (pass_stream true s Hs) as (s1 & H1 & Hs1 & Htx & Hun & _ & _ & _).
  destruct (pass_spec true s Hs) as (s1' & H1' & _ & _ & _ & _ & _ & _ & Hfire).
  rewrite H1 in H1'. injection H1' as <-.
  rewrite Hq in Hfire. cbn [app] in Hfire.
  destruct (Hfire Hc e _ eq_refl) as (Hr0 & Hrem & _).
  unfold after_formatter in Htx, Hun. rewrite Hr0, Hu in Htx, Hun.
  assert (Hg : group_text (line_of e (remaining s) ++ drop 9 (obuf s),
                           next_remaining (remaining s))
               = take 8 (line_of e (remaining s))).
  { unfold group_text. simpl. rewrite take_app_le; [reflexivity|].
    rewrite line_of_length. lia. }
  cbn [map concat app] in Htx, Hun. rewrite app_nil_r, Hg in Htx, Hun.
  assert (Hlen : length (take 8 (line_of e (remaining s))) = 8%nat).
  { rewrite length_take, line_of_length. reflexivity. }
  destruct (ready_passes_send 7 s1 Hs1) as (s' & H' & Hs' & Htx' & Hun' & Hr').
  { rewrite Hun, length_drop, Hlen. reflexivity. }
  assert (Hrem' : remaining s' = remaining s1)
    by exact (no_render_keeps_counter 7%nat s1 Hs1 Hr' s' H').
  exists s'.
  change (replicate 8 (Pass true)) with (Pass true :: replicate 7 (Pass true)).
  cbn [run observe]. rewrite H1. cbn [mbind option_bind].
  split; [exact H'|].
  split; [rewrite Htx', Htx, Hun, <- app_assoc; cbn [app]; rewrite take_drop; reflexivity|].
  split; [exact Hun'|]. split; [congruence|].
  rewrite Hr0, Hr'. reflexivity.
Qed.

End MoreProperties.

(** * The theorems on the two builds *)

Lemma wf_of_run {dev : device} (evs : list event) (s s' : state) :
  wf s -> run evs s = Some s' -> wf s'.
Proof.
  intros Hs Hrun. destruct (run_total evs s Hs) as (s1 & H1 & Hs1).
  rewrite Hrun in H1. injection H1 as <-. exact Hs1.
Qed.

Lemma cpu_zeroed_ok : reset_ok cpu_zeroed.
Proof.
  split; [reflexivity | reflexivity |].
  apply Forall_replicate. unfold is_byte. lia.
Qed.

Section PortD.

#[local] Existing Instance atmega32u4.

Lemma start_wf : wf start.
Proof. apply main_start_spec; [simpl; lia | apply cpu_zeroed_ok]. Qed.

Lemma stalled_reached : run stall_evs start = Some stalled.
Proof. vm_compute. reflexivity. Qed.

Lemma stalled_wf : wf stalled.
Proof. exact (wf_of_run stall_evs start stalled start_wf stalled_reached). Qed.

(** C2, counterexample.  With the host not listening the output queue is
    full after 512 edges and the allowance is 2; the tick that follows is a
    run of one tick, it is dequeued, and nothing is added to the output
    queue. *)
Lemma throttle_full_queue :
  run stall_evs start = Some stalled
  /\ allow_timer_events stalled = max_timer_events
  /\ observe dequeued_at tick_evs stalled = [(58, 1, 240, 0)]
  /\ observe forwarded_at tick_evs stalled = []
  /\ length (observe forwarded_at tick_evs stalled)
     <> Nat.min (length (observe dequeued_at tick_evs stalled)) 2.
Proof.
  split; [exact stalled_reached|].
  split; [vm_compute; reflexivity|].
  split; [vm_compute; reflexivity|].
  split; [vm_compute; reflexivity|].
  vm_compute. discriminate.
Qed.


(** C2 on an execution in which the output queue is full in passes that
    push nothing: from the stalled machine the host listens again, three
    ticks and an edge are dequeued, the first two ticks and the edge are
    added to the output queue. *)
Lemma throttle_run_witness :
  (wf stalled
   /\ allow_timer_events stalled = max_timer_events
   /\ oq_count (outq stalled) = oq_capacity
   /\ guarded oq_room resume_evs stalled = false
   /\ guarded oq_room_at_push resume_evs stalled = true
   /\ Forall (fun x => kind x = 0) [(0, 0, 170, 0); (1, 0, 170, 0); (2, 0, 170, 0)]
   /\ observe dequeued_at resume_evs stalled
      = [(0, 0, 170, 0); (1, 0, 170, 0); (2, 0, 170, 0)] ++ [(3, 0, 170, 15)])
  /\ observe forwarded_at resume_evs stalled
     = map to_oq (take 2 [(0, 0, 170, 0); (1, 0, 170, 0); (2, 0, 170, 0)]
                  ++ [(3, 0, 170, 15)])
  /\ exists s', run resume_evs stalled = Some s'
                /\ allow_timer_events s' = max_timer_events.
Proof.
  assert (H1 : wf stalled) by exact stalled_wf.
  assert (H2 : allow_timer_events stalled = max_timer_events)
    by (vm_compute; reflexivity).
  assert (H2' : oq_count (outq stalled) = oq_capacity) by (vm_compute; reflexivity).
  assert (H3' : guarded oq_room resume_evs stalled = false)
    by (vm_compute; reflexivity).
  assert (H3 : guarded oq_room_at_push resume_evs stalled = true)
    by (vm_compute; reflexivity).
  assert (H4 : Forall (fun x => kind x = 0)
                 [(0, 0, 170, 0); (1, 0, 170, 0); (2, 0, 170, 0)]).
  { repeat (apply Forall_cons; split; [reflexivity|]). apply Forall_nil. trivial. }
  assert (H5 : observe dequeued_at resume_evs stalled
               = [(0, 0, 170, 0); (1, 0, 170, 0); (2, 0, 170, 0)] ++ [(3, 0, 170, 15)])
    by (vm_compute; reflexivity).
  split; [auto 10|].
  apply (proj2 (proj1 (throttle_run resume_evs stalled _ H1 H3 H4) H2) (3, 0, 170, 15));
    [discriminate | exact H5].
Defined.


(** C4 on the empty queue of the ATmega32U4: of 512 pushes the first 511
    succeed and the last fails. *)
Lemma oqpush_overflow_witness :
  (oq_wf oq_init /\ oqhead oq_init = oqtail oq_init
   /\ length many_entries = S (Z.to_nat oq_capacity))
  /\ exists rs q',
       oqpush_all many_entries oq_init = Some (rs, q')
       /\ rs = replicate (Z.to_nat oq_capacity) 1 ++ [0]
       /\ oq_contents q' = take (Z.to_nat oq_capacity) many_entries.
Proof.
  assert (H1 : oq_wf oq_init) by (apply oq_init_wf; simpl; lia).
  assert (H2 : oqhead oq_init = oqtail oq_init) by reflexivity.
  assert (H3 : length many_entries = S (Z.to_nat oq_capacity))
    by (vm_compute; reflexivity).
  split; [auto|].
  exact (oqpush_overflow many_entries oq_init H1 H2 H3).
Defined.

(** C5 on the full queue of the stalled machine and on the empty queue. *)
Lemma oq_full_and_empty_witness :
  (oq_wf (outq stalled) /\ oqnext (oqhead (outq stalled)) = oqtail (outq stalled)
   /\ oq_wf oq_init /\ oqhead oq_init = oqtail oq_init)
  /\ (forall v1 v2 v3 v4,
        oqpush v1 v2 v3 v4 (outq stalled) = Some (0, outq stalled))
  /\ oqpop oq_init = Some (0, None, oq_init).
Proof.
  assert (H1 : oq_wf (outq stalled)) by exact (wf_outq _ stalled_wf).
  assert (H2 : oqnext (oqhead (outq stalled)) = oqtail (outq stalled))
    by (vm_compute; reflexivity).
  assert (H3 : oq_wf oq_init) by (apply oq_init_wf; simpl; lia).
  assert (H4 : oqhead oq_init = oqtail oq_init) by reflexivity.
  split; [auto|].
  split.
  - exact (proj2 (proj1 (oq_full_and_empty (outq stalled) H1) H2)).
  - exact (proj2 (proj1 (proj2 (oq_full_and_empty oq_init H3)) H4)).
Defined.

(** C6 on an execution: the tenth sample rendered, of the edge with the
    timer at 9 and the port at 0xAA, leaves 0009AA0 and ends its line. *)
Lemma line_break_cadence_witness :
  (wf start /\ remaining start = items_per_line
   /\ observe rendered_at ten_evs start !! 9%nat
      = Some ([48; 48; 48; 57; 65; 65; 48; 10; 0; 0; 0; 0; 0; 0; 0; 0], 10))
  /\ (exists e,
        (oq_contents (outq start) ++ observe forwarded_at ten_evs start) !! 9%nat
        = Some e
        /\ chars "0009AA0"
           = map hex [Z.shiftr (time_hi e) 4; Z.land (time_hi e) 15;
                      Z.shiftr (time_lo e) 4; Z.land (time_lo e) 15;
                      Z.shiftr (port_state e) 4; Z.land (port_state e) 15;
                      Z.land (kind e) 1])
  /\ hex 10 = 65
  /\ [48; 48; 48; 57; 65; 65; 48; 10; 0; 0; 0; 0; 0; 0; 0; 0] !! 7%nat = Some LF
  /\ [48; 48; 48; 57; 65; 65; 48; 10; 0; 0; 0; 0; 0; 0; 0; 0] !! 8%nat = Some 0
  /\ 10 = items_per_line.
Proof.
  assert (H1 : wf start) by exact start_wf.
  assert (H2 : remaining start = items_per_line) by reflexivity.
  assert (H3 : observe rendered_at ten_evs start !! 9%nat
               = Some ([48; 48; 48; 57; 65; 65; 48; 10; 0; 0; 0; 0; 0; 0; 0; 0], 10))
    by (vm_compute; reflexivity).
  split; [auto|].
  destruct (line_break_cadence ten_evs start 9 _ _ H1 H2 H3)
    as ((e & He & _ & Hd & _) & Hhex & H7 & H8 & Hr).
  split; [exists e; split; [exact He | exact Hd]|].
  split; [exact (proj1 (Hhex 10 ltac:(lia)))|].
  split; [exact H7|]. split; [exact H8 | exact Hr].
Defined.

(** C7 on the first edge after start-up. *)
Lemma capture_isr_order_witness :
  cpu_wf (hw start)
  /\ exists c',
       ISR INT0_vect example_in (hw start)
       = Some ([IoWrite INTERRUPT_FLAG_REG 15; IoRead CAPTURE_PORT_IN 240;
                SfrRead TCNT1L 58; SfrRead TCNT1H 1;
                RamWrite 256 58; RamWrite 257 1; RamWrite 258 240;
                RamWrite 259 15], c')
       /\ iqhead c' = 4.
Proof.
  assert (H1 : cpu_wf (hw start)) by exact (wf_hw _ start_wf).
  split; [exact H1|].
  destruct (capture_isr_order INT0_vect example_in (hw start) H1)
    as (c' & HISR & _ & _ & Hh & _).
  exists c'. split; [exact HISR | exact Hh].
Defined.

(** C8 on an execution that renders and sends ten samples. *)
Lemma banner_once_witness :
  (516 <= RAM_SIZE /\ reset_ok cpu_zeroed)
  /\ exists s rest,
       run ten_evs (main_start cpu_zeroed Byte.xff) = Some s
       /\ tx s = banner_text ++ [LF] ++ rest
       /\ Forall (fun c => text_char c = true) rest
       /\ (forall i, occurs_at banner_text (tx s) i <-> i = 0%nat).
Proof.
  assert (H1 : 516 <= RAM_SIZE) by (simpl; lia).
  assert (H2 : reset_ok cpu_zeroed) by exact cpu_zeroed_ok.
  split; [auto|].
  exact (banner_once cpu_zeroed Byte.xff ten_evs H1 H2).
Defined.

(** C9 on the queue as [main] finds it. *)
Lemma oq_cursors_in_bounds_witness :
  (516 <= RAM_SIZE /\ oq_wf oq_init)
  /\ (forall v1 v2 v3 v4,
        exists r q', oqpush v1 v2 v3 v4 oq_init = Some (r, q') /\ oq_wf q')
  /\ (exists r vs q', oqpop oq_init = Some (r, vs, q') /\ oq_wf q').
Proof.
  assert (H1 : 516 <= RAM_SIZE) by (simpl; lia).
  assert (H2 : oq_wf oq_init) by (apply oq_init_wf; exact H1).
  split; [auto|].
  destruct (oq_cursors_in_bounds oq_init H1 H2) as (_ & _ & _ & _ & Hpush & Hpop).
  split; [exact Hpush | exact Hpop].
Defined.

(** C10 on the empty queue of the ATmega32U4: 511 of 512 pushes succeed. *)
Lemma oqpush_capacity_witness :
  oq_wf oq_init
  /\ exists q',
       oqpush_all many_entries oq_init
       = Some (replicate 511 1 ++ replicate 1 0, q').
Proof.
  assert (H1 : oq_wf oq_init) by (apply oq_init_wf; simpl; lia).
  split; [exact H1|].
  exact (proj2 (proj2 (oqpush_capacity oq_init H1)) eq_refl many_entries).
Defined.

(** X1 on the empty queue: a hundred entries pushed and popped. *)
Lemma oq_fifo_round_trip_witness :
  (oq_wf oq_init
   /\ Z.of_nat (length (take 100 many_entries)) <= oq_capacity - oq_count oq_init)
  /\ exists q1 q2,
       oqpush_all (take 100 many_entries) oq_init
       = Some (replicate (length (take 100 many_entries)) 1, q1)
       /\ oqpop_all (length (oq_contents oq_init ++ take 100 many_entries)) q1
          = Some (map (fun e => (1, Some e))
                      (oq_contents oq_init ++ take 100 many_entries), q2)
       /\ oq_contents q2 = []
       /\ oqpop q2 = Some (0, None, q2).
Proof.
  assert (H1 : oq_wf oq_init) by (apply oq_init_wf; simpl; lia).
  assert (H2 : Z.of_nat (length (take 100 many_entries))
               <= oq_capacity - oq_count oq_init)
    by (apply Z.leb_le; vm_compute; reflexivity).
  split; [auto|].
  exact (oq_fifo_round_trip (take 100 many_entries) oq_init H1 H2).
Defined.

(** X2 on two samples that differ in the value of a nonzero kind only. *)
Lemma group_text_determines_sample_witness :
  take 7 (line_of (to_oq (58, 1, 240, 15)) 10)
  = take 7 (line_of (to_oq (58, 1, 240, 1)) 3)
  /\ (kind (58, 1, 240, 15) = 0 <-> kind (58, 1, 240, 1) = 0).
Proof.
  assert (H : take 7 (line_of (to_oq (58, 1, 240, 15)) 10)
              = take 7 (line_of (to_oq (58, 1, 240, 1)) 3)) by reflexivity.
  split; [exact H|].
  apply (group_text_determines_sample (58, 1, 240, 15) (58, 1, 240, 1) 10 3);
    try (cbv; split; [discriminate | reflexivity]).
  exact H.
Defined.

(** X3 on the machine at start-up: 64 edges and the queue looks empty. *)
Lemma input_overrun_wraps_witness :
  (wf start /\ forallb is_interrupt overrun_evs = true
   /\ length overrun_evs = 64%nat /\ iq_count start = 0)
  /\ exists s',
       run overrun_evs start = Some s'
       /\ length (observe produced_at overrun_evs start) = 64%nat
       /\ iq_count s' = 0
       /\ observe dequeued_at [Pass true] s' = [].
Proof.
  assert (H1 : wf start) by exact start_wf.
  assert (H2 : forallb is_interrupt overrun_evs = true) by reflexivity.
  assert (H3 : length overrun_evs = 64%nat) by reflexivity.
  assert (H4 : iq_count start = 0) by reflexivity.
  split; [auto|].
  destruct (input_overrun_wraps overrun_evs start H1 H2 H3)
    as (s' & Hrun & Hp & _ & Hn & Hlost).
  exists s'. split; [exact Hrun|]. split; [exact Hp|].
  split; [rewrite Hn; exact H4|]. exact (proj1 (Hlost H4 true)).
Defined.

(** X4 on the first edge after start-up. *)
Lemma capture_isr_frame_witness :
  cpu_wf (hw start)
  /\ exists effs c',
       ISR INT0_vect example_in (hw start) = Some (effs, c')
       /\ forall i, iqhead (hw start) + 3 < i ->
                    byte_at (iqueue c') i = byte_at (iqueue (hw start)) i.
Proof.
  assert (H1 : cpu_wf (hw start)) by exact (wf_hw _ start_wf).
  split; [exact H1|].
  destruct (capture_isr_frame INT0_vect example_in (hw start) H1)
    as (effs & c' & HISR & _ & _ & _ & Hframe).
  exists effs, c'. split; [exact HISR|].
  intros i Hi. apply Hframe. right. exact Hi.
Defined.

(** X5 on the execution that renders and sends ten samples. *)
Lemma stream_no_loss_witness :
  wf start
  /\ exists s',
       run ten_evs start = Some s'
       /\ tx s' ++ unsent s' = tx start ++ unsent start ++ rendered_text ten_evs start.
Proof.
  assert (H1 : wf start) by exact start_wf.
  split; [exact H1|].
  destruct (stream_no_loss ten_evs start H1) as (s' & Hrun & Hst & _).
  exists s'. auto.
Defined.

(** X6 on the same execution. *)
Lemma stream_end_to_end_witness :
  (516 <= RAM_SIZE /\ reset_ok cpu_zeroed)
  /\ exists s' n,
       run ten_evs start = Some s'
       /\ n = length (observe rendered_at ten_evs start)
       /\ tx s' ++ unsent s'
          = banner ++ groups_of items_per_line
                        (take n (observe forwarded_at ten_evs start)).
Proof.
  assert (H1 : 516 <= RAM_SIZE) by (simpl; lia).
  assert (H2 : reset_ok cpu_zeroed) by exact cpu_zeroed_ok.
  split; [auto|].
  destruct (stream_end_to_end cpu_zeroed Byte.xff ten_evs H1 H2)
    as (s' & n & Hrun & Hn & _ & Hst).
  exists s', n. auto.
Defined.

(** X7 on the execution with the host not listening. *)
Lemma no_fault_from_start_witness :
  (516 <= RAM_SIZE /\ reset_ok cpu_zeroed)
  /\ exists s, run stall_evs (main_start cpu_zeroed Byte.xff) = Some s /\ wf s.
Proof.
  assert (H1 : 516 <= RAM_SIZE) by (simpl; lia).
  assert (H2 : reset_ok cpu_zeroed) by exact cpu_zeroed_ok.
  split; [auto|].
  destruct (no_fault_from_start cpu_zeroed Byte.xff stall_evs H1 H2)
    as (s & Hrun & Hs & _).
  exists s. auto.
Defined.

(** X8 on the stalled machine after one more edge: the pass takes the
    sample from the input queue and leaves the queues no more than one
    entry away from what they held. *)
Lemma pass_bounded_work_witness :
  wf stalled1
  /\ exists s' taken added popped,
       step (Pass true) stalled1 = Some s'
       /\ (length taken <= 1)%nat /\ (length popped <= 1)%nat
       /\ iq_pending stalled1 = taken ++ iq_pending s'
       /\ sublist added (map to_oq taken)
       /\ oq_contents (outq stalled1) ++ added = popped ++ oq_contents (outq s').
Proof.
  assert (H0 : run [Interrupt INT1_vect example_in] stalled = Some stalled1)
    by (vm_compute; reflexivity).
  assert (H1 : wf stalled1) by exact (wf_of_run _ _ _ stalled_wf H0).
  split; [exact H1|].
  destruct (pass_bounded_work true stalled1 H1)
    as (s' & taken & added & popped & Hstep & Ht & Hp & Hiq & _ & Hsub & Hoq & _).
  exists s', taken, added, popped. auto 10.
Defined.

(** X9 on the same machine: the edge's sample is lost. *)
Lemma dispatcher_full_queue_witness :
  (wf stalled1 /\ iq_pending stalled1 = (58, 1, 240, 15) :: []
   /\ oq_count (outq stalled1) = oq_capacity)
  /\ exists s1,
       dispatcher stalled1 = Some s1
       /\ iq_pending s1 = []
       /\ oq_contents (outq s1) = oq_contents (outq stalled1).
Proof.
  assert (H0 : run [Interrupt INT1_vect example_in] stalled = Some stalled1)
    by (vm_compute; reflexivity).
  assert (H1 : wf stalled1) by exact (wf_of_run _ _ _ stalled_wf H0).
  assert (H2 : iq_pending stalled1 = (58, 1, 240, 15) :: [])
    by (vm_compute; reflexivity).
  assert (H3 : oq_count (outq stalled1) = oq_capacity) by (vm_compute; reflexivity).
  split; [auto|].
  destruct (dispatcher_full_queue stalled1 _ _ H1 H2 H3) as (s1 & Hd & Hp & Hc & _).
  exists s1. auto.
Defined.

(** X10 on three ticks and an edge. *)
Lemma timer_entries_bounded_witness :
  wf start
  /\ count_timer_entries (observe forwarded_at idle_evs start)
     <= allow_timer_events start
        + max_timer_events * count_captures (observe dequeued_at idle_evs start).
Proof.
  assert (H1 : wf start) by exact start_wf.
  split; [exact H1|].
  exact (timer_entries_bounded idle_evs start H1).
Defined.

(** X11 on the execution with the host not listening. *)
Lemma stalled_channel_witness :
  (wf start /\ forallb channel_busy stall_evs = true)
  /\ exists s',
       run stall_evs start = Some s'
       /\ tx s' = tx start
       /\ (length (observe rendered_at stall_evs start) <= 1)%nat
       /\ unsent s' = unsent start ++ rendered_text stall_evs start
       /\ oq_contents (outq s')
          = drop (length (observe rendered_at stall_evs start))
                 (oq_contents (outq start) ++ observe forwarded_at stall_evs start).
Proof.
  assert (H1 : wf start) by exact start_wf.
  assert (H2 : forallb channel_busy stall_evs = true) by (vm_compute; reflexivity).
  split; [auto|].
  destruct (stalled_channel stall_evs start H1 H2)
    as (s' & Hrun & Htx & Hle & _ & Hun & Hq).
  exists s'. auto 10.
Defined.

(** X13 on the execution that renders and sends ten samples. *)
Lemma stream_of_samples_witness :
  (516 <= RAM_SIZE /\ reset_ok cpu_zeroed
   /\ guarded iq_room ten_evs (main_start cpu_zeroed Byte.xff) = true
   /\ guarded oq_room_at_push ten_evs (main_start cpu_zeroed Byte.xff) = true)
  /\ exists s',
       run ten_evs (main_start cpu_zeroed Byte.xff) = Some s'
       /\ tx s' ++ unsent s'
          = banner
            ++ groups_of items_per_line
                 (take (length (observe rendered_at ten_evs
                                  (main_start cpu_zeroed Byte.xff)))
                    (map to_oq
                       (spec_throttle max_timer_events
                          (take (length (observe dequeued_at ten_evs
                                           (main_start cpu_zeroed Byte.xff)))
                                (observe produced_at ten_evs
                                   (main_start cpu_zeroed Byte.xff)))))).
Proof.
  assert (H1 : 516 <= RAM_SIZE) by (simpl; lia).
  assert (H2 : reset_ok cpu_zeroed) by exact cpu_zeroed_ok.
  assert (H3 : guarded iq_room ten_evs (main_start cpu_zeroed Byte.xff) = true)
    by (vm_compute; reflexivity).
  assert (H4 : guarded oq_room_at_push ten_evs (main_start cpu_zeroed Byte.xff) = true)
    by (vm_compute; reflexivity).
  split; [auto|].
  destruct (stream_of_samples cpu_zeroed Byte.xff ten_evs H1 H2 H3 H4)
    as (s' & Hrun & _ & _ & _ & _ & _ & Hst).
  exists s'. split; [exact Hrun | exact Hst].
Defined.

(** X14 on the machine that has sent its first group: the next eight passes
    send the second. *)
Lemma ready_passes_send_group_witness :
  (wf first_group_sent /\ unsent first_group_sent = []
   /\ oq_contents (outq first_group_sent)
      = (1, 0, 170, 0) :: map (fun k => (Z.of_nat k, 0, 170, 0)) (seq 2 6))
  /\ exists s',
       run (replicate 8 (Pass true)) first_group_sent = Some s'
       /\ tx s' = tx first_group_sent ++ chars "0001AA0 "
       /\ unsent s' = [].
Proof.
  assert (H0 : run (take 18 ten_evs) start = Some first_group_sent)
    by (vm_compute; reflexivity).
  assert (H1 : wf first_group_sent) by exact (wf_of_run _ _ _ start_wf H0).
  assert (H2 : unsent first_group_sent = []) by (vm_compute; reflexivity).
  assert (H3 : oq_contents (outq first_group_sent)
               = (1, 0, 170, 0) :: map (fun k => (Z.of_nat k, 0, 170, 0)) (seq 2 6))
    by (vm_compute; reflexivity).
  split; [auto|].
  destruct (ready_passes_send_group first_group_sent _ _ H1 H2 H3)
    as (s' & Hrun & Htx & Hun & _).
  exists s'. split; [exact Hrun|]. split; [|exact Hun].
  rewrite Htx. f_equal.
Defined.

End PortD.

Section PortB.

#[local] Existing Instance atmega32u4_portB.

Lemma startB_wf : wf startB.
Proof. apply main_start_spec; [simpl; lia | apply cpu_zeroed_ok]. Qed.

Lemma startB1_reached : run example_evs startB = Some startB1.
Proof. vm_compute. reflexivity. Qed.

Lemma startB1_wf : wf startB1.
Proof. exact (wf_of_run example_evs startB startB1 startB_wf startB1_reached). Qed.

(** C1, counterexample.  On the build that captures port B a pin change
    with the timer at 0x013A and the port at 0xF0 produces the sample with
    kind 1; the next pass renders it as 013AF00 and a space, not as 013AF01. *)
Lemma pipeline_render_kind_digit :
  observe produced_at example_evs startB = [(58, 1, 240, 1)]
  /\ run example_evs startB = Some startB1
  /\ iq_pending startB1 = [(58, 1, 240, 1)]
  /\ exists s',
       step (Pass false) startB1 = Some s'
       /\ take 9 (obuf s') = chars "013AF00 " ++ [0]
       /\ take 7 (obuf s') <> chars "013AF01".
Proof.
  split; [vm_compute; reflexivity|].
  split; [exact startB1_reached|].
  split; [vm_compute; reflexivity|].
  eexists. split; [vm_compute; reflexivity|].
  split; [vm_compute; reflexivity|].
  vm_compute. discriminate.
Qed.

(** C1 on that sample: the first group rendered after it is dequeued. *)
Lemma pipeline_render_witness :
  (wf startB1 /\ oq_contents (outq startB1) = []
   /\ observe rendered_at [Pass false] startB1 !! 0%nat
      = Some (chars "013AF00 " ++ replicate 8 0, 9))
  /\ exists x,
       x ∈ observe dequeued_at [Pass false] startB1
       /\ observe forwarded_at [Pass false] startB1 !! 0%nat = Some (to_oq x)
       /\ take 7 (chars "013AF00 " ++ replicate 8 0)
          = [hex (Z.shiftr (time_hi x) 4); hex (Z.land (time_hi x) 15);
             hex (Z.shiftr (time_lo x) 4); hex (Z.land (time_lo x) 15);
             hex (Z.shiftr (port_state x) 4); hex (Z.land (port_state x) 15);
             (if kind x =? 0 then 49 else 48)].
Proof.
  assert (H1 : wf startB1) by exact startB1_wf.
  assert (H2 : oq_contents (outq startB1) = []) by (vm_compute; reflexivity).
  assert (H3 : observe rendered_at [Pass false] startB1 !! 0%nat
               = Some (chars "013AF00 " ++ replicate 8 0, 9))
    by (vm_compute; reflexivity).
  split; [auto|].
  destruct (pipeline_render [Pass false] startB1 0 _ _ H1 H2 H3)
    as (x & Hx & Hf & H7 & _).
  exists x. split; [exact Hx|]. split; [exact Hf | exact H7].
Defined.

End PortB.
